(** * Parcel feasibility pipeline: a shallow embedding and its properties

    This development embeds the decision core of the NSW property
    intelligence engine (the Python package [backend.app]) and proves the
    properties its specification states about it.

    Conventions of the embedding.

    - Dict-shaped records.  The engines exchange Python dicts with a fixed
      set of keys; each dict is a [Record] with one field per key that the
      embedded functions read.  A key read through [d.get(k, default)] is
      an [option] field and the read is [get field default]; a flag read
      through the truthiness of [d.get(k)] is a [bool] field (an absent key
      and [False] are both falsy).
    - Numbers.  Scores and counts are Python [int]s and are embedded as
      [Z].  Measurements (areas, lengths, percentages, ratios) are embedded
      as exact rationals [Q]: every Python [int] and every finite [float] is
      a rational, the order comparisons of the source are the rational ones,
      and a decimal literal of the source stands for the rational it spells.
      The one float quotient whose floor is taken, the dwelling estimate of
      the yield engine, is embedded with the rounding, the overflow and the
      operand conversion of binary64 division.
      The polygon metrics, which take square roots, are embedded over the
      real numbers [R]: the rounding error of the float operations is not
      modelled, the explicit [round] calls of the source are.
    - Exceptions.  A function that can raise returns a [result], the sum of
      the exception raised and the value returned.
    - Configuration.  [get_settings()] returns the [Settings] singleton; the
      embedded functions take it as their first argument. *)

From Stdlib Require Import ZArith QArith Qround Qabs Qminmax Qpower List String Ascii Bool Lia.
From Stdlib Require Import DecimalString.
From Stdlib Require Import Reals Psatz.
Import ListNotations.

Local Open Scope string_scope.
Local Open Scope list_scope.
Local Open Scope Z_scope.

(** * Python primitives used by the engines *)

Module Py.

(** The exceptions the embedded code can raise. *)
Inductive exn : Set :=
| TypeError
| ValueError
| ZeroDivisionError
| OverflowError.

Definition result (A : Type) : Type := (exn + A)%type.

Definition Ok {A : Type} (a : A) : result A := inr a.
Definition Raise {A : Type} (e : exn) : result A := inl e.

Definition bind {A B : Type} (c : result A) (k : A -> result B) : result B :=
  match c with
  | inl e => inl e
  | inr a => k a
  end.

(** [d.get(key, default)] on an optional dict entry. *)
Definition get {A : Type} (entry : option A) (default : A) : A :=
  match entry with
  | Some v => v
  | None => default
  end.

(** [x in [a, b, ...]] for strings. *)
Definition in_list (x : string) (l : list string) : bool :=
  existsb (String.eqb x) l.

(** [needle in haystack] for two strings: substring test. *)
Fixpoint contains (needle haystack : string) : bool :=
  if prefix needle haystack then true
  else match haystack with
       | EmptyString => false
       | String _ rest => contains needle rest
       end.

(** The right operand of [str in x] must be a string: [x = None] raises. *)
Definition str_operand (x : option string) : result string :=
  match x with
  | Some s => Ok s
  | None => Raise TypeError
  end.

(** [table.get(key, default)] on a dict literal, as an association list. *)
Fixpoint dict_get {V : Type} (table : list (string * V)) (key : string)
    (default : V) : V :=
  match table with
  | [] => default
  | (k, v) :: rest => if String.eqb k key then v else dict_get rest key default
  end.

(** [list(dict.fromkeys(l))]: keys are inserted in iteration order and a key
    already present keeps its position. *)
Definition fromkeys_step (keys : list string) (x : string) : list string :=
  if in_list x keys then keys else keys ++ [x].

Definition fromkeys (l : list string) : list string :=
  fold_left fromkeys_step l [].

(** Order comparisons on measurements. *)
Definition Qltb (x y : Q) : bool := negb (Qle_bool y x).
Definition Qgtb (x y : Q) : bool := Qltb y x.
Definition Qgeb (x y : Q) : bool := Qle_bool y x.

(** [x % m] on numbers, for a positive modulus. *)
Definition modulo (x m : Q) : Q := (x - m * inject_Z (Qfloor (x / m)))%Q.

(** The three-argument [min] and [abs] of the angle comparisons. *)
Definition min3 (a b c : Q) : Q := Qmin (Qmin a b) c.

(** Rounding to the nearest integer, ties to the even one: the rounding of
    [round] and of the fixed-point format specifier. *)
Definition round_half_even (x : Q) : Z :=
  let f := Qfloor x in
  match Qcompare (x - inject_Z f) (1 # 2) with
  | Lt => f
  | Gt => f + 1
  | Eq => if Z.even f then f else f + 1
  end.

(** [round(x, ndigits)]. *)
Definition round (x : Q) (ndigits : nat) : Q :=
  (inject_Z (round_half_even (x * inject_Z (10 ^ Z.of_nat ndigits)))
   / inject_Z (10 ^ Z.of_nat ndigits))%Q.

(** A float computed from finite operands: a finite double, or an infinity
    (no embedded function reads its sign). *)
Inductive float_value : Set :=
| Finite (x : Q)
| Infinite.

(** The exponent [e] of the last place of the double nearest to a positive
    rational [x]: [2^52 <= x / 2^e < 2^53], and [-1074] in the subnormal
    range. *)
Definition last_place (x : Q) : Z :=
  let e := Z.log2 (Qnum x) - Z.log2 (Zpos (Qden x)) - 52 in
  let e := if Qle_bool (2 ^ 52 * 2 ^ e) x then e else e - 1 in
  Z.max e (-1074).

(** Rounding to binary64, to the nearest double and to the even one on a
    tie: the rounding of every float operation.  A magnitude that rounds to
    [2^1024] or beyond overflows to an infinity. *)
Definition binary64 (x : Q) : float_value :=
  let x := Qred x in
  if Qeq_bool x 0 then Finite 0
  else
    let place := (2 ^ last_place (Qabs x))%Q in
    let mantissa := round_half_even (Qabs x / place) in
    let rounded := (inject_Z mantissa * place)%Q in
    if Qle_bool (2 ^ 1024) rounded then Infinite
    else Finite (Qred (if Qle_bool 0 x then rounded else - rounded)).

(** Whether a number is a double. *)
Definition is_binary64 (x : Q) : bool :=
  match binary64 x with
  | Finite v => Qeq_bool v x
  | Infinite => false
  end.

(** The conversion of an operand of a float operation: a float is taken as
    it is, an [int] is rounded to the nearest double and raises when it is
    too large for one; a decimal literal stands for the double nearest to
    it. *)
Definition float_of (x : Q) : result Q :=
  match binary64 x with
  | Finite v => Ok v
  | Infinite => Raise OverflowError
  end.

(** [a / b] where [a] or [b] is a float: both operands are converted, a
    zero divisor raises, and the quotient is rounded. *)
Definition truediv (a b : Q) : result float_value :=
  bind (float_of a) (fun a =>
  bind (float_of b) (fun b =>
  if Qeq_bool b 0 then Raise ZeroDivisionError
  else Ok (binary64 (a / b)))).

(** [math.floor], which raises on an infinity. *)
Definition floor (x : float_value) : result Z :=
  match x with
  | Finite v => Ok (Qfloor v)
  | Infinite => Raise OverflowError
  end.

Definition string_of_Z (z : Z) : string :=
  NilZero.string_of_int (Z.to_int z).

(** The last [d] decimal digits of [n], zero padded. *)
Definition fraction_digits (d : nat) (n : Z) : string :=
  match string_of_Z (10 ^ Z.of_nat d + n mod 10 ^ Z.of_nat d) with
  | EmptyString => EmptyString
  | String _ digits => digits
  end.

(** [f"{x:.df}"]: fixed-point notation with [d] digits after the point. *)
Definition format_fixed (d : nat) (x : Q) : string :=
  let scale := 10 ^ Z.of_nat d in
  let n := round_half_even (Qabs x * inject_Z scale) in
  ((if Qltb x 0 then "-" else "")
     ++ string_of_Z (n / scale)
     ++ match d with
        | O => ""
        | S _ => "." ++ fraction_digits d n
        end)%string.

End Py.

Import Py.

Notation "x <- c ;; k" := (Py.bind c (fun x => k))
  (at level 61, c at next level, right associativity).
Notation "' pat <- c ;; k" :=
  (Py.bind c (fun x => match x with pat => k end))
  (at level 61, pat pattern, c at next level, right associativity).

(** * config/settings.py *)

Module Config.

Record Settings : Type := {
  BUSHFIRE_WEIGHT : Z;
  FLOOD_WEIGHT : Z;
  HERITAGE_WEIGHT : Z;
  GEOTECH_WEIGHT : Z;
  BIODIVERSITY_WEIGHT : Z;
  MISC_WEIGHT : Z;
  CDC_MAX_SLOPE_PERCENT : Q;
  MIN_LOT_AREA_DUAL_OCC_SQM : Q;
  MIN_FRONTAGE_DUAL_OCC_M : Q;
  MIN_FSR_TERRACE : Q;
  MIN_FSR_MULTI_DWELLING : Q;
  DEFAULT_FRONT_SETBACK_M : Q;
  DEFAULT_REAR_SETBACK_M : Q;
  DEFAULT_SIDE_SETBACK_MIN_M : Q;
  DEEP_SOIL_PERCENTAGE : Q;
  LANDSCAPED_AREA_PERCENTAGE : Q;
  AVERAGE_UNIT_SIZE_TOWNHOUSE_SQM : Q
}.

(** [Settings()]: the dataclass defaults, which is what [get_settings]
    returns. *)
Definition default_settings : Settings := {|
  BUSHFIRE_WEIGHT := 3;
  FLOOD_WEIGHT := 3;
  HERITAGE_WEIGHT := 4;
  GEOTECH_WEIGHT := 2;
  BIODIVERSITY_WEIGHT := 1;
  MISC_WEIGHT := 1;
  CDC_MAX_SLOPE_PERCENT := 20.0;
  MIN_LOT_AREA_DUAL_OCC_SQM := 600.0;
  MIN_FRONTAGE_DUAL_OCC_M := 15.0;
  MIN_FSR_TERRACE := 0.7;
  MIN_FSR_MULTI_DWELLING := 0.7;
  DEFAULT_FRONT_SETBACK_M := 6.0;
  DEFAULT_REAR_SETBACK_M := 6.0;
  DEFAULT_SIDE_SETBACK_MIN_M := 0.9;
  DEEP_SOIL_PERCENTAGE := 0.15;
  LANDSCAPED_AREA_PERCENTAGE := 0.30;
  AVERAGE_UNIT_SIZE_TOWNHOUSE_SQM := 100.0
|}.

Definition get_settings : Settings := default_settings.

End Config.

Import Config.

(** * geometry/polygon_ops.py *)

Module PolygonOps.

Local Open Scope R_scope.

Definition Point : Type := (R * R)%type.

(** A [shapely] polygon, as the closed coordinate ring of its exterior
    (the first point is repeated at the end); the empty polygon has the
    empty ring. *)
Record Polygon : Type := { exterior : list Point }.

(** Modelled from the spec: [polygon.area] is computed by the geometry
    library, which is not part of the repository; it is the planar
    shoelace-formula area of the ring. *)
Fixpoint shoelace (ring : list Point) : R :=
  match ring with
  | p :: (q :: _) as rest =>
      (fst p * snd q - fst q * snd p) + shoelace rest
  | _ => 0
  end.

Definition area (polygon : Polygon) : R :=
  Rabs (shoelace (exterior polygon)) / 2.

(** Modelled from the spec: [polygon.length] is computed by the geometry
    library, which is not part of the repository; it is the boundary
    length sum of the ring. *)
Fixpoint boundary_length (ring : list Point) : R :=
  match ring with
  | p :: (q :: _) as rest =>
      sqrt ((fst q - fst p) * (fst q - fst p)
            + (snd q - snd p) * (snd q - snd p))
      + boundary_length rest
  | _ => 0
  end.

Definition length (polygon : Polygon) : R :=
  boundary_length (exterior polygon).

(** [math.sqrt], which raises on a negative argument. *)
Definition math_sqrt (x : R) : result R :=
  if Rlt_dec x 0 then Raise ValueError else Ok (sqrt x).

(** [a / b] on floats, which raises on a zero divisor. *)
Definition truediv (a b : R) : result R :=
  if Req_dec_T b 0 then Raise ZeroDivisionError else Ok (a / b).

(** The two-argument [max] and [min]: the first argument is kept unless the
    second is strictly beyond it. *)
Definition max (a b : R) : R := if Rlt_dec a b then b else a.
Definition min (a b : R) : R := if Rlt_dec b a then b else a.

Definition round_half_even (x : R) : Z :=
  let f := Zfloor x in
  if Rlt_dec (x - IZR f) (1 / 2) then f
  else if Rlt_dec (1 / 2) (x - IZR f) then (f + 1)%Z
  else if Z.even f then f else (f + 1)%Z.

(** [round(x, ndigits)]. *)
Definition round (x : R) (ndigits : nat) : R :=
  IZR (round_half_even (x * 10 ^ ndigits)) / 10 ^ ndigits.

Definition compute_area_perimeter (polygon : Polygon) : R * R :=
  let area_sqm := area polygon in
  let perimeter_m := length polygon in
  (round area_sqm 2, round perimeter_m 2).

Definition compute_regularity_index (polygon : Polygon) : result R :=
  let area := area polygon in
  let perimeter := length polygon in
  if Req_dec_T perimeter 0 then Ok 0
  else
    root <- math_sqrt area ;;
    let p_min := 4 * root in
    regularity_raw <- truediv p_min perimeter ;;
    let regularity := max 0 (min 1 regularity_raw) in
    Ok (round regularity 3).

End PolygonOps.

(** * The dicts exchanged by the engines *)

Module Data.

(** The constraint flags, with the keys of [evaluate_constraints].  The
    entry [bushfire_category] is absent ([None]), holds Python's [None]
    ([Some None]) or holds a string. *)
Record Constraints : Type := {
  bushfire_prone : bool;
  bushfire_category : option (option string);
  flood_prone : bool;
  flood_notes : option string;
  acid_sulfate_soil_class : string;
  heritage_item : bool;
  heritage_conservation_area : bool;
  foreshore_building_line : bool;
  riparian_buffer : bool;
  biodiversity : bool;
  geotech_landslip_risk : option string;
  other_overlays : list string
}.

Record ParcelData : Type := {
  lot_number : string;
  plan_number : string;
  plan_type : string;
  rpd : string;
  parcel_type : string;
  area_sqm : option Q;
  source_dataset : string;
  spatial_accuracy_code : string
}.

(** The keys of the geometry dict that the engines read;
    [front_orientation_deg] is the entry
    [boundaries -> front -> orientation_deg]. *)
Record GeometryData : Type := {
  front_orientation_deg : option Q;
  frontage_m : option Q;
  regularity_index : option Q;
  is_corner_lot : bool
}.

Record SlopeData : Type := {
  mean_gradient_percent : option Q;
  max_gradient_percent : option Q;
  primary_fall_direction_deg : option Q;
  falls_to_street : option bool
}.

Record Setbacks : Type := {
  front : Q;
  rear : Q;
  side : Q
}.

Record Envelope : Type := {
  max_height_m : option Q;
  fsr_control : option Q;
  max_gfa_sqm : option Q;
  front_setback_m : Q;
  rear_setback_m : Q;
  side_setback_min_m : Q;
  deep_soil_required_sqm : Q;
  landscaped_area_required_sqm : Q
}.

Record Typologies : Type := {
  dual_occupancy : bool;
  terrace_row : bool;
  manor_house : bool;
  multi_dwelling : bool;
  apartments : bool
}.

End Data.

Import Data.

(** * analysis/constraints_engine.py *)

Module ConstraintsEngine.

Record ConstraintSeverity : Type := {
  bushfire_severity : Z;
  flood_severity : Z;
  heritage_severity : Z;
  geotech_severity : Z;
  biodiversity_severity : Z;
  total_score : Z;
  rating : string
}.

Definition evaluate_constraints (parcel_geometry : PolygonOps.Polygon)
    (geometry_data : GeometryData) : Constraints := {|
  bushfire_prone := false;
  bushfire_category := Some None;
  flood_prone := false;
  flood_notes := None;
  acid_sulfate_soil_class := "None";
  heritage_item := false;
  heritage_conservation_area := false;
  foreshore_building_line := false;
  riparian_buffer := false;
  biodiversity := false;
  geotech_landslip_risk := Some "Low";
  other_overlays := []
|}.

(** The "Overall rating" block that ends [compute_constraint_severity]. *)
Definition overall_rating (total_score : Z) : string :=
  if total_score =? 0 then "None"
  else if total_score <=? 3 then "Low"
  else if total_score <=? 7 then "Medium"
  else if total_score <=? 12 then "High"
  else "Red-Flag".

Definition geotech_table : list (string * Z) :=
  [("Very High", 3); ("High", 2); ("Moderate", 1); ("Low", 0)].

Definition compute_constraint_severity (settings : Settings)
    (constraints : Constraints) : result ConstraintSeverity :=
  bushfire_severity <-
    (if bushfire_prone constraints then
       category <-
         str_operand (get (bushfire_category constraints) (Some "")) ;;
       if contains "Category 1" category
          || contains "Vegetation Category 1" category
       then Ok 3
       else if contains "Category 2" category then Ok 2
       else Ok 1
     else Ok 0) ;;
  let flood_severity := if flood_prone constraints then 3 else 0 in
  let heritage_severity :=
    if heritage_item constraints then 3
    else if heritage_conservation_area constraints then 2
    else 0 in
  let geotech_severity :=
    dict_get geotech_table (get (geotech_landslip_risk constraints) "Low") 0 in
  let biodiversity_severity := if biodiversity constraints then 2 else 0 in
  let misc_severity := Z.of_nat (List.length (other_overlays constraints)) in
  let total_score :=
    BUSHFIRE_WEIGHT settings * bushfire_severity
    + FLOOD_WEIGHT settings * flood_severity
    + HERITAGE_WEIGHT settings * heritage_severity
    + GEOTECH_WEIGHT settings * geotech_severity
    + BIODIVERSITY_WEIGHT settings * biodiversity_severity
    + MISC_WEIGHT settings * misc_severity in
  Ok {| bushfire_severity := bushfire_severity;
        flood_severity := flood_severity;
        heritage_severity := heritage_severity;
        geotech_severity := geotech_severity;
        biodiversity_severity := biodiversity_severity;
        total_score := total_score;
        rating := overall_rating total_score |}.

Definition recommend_required_studies (constraints : Constraints)
    : list string :=
  let studies := [] in
  let studies :=
    if bushfire_prone constraints
    then studies ++ ["Bushfire Assessment Report"; "BAL Certificate"]
    else studies in
  let studies :=
    if flood_prone constraints
    then studies ++ ["Flood Study"; "Flood Impact Assessment"]
    else studies in
  let geotech_risk := get (geotech_landslip_risk constraints) "Low" in
  let studies :=
    if in_list geotech_risk ["High"; "Very High"; "Moderate"] then
      let studies := studies ++ ["Geotechnical Report"] in
      if in_list geotech_risk ["High"; "Very High"]
      then studies ++ ["Slope Stability Assessment"]
      else studies
    else studies in
  let studies :=
    if biodiversity constraints
    then studies ++ ["Biodiversity Assessment"; "Flora and Fauna Report"]
    else studies in
  let studies :=
    if foreshore_building_line constraints
    then studies ++ ["Coastal Hazard Assessment"; "Foreshore Setback Report"]
    else studies in
  let studies :=
    if heritage_item constraints || heritage_conservation_area constraints
    then studies ++ ["Heritage Impact Statement"]
    else studies in
  studies.

End ConstraintsEngine.

(** * analysis/risk_engine.py *)

Module RiskEngine.

Import ConstraintsEngine.

(** The "Map score to rating" block that ends [compute_risk_rating]. *)
Definition score_to_rating (total_score : Z) : string :=
  if total_score =? 0 then "None"
  else if total_score <=? 3 then "Low"
  else if total_score <=? 7 then "Medium"
  else if total_score <=? 12 then "High"
  else "Red-Flag".

Definition compute_risk_rating (constraints : Constraints)
    (constraint_severity : ConstraintSeverity) (slope_data : SlopeData)
    (geometry_data : GeometryData) : string :=
  let base_score := total_score constraint_severity in
  let geometry_score := 0 in
  let mean_gradient := get (mean_gradient_percent slope_data) 0%Q in
  let geometry_score :=
    if Qgtb mean_gradient 25 then geometry_score + 3
    else if Qgtb mean_gradient 15 then geometry_score + 2
    else geometry_score in
  let regularity := get (regularity_index geometry_data) 1.0%Q in
  let geometry_score :=
    if Qltb regularity 0.75 then geometry_score + 1 else geometry_score in
  let total_score := base_score + geometry_score in
  score_to_rating total_score.

End RiskEngine.

(** * planning/lep_rules.py *)

Module LepRules.

Definition determine_allowed_typologies (settings : Settings)
    (zone_code : string) (parcel_area_sqm : Q) (geometry_data : GeometryData)
    : Typologies :=
  let frontage_m := get (frontage_m geometry_data) 0%Q in
  let dual_occupancy := false in
  let terrace_row := false in
  let manor_house := false in
  let multi_dwelling := false in
  let apartments := false in
  let dual_occupancy :=
    if in_list zone_code ["R1"; "R2"; "R3"] then
      if Qgeb parcel_area_sqm (MIN_LOT_AREA_DUAL_OCC_SQM settings)
         && Qgeb frontage_m (MIN_FRONTAGE_DUAL_OCC_M settings)
      then true else dual_occupancy
    else dual_occupancy in
  let terrace_row :=
    if in_list zone_code ["R1"; "R3"] then true else terrace_row in
  let manor_house :=
    if in_list zone_code ["R1"; "R2"] then
      if Qgeb parcel_area_sqm 600 then true else manor_house
    else manor_house in
  let multi_dwelling :=
    if in_list zone_code ["R1"; "R3"] then true else multi_dwelling in
  let apartments :=
    if in_list zone_code ["R3"; "R4"] then true else apartments in
  {| dual_occupancy := dual_occupancy;
     terrace_row := terrace_row;
     manor_house := manor_house;
     multi_dwelling := multi_dwelling;
     apartments := apartments |}.

Definition calculate_setbacks (settings : Settings) (zone_code : string)
    (geometry_data : GeometryData) : Setbacks :=
  let setbacks := {| front := DEFAULT_FRONT_SETBACK_M settings;
                     rear := DEFAULT_REAR_SETBACK_M settings;
                     side := DEFAULT_SIDE_SETBACK_MIN_M settings |} in
  if is_corner_lot geometry_data
  then {| front := front setbacks; rear := rear setbacks; side := 3.0 |}
  else setbacks.

(** The [envelope] and [typologies] entries of the LEP dict, together with
    the zone code of its [admin] entry. *)
Record LepData : Type := {
  zone_code : string;
  envelope : Envelope;
  typologies : Typologies
}.

(** The floor area and the two required areas are products of the parcel
    area, taken here over the rationals and then rounded to one place as
    the source rounds them. *)
Definition evaluate_lep_controls (settings : Settings)
    (parcel_data : ParcelData) (geometry_data : GeometryData) : LepData :=
  let zone_code := "R1" in
  let max_height_m := 8.5%Q in
  let fsr_control := 0.6%Q in
  let parcel_area := get (area_sqm parcel_data) 600%Q in
  let max_gfa_sqm := (fsr_control * parcel_area)%Q in
  let typologies :=
    determine_allowed_typologies settings zone_code parcel_area geometry_data in
  let setbacks := calculate_setbacks settings zone_code geometry_data in
  let deep_soil_required_sqm :=
    (parcel_area * DEEP_SOIL_PERCENTAGE settings)%Q in
  let landscaped_area_required_sqm :=
    (parcel_area * LANDSCAPED_AREA_PERCENTAGE settings)%Q in
  {| zone_code := zone_code;
     envelope :=
       {| max_height_m := Some max_height_m;
          fsr_control := Some fsr_control;
          max_gfa_sqm := Some (round max_gfa_sqm 1);
          front_setback_m := front setbacks;
          rear_setback_m := rear setbacks;
          side_setback_min_m := side setbacks;
          deep_soil_required_sqm := round deep_soil_required_sqm 1;
          landscaped_area_required_sqm :=
            round landscaped_area_required_sqm 1 |};
     typologies := typologies |}.

End LepRules.

(** * analysis/yield_engine.py *)

Module YieldEngine.

(** The yield dict, without its free-text [notes] entry. *)
Record YieldData : Type := {
  dual_occ_feasible : bool;
  terrace_row_feasible : bool;
  manor_house_feasible : bool;
  multi_dwelling_feasible : bool;
  indicative_dwellings_count : Z;
  primary_typology : string
}.

Definition compute_yield (settings : Settings) (parcel_data : ParcelData)
    (geometry_data : GeometryData) (envelope_data : Envelope)
    (typologies : Typologies) (constraints : Constraints)
    : result YieldData :=
  let parcel_area := get (area_sqm parcel_data) 600%Q in
  let frontage := get (frontage_m geometry_data) 15%Q in
  let max_gfa_sqm := get (max_gfa_sqm envelope_data) 0%Q in
  let fsr_control := get (fsr_control envelope_data) 0.6%Q in
  let max_height_m := get (max_height_m envelope_data) 8.5%Q in
  let dual_occ_feasible :=
    dual_occupancy typologies
    && negb (heritage_item constraints)
    && Qgeb parcel_area (MIN_LOT_AREA_DUAL_OCC_SQM settings)
    && Qgeb frontage (MIN_FRONTAGE_DUAL_OCC_M settings) in
  let terrace_row_feasible :=
    terrace_row typologies
    && Qgeb fsr_control (MIN_FSR_TERRACE settings)
    && negb (heritage_item constraints) in
  let manor_house_feasible :=
    manor_house typologies
    && Qle_bool max_height_m 8.5
    && Qgeb parcel_area 600
    && negb (heritage_item constraints) in
  let multi_dwelling_feasible :=
    multi_dwelling typologies
    && Qgeb fsr_control (MIN_FSR_MULTI_DWELLING settings)
    && negb (heritage_item constraints) in
  let indicative_dwellings := 1 in
  let primary_typology := "Single Dwelling" in
  '(indicative_dwellings, primary_typology) <-
    (if dual_occ_feasible then Ok (2, "Dual Occupancy")
     else if manor_house_feasible then Ok (3, "Manor House")
     else if multi_dwelling_feasible then
       ratio <- truediv max_gfa_sqm (AVERAGE_UNIT_SIZE_TOWNHOUSE_SQM settings) ;;
       estimated_units <- floor ratio ;;
       Ok (Z.max 2 (Z.min 6 estimated_units), "Multi-Dwelling Housing")
     else if terrace_row_feasible then
       ratio <- truediv max_gfa_sqm (AVERAGE_UNIT_SIZE_TOWNHOUSE_SQM settings) ;;
       estimated_units <- floor ratio ;;
       Ok (Z.max 3 (Z.min 6 estimated_units), "Terrace/Row Housing")
     else Ok (indicative_dwellings, primary_typology)) ;;
  Ok {| dual_occ_feasible := dual_occ_feasible;
        terrace_row_feasible := terrace_row_feasible;
        manor_house_feasible := manor_house_feasible;
        multi_dwelling_feasible := multi_dwelling_feasible;
        indicative_dwellings_count := indicative_dwellings;
        primary_typology := primary_typology |}.

End YieldEngine.

(** * planning/cdc_low_rise.py *)

Module CdcLowRise.

Record CdcPotential : Type := {
  is_potentially_cdc_compliant : bool;
  likely_pathway : string;
  blocking_constraints : list string
}.

Definition evaluate_cdc_potential (settings : Settings)
    (parcel_data : ParcelData) (geometry_data : GeometryData)
    (constraints : Constraints) (slope_data : SlopeData) : CdcPotential :=
  let blocking_constraints := [] in
  let blocking_constraints :=
    if bushfire_prone constraints
    then blocking_constraints ++ ["Bushfire (BAL > 40 requires report)"]
    else blocking_constraints in
  let blocking_constraints :=
    if flood_prone constraints
    then blocking_constraints ++ ["Flood control lot"]
    else blocking_constraints in
  let blocking_constraints :=
    if heritage_item constraints
    then blocking_constraints ++ ["Heritage Item"]
    else blocking_constraints in
  let blocking_constraints :=
    if heritage_conservation_area constraints
    then blocking_constraints ++ ["Heritage Conservation Area"]
    else blocking_constraints in
  let blocking_constraints :=
    if foreshore_building_line constraints
    then blocking_constraints ++ ["Foreshore Building Line"]
    else blocking_constraints in
  let blocking_constraints :=
    if riparian_buffer constraints
    then blocking_constraints ++ ["Riparian Buffer"]
    else blocking_constraints in
  let parcel_area := get (area_sqm parcel_data) 0%Q in
  let frontage := get (frontage_m geometry_data) 0%Q in
  let blocking_constraints :=
    if Qltb parcel_area (MIN_LOT_AREA_DUAL_OCC_SQM settings)
    then blocking_constraints
           ++ [("Insufficient lot area (" ++ format_fixed 0 parcel_area
                  ++ " sqm)")%string]
    else blocking_constraints in
  let blocking_constraints :=
    if Qltb frontage (MIN_FRONTAGE_DUAL_OCC_M settings)
    then blocking_constraints
           ++ [("Insufficient frontage (" ++ format_fixed 1 frontage
                  ++ " m)")%string]
    else blocking_constraints in
  let mean_gradient := get (mean_gradient_percent slope_data) 0%Q in
  let blocking_constraints :=
    if Qgtb mean_gradient (CDC_MAX_SLOPE_PERCENT settings)
    then blocking_constraints
           ++ [("Slope too steep for CDC (" ++ format_fixed 1 mean_gradient
                  ++ "%)")%string]
    else blocking_constraints in
  (* Step 8 reads the stormwater flag and does nothing with it ([pass]). *)
  let falls_to_street := get (falls_to_street slope_data) true in
  let is_potentially_cdc_compliant :=
    Nat.eqb (List.length blocking_constraints) 0 in
  let likely_pathway :=
    if is_potentially_cdc_compliant then "CDC Possible" else "DA Only" in
  {| is_potentially_cdc_compliant := is_potentially_cdc_compliant;
     likely_pathway := likely_pathway;
     blocking_constraints := blocking_constraints |}.

End CdcLowRise.

(** * planning/da_guidance.py *)

Module DaGuidance.

Record DaPotential : Type := {
  is_likely_supportable : bool;
  key_issues : list string;
  recommended_studies : list string;
  red_flags : list string
}.

Definition evaluate_da_potential (parcel_data : ParcelData)
    (geometry_data : GeometryData) (constraints : Constraints)
    (slope_data : SlopeData) (recommended_studies : list string)
    : DaPotential :=
  let key_issues := [] in
  let key_issues :=
    if bushfire_prone constraints
    then key_issues ++ ["Bushfire vegetation setback"]
    else key_issues in
  let key_issues :=
    if flood_prone constraints
    then key_issues ++ ["Flood planning and stormwater management"]
    else key_issues in
  let key_issues :=
    if heritage_item constraints
    then key_issues ++ ["Heritage significance - strict controls apply"]
    else if heritage_conservation_area constraints
    then key_issues
           ++ ["Heritage conservation area - streetscape compatibility"]
    else key_issues in
  let mean_gradient := get (mean_gradient_percent slope_data) 0%Q in
  let key_issues :=
    if Qgtb mean_gradient 15
    then key_issues ++ ["Slope and stormwater"]
    else key_issues in
  let geotech_risk := get (geotech_landslip_risk constraints) "Low" in
  let key_issues :=
    if in_list geotech_risk ["High"; "Very High"]
    then key_issues ++ ["Geotechnical stability"]
    else key_issues in
  let regularity := get (regularity_index geometry_data) 1.0%Q in
  let key_issues :=
    if Qltb regularity 0.75
    then key_issues ++ ["Irregular lot shape - design challenges"]
    else key_issues in
  let key_issues := key_issues ++ ["Streetscape bulk & scale"] in
  let key_issues :=
    if is_corner_lot geometry_data
    then key_issues ++ ["Corner lot - secondary street setbacks"]
    else key_issues in
  let is_likely_supportable := true in
  let is_likely_supportable :=
    if heritage_item constraints then false else is_likely_supportable in
  let is_likely_supportable :=
    if String.eqb geotech_risk "Very High" then false
    else is_likely_supportable in
  let red_flags := [] in
  let red_flags :=
    if heritage_item constraints
    then red_flags ++ ["Heritage Item"]
    else red_flags in
  let red_flags :=
    if String.eqb geotech_risk "Very High"
    then red_flags ++ ["Very High Landslip Risk"]
    else red_flags in
  let key_issues := fromkeys key_issues in
  {| is_likely_supportable := is_likely_supportable;
     key_issues := firstn 5 key_issues;
     recommended_studies := recommended_studies;
     red_flags := red_flags |}.

End DaGuidance.

(** * geometry/slope.py *)

Module Slope.

(** Elevation samples; [compute_slope_metrics] only tests their presence. *)
Definition Dem : Type := list (list Q).

Definition compute_slope_metrics (polygon : PolygonOps.Polygon)
    (dem_data : option Dem) (front_orientation_deg : option Q) : SlopeData :=
  let '(mean_gradient, max_gradient, primary_fall_direction) :=
    match dem_data with
    | None => (6.5, 12.0, 180.0)%Q
    | Some _ => (5.0, 10.0, 180.0)%Q
    end in
  let falls_to_street := false in
  let falls_to_street :=
    match front_orientation_deg with
    | Some front_orientation_deg =>
        let street_direction := modulo (front_orientation_deg + 90)%Q 360 in
        let angle_diff :=
          min3 (Qabs (primary_fall_direction - street_direction))
               (Qabs (primary_fall_direction - street_direction + 360))
               (Qabs (primary_fall_direction - street_direction - 360)) in
        Qle_bool angle_diff 45
    | None => falls_to_street
    end in
  {| mean_gradient_percent := Some (round mean_gradient 1);
     max_gradient_percent := Some (round max_gradient 1);
     primary_fall_direction_deg := Some (round primary_fall_direction 0);
     falls_to_street := Some falls_to_street |}.

End Slope.

(** * pipeline/runner.py *)

Module Runner.

Import PolygonOps.

(** The request: the two string entries of the API's [ParcelInput]. *)
Record UserInput : Type := {
  input_type : option string;
  value : option string
}.

Record InputData : Type := {
  query_type : string;
  raw_input : string;
  resolved_address : option string;
  resolved_lot_plan : string;
  resolved_coordinates : Q * Q
}.

Definition normalise_input (user_input : UserInput) : InputData :=
  let input_type := get (input_type user_input) "address" in
  let value := get (value user_input) "" in
  {| query_type := input_type;
     raw_input := value;
     resolved_address :=
       if String.eqb input_type "address" then Some value else None;
     resolved_lot_plan := "Lot 2 DP228402";
     resolved_coordinates := (-33.7902, 151.2618)%Q |}.

Definition resolve_parcel (input_data : InputData) : ParcelData * Polygon :=
  let parcel_data :=
    {| lot_number := "2";
       plan_number := "228402";
       plan_type := "DP";
       rpd := "Lot 2 DP228402";
       parcel_type := "Lot";
       area_sqm := Some 607%Q;
       source_dataset := "NSW_DCDB_2025Q1";
       spatial_accuracy_code := "SC2" |} in
  let polygon :=
    {| exterior := [ (360400, 6259000);
                     (360415, 6259000);
                     (360415, 6258960);
                     (360400, 6258960);
                     (360400, 6259000) ]%R |} in
  (parcel_data, polygon).

(** The assembled result, without its descriptive entries (spatial
    context, administrative names, notes and metadata). *)
Record AnalysisResult : Type := {
  input : InputData;
  parcel : ParcelData;
  geometry : GeometryData;
  constraints : Constraints;
  development_metrics_slope : SlopeData;
  development_metrics_envelope : Envelope;
  development_metrics_yield : YieldEngine.YieldData;
  feasibility_cdc_potential : CdcLowRise.CdcPotential;
  feasibility_da_potential : DaGuidance.DaPotential;
  feasibility_overall_risk_rating : string
}.

Section Pipeline.

(** The geometry stage reprojects the centroid and measures bearings
    through the projection and array libraries; the pipeline is embedded
    over any such stage. *)
Variable compute_geometry : Polygon -> ParcelData -> GeometryData.

Definition analyse_parcel (user_input : UserInput) : result AnalysisResult :=
  let input_data := normalise_input user_input in
  let '(parcel_data, polygon) := resolve_parcel input_data in
  let geometry_data := compute_geometry polygon parcel_data in
  let constraints :=
    ConstraintsEngine.evaluate_constraints polygon geometry_data in
  constraint_severity <-
    ConstraintsEngine.compute_constraint_severity get_settings constraints ;;
  let required_studies :=
    ConstraintsEngine.recommend_required_studies constraints in
  let lep_data :=
    LepRules.evaluate_lep_controls get_settings parcel_data geometry_data in
  let slope_data :=
    Slope.compute_slope_metrics polygon None
      (front_orientation_deg geometry_data) in
  yield_data <-
    YieldEngine.compute_yield get_settings parcel_data geometry_data
      (LepRules.envelope lep_data) (LepRules.typologies lep_data)
      constraints ;;
  let cdc_potential :=
    CdcLowRise.evaluate_cdc_potential get_settings parcel_data geometry_data
      constraints slope_data in
  let da_potential :=
    DaGuidance.evaluate_da_potential parcel_data geometry_data constraints
      slope_data required_studies in
  let overall_risk_rating :=
    RiskEngine.compute_risk_rating constraints constraint_severity
      slope_data geometry_data in
  Ok {| input := input_data;
        parcel := parcel_data;
        geometry := geometry_data;
        constraints := constraints;
        development_metrics_slope := slope_data;
        development_metrics_envelope := LepRules.envelope lep_data;
        development_metrics_yield := yield_data;
        feasibility_cdc_potential := cdc_potential;
        feasibility_da_potential := da_potential;
        feasibility_overall_risk_rating := overall_risk_rating |}.

End Pipeline.

End Runner.

(** * The specification's own wording

    The definitions of this module follow the words of the specification,
    not the source; the theorems below compare them with the embedded
    code. *)

Module Spec.

(** The five-tier threshold table [0, <=3, <=7, <=12, >12] for scores
    that are not negative. *)
Definition threshold_table : list (Z * string) :=
  [(0, "None"); (3, "Low"); (7, "Medium"); (12, "High")].

Definition five_tier_rating (score : Z) : string :=
  match find (fun tier => score <=? fst tier) threshold_table with
  | Some tier => snd tier
  | None => "Red-Flag"
  end.

(** [slope_penalty = 3 if mean_gradient > 25 else 2 if > 15 else 0]. *)
Definition slope_penalty (mean_gradient : Q) : Z :=
  if Qlt_le_dec 25 mean_gradient then 3
  else if Qlt_le_dec 15 mean_gradient then 2
  else 0.

(** [regularity_penalty = 1 if regularity_index < 0.75 else 0]. *)
Definition regularity_penalty (regularity_index : Q) : Z :=
  if Qlt_le_dec regularity_index 0.75 then 1 else 0.

(** [score = constraint_total_score + slope_penalty + regularity_penalty]. *)
Definition risk_score
    (constraint_severity : ConstraintsEngine.ConstraintSeverity)
    (slope_data : SlopeData) (geometry_data : GeometryData) : Z :=
  ConstraintsEngine.total_score constraint_severity
  + slope_penalty (get (mean_gradient_percent slope_data) 0%Q)
  + regularity_penalty (get (regularity_index geometry_data) 1.0%Q).

(** [clamp(x, lo, hi)]. *)
Definition clamp (x lo hi : Z) : Z :=
  if x <? lo then lo else if hi <? x then hi else x.

(** The fast-track checks, in their fixed order. *)
Inductive CdcCheck : Set :=
| BushfireProne
| FloodProne
| HeritageItem
| HeritageConservationArea
| ForeshoreBuildingLine
| RiparianBuffer
| AreaBelowMinimum
| FrontageBelowMinimum
| GradientAboveCeiling.

Definition cdc_check_order : list CdcCheck :=
  [BushfireProne; FloodProne; HeritageItem; HeritageConservationArea;
   ForeshoreBuildingLine; RiparianBuffer; AreaBelowMinimum;
   FrontageBelowMinimum; GradientAboveCeiling].

Section FastTrack.

Variable settings : Settings.
Variable parcel_data : ParcelData.
Variable geometry_data : GeometryData.
Variable constraints : Constraints.
Variable slope_data : SlopeData.

(** Whether a check blocks the fast-track pathway. *)
Definition cdc_blocks (check : CdcCheck) : bool :=
  match check with
  | BushfireProne => bushfire_prone constraints
  | FloodProne => flood_prone constraints
  | HeritageItem => heritage_item constraints
  | HeritageConservationArea => heritage_conservation_area constraints
  | ForeshoreBuildingLine => foreshore_building_line constraints
  | RiparianBuffer => riparian_buffer constraints
  | AreaBelowMinimum =>
      Qltb (get (area_sqm parcel_data) 0%Q)
           (MIN_LOT_AREA_DUAL_OCC_SQM settings)
  | FrontageBelowMinimum =>
      Qltb (get (frontage_m geometry_data) 0%Q)
           (MIN_FRONTAGE_DUAL_OCC_M settings)
  | GradientAboveCeiling =>
      Qltb (CDC_MAX_SLOPE_PERCENT settings)
           (get (mean_gradient_percent slope_data) 0%Q)
  end.

(** The entry a blocking check contributes to the blocking list. *)
Definition cdc_entry (check : CdcCheck) : string :=
  match check with
  | BushfireProne => "Bushfire (BAL > 40 requires report)"
  | FloodProne => "Flood control lot"
  | HeritageItem => "Heritage Item"
  | HeritageConservationArea => "Heritage Conservation Area"
  | ForeshoreBuildingLine => "Foreshore Building Line"
  | RiparianBuffer => "Riparian Buffer"
  | AreaBelowMinimum =>
      "Insufficient lot area ("
      ++ format_fixed 0 (get (area_sqm parcel_data) 0%Q) ++ " sqm)"
  | FrontageBelowMinimum =>
      "Insufficient frontage ("
      ++ format_fixed 1 (get (frontage_m geometry_data) 0%Q) ++ " m)"
  | GradientAboveCeiling =>
      "Slope too steep for CDC ("
      ++ format_fixed 1 (get (mean_gradient_percent slope_data) 0%Q)
      ++ "%)"
  end%string.

Definition cdc_blocking_list : list string :=
  map cdc_entry (filter cdc_blocks cdc_check_order).

End FastTrack.

(** The yield typologies, in their fixed priority order. *)
Inductive Typology : Set :=
| DualOccupancy
| ManorHouse
| MultiDwelling
| TerraceRow.

Definition priority_order : list Typology :=
  [DualOccupancy; ManorHouse; MultiDwelling; TerraceRow].

Definition feasible (yield_data : YieldEngine.YieldData) (typology : Typology)
    : bool :=
  match typology with
  | DualOccupancy => YieldEngine.dual_occ_feasible yield_data
  | ManorHouse => YieldEngine.manor_house_feasible yield_data
  | MultiDwelling => YieldEngine.multi_dwelling_feasible yield_data
  | TerraceRow => YieldEngine.terrace_row_feasible yield_data
  end.

Definition typology_label (typology : option Typology) : string :=
  match typology with
  | Some DualOccupancy => "Dual Occupancy"
  | Some ManorHouse => "Manor House"
  | Some MultiDwelling => "Multi-Dwelling Housing"
  | Some TerraceRow => "Terrace/Row Housing"
  | None => "Single Dwelling"
  end.

(** [floor(max_gfa / avg_unit_size)], in the arithmetic of the code: the
    quotient is a float quotient, and there is no estimate when the division
    or the floor raises. *)
Definition estimated_units (max_gfa avg_unit_size : Q) : result Z :=
  ratio <- truediv max_gfa avg_unit_size ;;
  floor ratio.

(** The indicative dwelling count of a typology, from the estimated number
    of units. *)
Definition dwellings (estimated_units : Z) (typology : option Typology) : Z :=
  match typology with
  | Some DualOccupancy => 2
  | Some ManorHouse => 3
  | Some MultiDwelling => clamp estimated_units 2 6
  | Some TerraceRow => clamp estimated_units 3 6
  | None => 1
  end.

(** Whether the count of a typology is computed from the floor area. *)
Definition by_floor_area (typology : option Typology) : bool :=
  match typology with
  | Some MultiDwelling | Some TerraceRow => true
  | _ => false
  end.

(** The full-application issues, in the order they are raised. *)
Inductive DaIssue : Set :=
| IssueBushfire
| IssueFlood
| IssueHeritage
| IssueSlope
| IssueGeotech
| IssueIrregularShape
| IssueBulkAndScale
| IssueCornerLot.

Definition da_issue_order : list DaIssue :=
  [IssueBushfire; IssueFlood; IssueHeritage; IssueSlope; IssueGeotech;
   IssueIrregularShape; IssueBulkAndScale; IssueCornerLot].

Section FullApplication.

Variable geometry_data : GeometryData.
Variable constraints : Constraints.
Variable slope_data : SlopeData.

Definition da_raises (issue : DaIssue) : bool :=
  match issue with
  | IssueBushfire => bushfire_prone constraints
  | IssueFlood => flood_prone constraints
  | IssueHeritage =>
      heritage_item constraints || heritage_conservation_area constraints
  | IssueSlope => Qltb 15 (get (mean_gradient_percent slope_data) 0%Q)
  | IssueGeotech =>
      in_list (get (geotech_landslip_risk constraints) "Low")
              ["High"; "Very High"]
  | IssueIrregularShape =>
      Qltb (get (regularity_index geometry_data) 1.0%Q) 0.75
  | IssueBulkAndScale => true
  | IssueCornerLot => is_corner_lot geometry_data
  end.

Definition da_entry (issue : DaIssue) : string :=
  match issue with
  | IssueBushfire => "Bushfire vegetation setback"
  | IssueFlood => "Flood planning and stormwater management"
  | IssueHeritage =>
      if heritage_item constraints
      then "Heritage significance - strict controls apply"
      else "Heritage conservation area - streetscape compatibility"
  | IssueSlope => "Slope and stormwater"
  | IssueGeotech => "Geotechnical stability"
  | IssueIrregularShape => "Irregular lot shape - design challenges"
  | IssueBulkAndScale => "Streetscape bulk & scale"
  | IssueCornerLot => "Corner lot - secondary street setbacks"
  end.

Definition da_issues_raised : list string :=
  map da_entry (filter da_raises da_issue_order).

End FullApplication.

(** Deduplication preserving first-seen order: an element stays at its
    first occurrence and its later occurrences are dropped. *)
Fixpoint first_seen (l : list string) : list string :=
  match l with
  | [] => []
  | x :: rest => x :: filter (fun y => negb (String.eqb x y)) (first_seen rest)
  end.

(** [clamp(x, 0, 1)] on the reals. *)
Definition clamp_unit (x : R) : R := Rmax 0 (Rmin 1 x).





End Spec.

(** * Sample inputs *)

Module Examples.

(** A lot of the given area. *)
Definition lot (area : Q) : ParcelData :=
  {| lot_number := "2";
     plan_number := "228402";
     plan_type := "DP";
     rpd := "Lot 2 DP228402";
     parcel_type := "Lot";
     area_sqm := Some area;
     source_dataset := "NSW_DCDB_2025Q1";
     spatial_accuracy_code := "SC2" |}.

(** A regular lot with the given frontage, its front boundary running
    east. *)
Definition regular_geometry (frontage : Q) : GeometryData :=
  {| front_orientation_deg := Some 90%Q;
     frontage_m := Some frontage;
     regularity_index := Some 0.891%Q;
     is_corner_lot := false |}.

Definition irregular_corner_geometry : GeometryData :=
  {| front_orientation_deg := None;
     frontage_m := Some 12.25%Q;
     regularity_index := Some 0.5%Q;
     is_corner_lot := true |}.

Definition slope (mean_gradient : Q) : SlopeData :=
  {| mean_gradient_percent := Some mean_gradient;
     max_gradient_percent := Some mean_gradient;
     primary_fall_direction_deg := Some 180%Q;
     falls_to_street := Some true |}.

Definition heritage_listed : Constraints :=
  {| bushfire_prone := false;
     bushfire_category := Some None;
     flood_prone := false;
     flood_notes := None;
     acid_sulfate_soil_class := "None";
     heritage_item := true;
     heritage_conservation_area := false;
     foreshore_building_line := false;
     riparian_buffer := false;
     biodiversity := false;
     geotech_landslip_risk := Some "Low";
     other_overlays := [] |}.

Definition heavily_constrained : Constraints :=
  {| bushfire_prone := true;
     bushfire_category := Some (Some "Vegetation Category 2");
     flood_prone := true;
     flood_notes := None;
     acid_sulfate_soil_class := "None";
     heritage_item := true;
     heritage_conservation_area := true;
     foreshore_building_line := true;
     riparian_buffer := true;
     biodiversity := true;
     geotech_landslip_risk := Some "Very High";
     other_overlays := ["Scenic protection"] |}.

(** A zoning envelope with the given floor-space ratio on a lot of the
    given area. *)
Definition envelope_of (fsr area : Q) : Envelope :=
  {| max_height_m := Some 8.5%Q;
     fsr_control := Some fsr;
     max_gfa_sqm := Some (fsr * area)%Q;
     front_setback_m := 6.0;
     rear_setback_m := 6.0;
     side_setback_min_m := 0.9;
     deep_soil_required_sqm := (0.15 * area)%Q;
     landscaped_area_required_sqm := (0.30 * area)%Q |}.

Definition severity_of_score (score : Z) : ConstraintsEngine.ConstraintSeverity :=
  {| ConstraintsEngine.bushfire_severity := 0;
     ConstraintsEngine.flood_severity := 0;
     ConstraintsEngine.heritage_severity := 0;
     ConstraintsEngine.geotech_severity := 0;
     ConstraintsEngine.biodiversity_severity := 0;
     ConstraintsEngine.total_score := score;
     ConstraintsEngine.rating := ConstraintsEngine.overall_rating score |}.

(** The rectangle with corners (0, 0) and (width, height), as a closed
    ring. *)
Definition rectangle (width height : R) : PolygonOps.Polygon :=
  {| PolygonOps.exterior :=
       [ (0, 0); (width, 0); (width, height); (0, height); (0, 0) ]%R |}.

(** Four coincident points: a ring without perimeter. *)
Definition collapsed_ring : PolygonOps.Polygon :=
  {| PolygonOps.exterior := [ (0, 0); (0, 0); (0, 0); (0, 0) ]%R |}.

(** The doubles nearest to 60.1 and to 0.001, and the double 1e308. *)
Definition double_60_1 : Q := 8458323050155213 # 140737488355328.
Definition double_0_001 : Q := 1152921504606847 # 1152921504606846976.
Definition double_1e308 : Q :=
  inject_Z
    100000000000000001097906362944045541740492309677311846336810682903157585404911491537163328978494688899061249669721172515611590283743140088328307009198146046031271664502933027185697489699588559043338384466165001178426897626212945177628091195786707458122783970171784415105291802893207873272974885715430223118336.

(** The default settings with another average unit size. *)
Definition with_unit_size (unit_size : Q) : Settings :=
  {| BUSHFIRE_WEIGHT := BUSHFIRE_WEIGHT default_settings;
     FLOOD_WEIGHT := FLOOD_WEIGHT default_settings;
     HERITAGE_WEIGHT := HERITAGE_WEIGHT default_settings;
     GEOTECH_WEIGHT := GEOTECH_WEIGHT default_settings;
     BIODIVERSITY_WEIGHT := BIODIVERSITY_WEIGHT default_settings;
     MISC_WEIGHT := MISC_WEIGHT default_settings;
     CDC_MAX_SLOPE_PERCENT := CDC_MAX_SLOPE_PERCENT default_settings;
     MIN_LOT_AREA_DUAL_OCC_SQM := MIN_LOT_AREA_DUAL_OCC_SQM default_settings;
     MIN_FRONTAGE_DUAL_OCC_M := MIN_FRONTAGE_DUAL_OCC_M default_settings;
     MIN_FSR_TERRACE := MIN_FSR_TERRACE default_settings;
     MIN_FSR_MULTI_DWELLING := MIN_FSR_MULTI_DWELLING default_settings;
     DEFAULT_FRONT_SETBACK_M := DEFAULT_FRONT_SETBACK_M default_settings;
     DEFAULT_REAR_SETBACK_M := DEFAULT_REAR_SETBACK_M default_settings;
     DEFAULT_SIDE_SETBACK_MIN_M := DEFAULT_SIDE_SETBACK_MIN_M default_settings;
     DEEP_SOIL_PERCENTAGE := DEEP_SOIL_PERCENTAGE default_settings;
     LANDSCAPED_AREA_PERCENTAGE := LANDSCAPED_AREA_PERCENTAGE default_settings;
     AVERAGE_UNIT_SIZE_TOWNHOUSE_SQM := unit_size |}.

(** An envelope with a floor-space ratio of 0.75 and a given maximum floor
    area. *)
Definition envelope_with_floor_area (max_gfa : Q) : Envelope :=
  {| max_height_m := Some 8.5%Q;
     fsr_control := Some 0.75%Q;
     max_gfa_sqm := Some max_gfa;
     front_setback_m := 6.0;
     rear_setback_m := 6.0;
     side_setback_min_m := 0.9;
     deep_soil_required_sqm := 90;
     landscaped_area_required_sqm := 180 |}.


(** The parcel and the polygon that [resolve_parcel] builds in. *)
Definition builtin_parcel : ParcelData := lot 607.

Definition builtin_polygon : PolygonOps.Polygon :=
  {| PolygonOps.exterior :=
       [ (360400, 6259000); (360415, 6259000); (360415, 6258960);
         (360400, 6258960); (360400, 6259000) ]%R |}.

(** The constraints the pipeline evaluates: no overlay applies. *)
Definition unconstrained : Constraints :=
  ConstraintsEngine.evaluate_constraints builtin_polygon (regular_geometry 15).

Definition request (input_type value : string) : Runner.UserInput :=
  {| Runner.input_type := Some input_type; Runner.value := Some value |}.

End Examples.

(** * Further functions of the cited modules *)

Module Geometry.

(** polygon_ops.py: the description of a regularity index. *)
Definition get_regularity_description (regularity : Q) : string :=
  if Qgeb regularity 0.9 then "regular lot"
  else if Qgeb regularity 0.7 then "mildly irregular"
  else "irregular lot".

Section CornerLot.

(** [polygon.intersects(road)] is computed by the geometry library. *)
Variable intersects : PolygonOps.Polygon -> PolygonOps.Polygon -> bool.

(** boundaries.py: the loop counts the road polygons the parcel
    intersects. *)
Definition detect_corner_lot (polygon : PolygonOps.Polygon)
    (road_geometries : list PolygonOps.Polygon) : bool :=
  match road_geometries with
  | [] => false
  | _ =>
      let intersecting_roads :=
        fold_left
          (fun intersecting_roads road =>
             if intersects polygon road
             then intersecting_roads + 1
             else intersecting_roads)
          road_geometries 0 in
      2 <=? intersecting_roads
  end.

End CornerLot.

End Geometry.

(** * geometry/boundaries.py: the front boundary *)

Module Boundaries.

Import PolygonOps.

Local Open Scope R_scope.

(** An entry of the [segments] list of [identify_boundaries], with its keys
    [start], [end], [length] and [midpoint]; the [bearing] entry, an
    arc tangent, is not modelled. *)
Record Segment : Type := {
  seg_start : Point;
  seg_end : Point;
  seg_length : R;
  seg_midpoint : Point
}.

Fixpoint segments (coords : list Point) : list Segment :=
  match coords with
  | p1 :: (p2 :: _) as rest =>
      {| seg_start := p1;
         seg_end := p2;
         seg_length :=
           sqrt ((fst p2 - fst p1) * (fst p2 - fst p1)
                 + (snd p2 - snd p1) * (snd p2 - snd p1));
         seg_midpoint := ((fst p1 + fst p2) / 2, (snd p1 + snd p2) / 2) |}
      :: segments rest
  | _ => []
  end.

(** [min(..., key=...)] over the segments: the first segment whose
    midpoint lies lowest; [min] raises on an empty sequence. *)
Definition southernmost (first : Segment) (rest : list Segment) : Segment :=
  fold_left
    (fun best seg =>
       if Rlt_dec (snd (seg_midpoint seg)) (snd (seg_midpoint best))
       then seg else best)
    rest first.

Definition front_segment (polygon : Polygon) : result Segment :=
  match segments (exterior polygon) with
  | [] => Raise ValueError
  | first :: rest => Ok (southernmost first rest)
  end.

(** The sum of the segment lengths, added from the left. *)
Definition total_length (segs : list Segment) : R :=
  fold_left Rplus (map seg_length segs) 0.

(** The entries [frontage_m] and [perimeter_m] of the dict that
    [identify_boundaries] returns. *)
Definition frontage_m (polygon : Polygon) : result R :=
  front_segment <- front_segment polygon ;;
  Ok (round (seg_length front_segment) 1).

Definition perimeter_m (polygon : Polygon) : result R :=
  _ <- front_segment polygon ;;
  Ok (round (total_length (segments (exterior polygon))) 1).

End Boundaries.

(** * String methods of the notes generators *)

Module Text.

(** [str.isspace] on an ASCII character: tab to carriage return, the four
    separators 28..31 and the space. *)
Definition is_space (c : ascii) : bool :=
  let n := nat_of_ascii c in
  ((9 <=? n) && (n <=? 13) || (28 <=? n) && (n <=? 32))%nat.

(** [str.lower] on ASCII text. *)
Definition lower_char (c : ascii) : ascii :=
  let n := nat_of_ascii c in
  if ((65 <=? n) && (n <=? 90))%nat then ascii_of_nat (n + 32) else c.

Fixpoint lower (s : string) : string :=
  match s with
  | EmptyString => EmptyString
  | String c rest => String (lower_char c) (lower rest)
  end.

Fixpoint lstrip (s : string) : string :=
  match s with
  | EmptyString => EmptyString
  | String c rest => if is_space c then lstrip rest else s
  end.

Fixpoint rstrip (s : string) : string :=
  match s with
  | EmptyString => EmptyString
  | String c rest =>
      match rstrip rest with
      | EmptyString => if is_space c then EmptyString else String c EmptyString
      | kept => String c kept
      end
  end.

(** [str.strip] on ASCII text. *)
Definition strip (s : string) : string := lstrip (rstrip s).

(** [s.split(sep)[0]] for a one-character separator: the text before its
    first occurrence, or all of [s]. *)
Fixpoint split_first (sep : ascii) (s : string) : string :=
  match s with
  | EmptyString => EmptyString
  | String c rest =>
      if Ascii.eqb c sep then EmptyString else String c (split_first sep rest)
  end.

(** [s.replace(old, "")] for a non-empty [old]: the occurrences of [old]
    are removed from left to right, without overlap; [skip] counts the
    characters of the current occurrence that are still to drop. *)
Fixpoint remove_from (old : string) (skip : nat) (s : string) : string :=
  match s with
  | EmptyString => EmptyString
  | String c rest =>
      match skip with
      | S skip => remove_from old skip rest
      | O =>
          if prefix old s
          then remove_from old (String.length old - 1) rest
          else String c (remove_from old O rest)
      end
  end.

Definition remove_all (old s : string) : string := remove_from old O s.

End Text.

(** * The notes generators (yield_engine.py, risk_engine.py) *)

Module Notes.

Import Text.

Section Formatting.

(** [f"{x}"] for a float is its shortest decimal representation, computed
    by the interpreter; the generators are embedded over it. *)
Variable str_float : Q -> string.

(** yield_engine.py. *)
Definition generate_yield_notes (primary_typology : string) (fsr height : Q)
    (dual_occ_feasible : bool) (constraints : Constraints) : string :=
  let notes :=
    if dual_occ_feasible
    then ("Standard " ++ primary_typology ++ " envelope with "
          ++ str_float fsr ++ ":1 FSR and " ++ str_float height
          ++ " m height.")%string
    else (primary_typology ++ " under LEP controls (" ++ str_float fsr
          ++ ":1 FSR, " ++ str_float height ++ " m height).")%string in
  if heritage_item constraints
  then (notes
        ++ " Heritage restrictions significantly limit development potential.")%string
  else if bushfire_prone constraints
  then (notes ++ " Bushfire controls may affect building envelope.")%string
  else notes.

(** The [notes] entry of the dict that [compute_yield] returns. *)
Definition compute_yield_notes (settings : Settings)
    (parcel_data : ParcelData) (geometry_data : GeometryData)
    (envelope_data : Envelope) (typologies : Typologies)
    (constraints : Constraints) : result string :=
  let fsr_control := get (fsr_control envelope_data) 0.6%Q in
  let max_height_m := get (max_height_m envelope_data) 8.5%Q in
  yield_data <-
    YieldEngine.compute_yield settings parcel_data geometry_data
      envelope_data typologies constraints ;;
  Ok (generate_yield_notes (YieldEngine.primary_typology yield_data)
        fsr_control max_height_m (YieldEngine.dual_occ_feasible yield_data)
        constraints).

(** risk_engine.py. *)
Definition generate_feasibility_notes (zone_code : string) (fsr : Q)
    (cdc_potential : CdcLowRise.CdcPotential)
    (da_potential : DaGuidance.DaPotential)
    (yield_data : YieldEngine.YieldData) (constraints : Constraints)
    : string :=
  let notes_parts := [] in
  let primary_typology := YieldEngine.primary_typology yield_data in
  let notes_parts :=
    notes_parts
    ++ [("Viable " ++ lower primary_typology ++ " site under " ++ zone_code
         ++ " zoning with " ++ str_float fsr ++ ":1 FSR.")%string] in
  let notes_parts :=
    if CdcLowRise.is_potentially_cdc_compliant cdc_potential
    then notes_parts ++ ["CDC pathway potentially available."]
    else
      let blocking := CdcLowRise.blocking_constraints cdc_potential in
      match blocking with
      | first_blocking :: _ =>
          let main_blocker := strip (split_first "(" first_blocking) in
          notes_parts
          ++ [("CDC unlikely due to " ++ lower main_blocker ++ ".")%string]
      | [] => notes_parts
      end in
  let notes_parts :=
    if DaGuidance.is_likely_supportable da_potential then
      let studies := DaGuidance.recommended_studies da_potential in
      match studies with
      | first_study :: _ =>
          let main_study :=
            strip (remove_all "Report" (remove_all "Assessment" first_study)) in
          notes_parts
          ++ [("DA feasible with appropriate " ++ lower main_study
               ++ " and design controls.")%string]
      | [] =>
          notes_parts
          ++ ["DA pathway realistic with standard design controls."]
      end
    else notes_parts ++ ["DA challenging due to significant constraints."] in
  String.concat " " notes_parts.

End Formatting.

(** The name the notes give to a blocking fast-track check. *)
Definition blocker_name (check : Spec.CdcCheck) : string :=
  match check with
  | Spec.BushfireProne => "bushfire"
  | Spec.FloodProne => "flood control lot"
  | Spec.HeritageItem => "heritage item"
  | Spec.HeritageConservationArea => "heritage conservation area"
  | Spec.ForeshoreBuildingLine => "foreshore building line"
  | Spec.RiparianBuffer => "riparian buffer"
  | Spec.AreaBelowMinimum => "insufficient lot area"
  | Spec.FrontageBelowMinimum => "insufficient frontage"
  | Spec.GradientAboveCeiling => "slope too steep for cdc"
  end.

(** The sentence about the fast-track pathway, by the first blocking
    check. *)
Definition cdc_sentence (first_blocking : option Spec.CdcCheck) : string :=
  match first_blocking with
  | None => "CDC pathway potentially available."
  | Some check => "CDC unlikely due to " ++ blocker_name check ++ "."
  end%string.

(** The name the notes give to the first recommended study. *)
Definition main_study_name (constraints : Constraints) : option string :=
  if bushfire_prone constraints then Some "bushfire"
  else if flood_prone constraints then Some "flood study"
  else if in_list (get (geotech_landslip_risk constraints) "Low")
                  ["High"; "Very High"; "Moderate"]
  then Some "geotechnical"
  else if biodiversity constraints then Some "biodiversity"
  else if foreshore_building_line constraints then Some "coastal hazard"
  else if heritage_item constraints || heritage_conservation_area constraints
  then Some "heritage impact statement"
  else None.

(** The sentence about the full application. *)
Definition da_sentence (constraints : Constraints) : string :=
  if heritage_item constraints
     || String.eqb (get (geotech_landslip_risk constraints) "Low") "Very High"
  then "DA challenging due to significant constraints."
  else
    match main_study_name constraints with
    | Some study =>
        "DA feasible with appropriate " ++ study ++ " and design controls."
    | None => "DA pathway realistic with standard design controls."
    end%string.

End Notes.

(** * Orders and tiers used to state the properties *)

Module Tiers.

(** The position of a rating on the five-level scale. *)
Definition rating_rank (rating : string) : Z :=
  dict_get
    [("None", 0); ("Low", 1); ("Medium", 2); ("High", 3); ("Red-Flag", 4)]
    rating (-1).

(** The bushfire severity of a bushfire-prone parcel, by its category
    text. *)
Definition bushfire_tier (category : string) : Z :=
  if contains "Category 1" category then 3
  else if contains "Category 2" category then 2
  else 1.

(** The geotechnical severity of a constraint set. *)
Definition geotech_tier (constraints : Constraints) : Z :=
  dict_get ConstraintsEngine.geotech_table
    (get (geotech_landslip_risk constraints) "Low") 0.

(** The bushfire severity of a constraint set: the tier of its category
    on bushfire-prone land, 0 elsewhere. *)
Definition bushfire_level (constraints : Constraints) : Z :=
  if bushfire_prone constraints
  then match get (bushfire_category constraints) (Some "") with
       | Some category => bushfire_tier category
       | None => 0
       end
  else 0.

(** [constraints'] carries every constraint that [constraints] carries, at
    least as severely: bushfire and landslip risk are compared by tier. *)
Definition no_less_constrained (constraints constraints' : Constraints)
    : Prop :=
  bushfire_level constraints <= bushfire_level constraints'
  /\ (flood_prone constraints = true -> flood_prone constraints' = true)
  /\ (heritage_item constraints = true -> heritage_item constraints' = true)
  /\ (heritage_conservation_area constraints = true ->
      heritage_conservation_area constraints' = true
      \/ heritage_item constraints' = true)
  /\ geotech_tier constraints <= geotech_tier constraints'
  /\ (biodiversity constraints = true -> biodiversity constraints' = true)
  /\ (List.length (other_overlays constraints)
      <= List.length (other_overlays constraints'))%nat.

(** None of the constraints that the severity score counts applies.  The
    foreshore building line, the riparian buffer and the acid sulfate soil
    class are not among them: [compute_constraint_severity] does not read
    them. *)
Definition nothing_scored (constraints : Constraints) : Prop :=
  bushfire_prone constraints = false
  /\ flood_prone constraints = false
  /\ heritage_item constraints = false
  /\ heritage_conservation_area constraints = false
  /\ ~ In (get (geotech_landslip_risk constraints) "Low")
          ["Very High"; "High"; "Moderate"]
  /\ biodiversity constraints = false
  /\ other_overlays constraints = [].

(** The constraint set with other values of the three entries that the
    severity score does not read. *)
Definition with_unscored (constraints : Constraints)
    (acid_sulfate : string) (foreshore riparian : bool) : Constraints :=
  {| bushfire_prone := bushfire_prone constraints;
     bushfire_category := bushfire_category constraints;
     flood_prone := flood_prone constraints;
     flood_notes := flood_notes constraints;
     acid_sulfate_soil_class := acid_sulfate;
     heritage_item := heritage_item constraints;
     heritage_conservation_area := heritage_conservation_area constraints;
     foreshore_building_line := foreshore;
     riparian_buffer := riparian;
     biodiversity := biodiversity constraints;
     geotech_landslip_risk := geotech_landslip_risk constraints;
     other_overlays := other_overlays constraints |}.

(** The weights of the settings are not negative, or positive. *)
Definition weights_nonnegative (settings : Settings) : Prop :=
  0 <= BUSHFIRE_WEIGHT settings /\ 0 <= FLOOD_WEIGHT settings
  /\ 0 <= HERITAGE_WEIGHT settings /\ 0 <= GEOTECH_WEIGHT settings
  /\ 0 <= BIODIVERSITY_WEIGHT settings /\ 0 <= MISC_WEIGHT settings.

Definition weights_positive (settings : Settings) : Prop :=
  0 < BUSHFIRE_WEIGHT settings /\ 0 < FLOOD_WEIGHT settings
  /\ 0 < HERITAGE_WEIGHT settings /\ 0 < GEOTECH_WEIGHT settings
  /\ 0 < BIODIVERSITY_WEIGHT settings /\ 0 < MISC_WEIGHT settings.

(** The number of conditions that hold. *)
Definition count_true (conditions : list bool) : nat :=
  List.length (filter (fun b => b) conditions).

End Tiers.

(** * Further sample inputs *)

Module Samples.

(** A bushfire-prone parcel whose category text names both categories. *)
Definition both_categories : Constraints :=
  {| bushfire_prone := true;
     bushfire_category := Some (Some "Category 2 near Category 1");
     flood_prone := false;
     flood_notes := None;
     acid_sulfate_soil_class := "None";
     heritage_item := false;
     heritage_conservation_area := false;
     foreshore_building_line := false;
     riparian_buffer := false;
     biodiversity := false;
     geotech_landslip_risk := Some "Low";
     other_overlays := [] |}.

(** A bushfire-prone parcel of the given category, with no other
    constraint. *)
Definition bushfire_of (category : string) : Constraints :=
  {| bushfire_prone := true;
     bushfire_category := Some (Some category);
     flood_prone := false;
     flood_notes := None;
     acid_sulfate_soil_class := "None";
     heritage_item := false;
     heritage_conservation_area := false;
     foreshore_building_line := false;
     riparian_buffer := false;
     biodiversity := false;
     geotech_landslip_risk := Some "Low";
     other_overlays := [] |}.

(** A parcel on very unstable ground with protected vegetation and a scenic
    overlay, and none of the hazards of the fast-track checks. *)
Definition very_high_landslip : Constraints :=
  {| bushfire_prone := false;
     bushfire_category := Some None;
     flood_prone := false;
     flood_notes := None;
     acid_sulfate_soil_class := "None";
     heritage_item := false;
     heritage_conservation_area := false;
     foreshore_building_line := false;
     riparian_buffer := false;
     biodiversity := true;
     geotech_landslip_risk := Some "Very High";
     other_overlays := ["Scenic protection"] |}.

End Samples.

(** * Properties of the Python primitives *)

Section Primitives.

Lemma Qltb_lt (x y : Q) : Qltb x y = true <-> (x < y)%Q.
Proof.
  unfold Qltb. rewrite negb_true_iff, <- not_true_iff_false, Qle_bool_iff.
  split; [apply Qnot_le_lt | apply Qlt_not_le].
Qed.

Lemma Qltb_ge (x y : Q) : Qltb x y = false <-> (y <= x)%Q.
Proof.
  unfold Qltb. rewrite negb_false_iff. apply Qle_bool_iff.
Qed.

Lemma Qgtb_gt (x y : Q) : Qgtb x y = true <-> (y < x)%Q.
Proof. apply Qltb_lt. Qed.

Lemma Qgeb_ge (x y : Q) : Qgeb x y = true <-> (y <= x)%Q.
Proof. apply Qle_bool_iff. Qed.

Lemma in_list_In (x : string) (l : list string) :
  in_list x l = true <-> In x l.
Proof.
  unfold in_list. rewrite existsb_exists. split.
  - intros [y [Hy Heq]]. apply String.eqb_eq in Heq. now subst.
  - intros Hin. exists x. split; [assumption | apply String.eqb_refl].
Qed.

Lemma in_list_not_In (x : string) (l : list string) :
  in_list x l = false <-> ~ In x l.
Proof.
  rewrite <- in_list_In. symmetry. apply not_true_iff_false.
Qed.

End Primitives.

(** * The two rating tables (risk_engine.py, constraints_engine.py) *)

Ltac split_thresholds s :=
  destruct (Z.eqb_spec s 0); [ | destruct (Z.leb_spec s 3);
    [ | destruct (Z.leb_spec s 7); [ | destruct (Z.leb_spec s 12) ] ] ].

Lemma overall_rating_score_to_rating (s : Z) :
  ConstraintsEngine.overall_rating s = RiskEngine.score_to_rating s.
Proof. reflexivity. Qed.

Lemma score_to_rating_five_tier (s : Z) :
  0 <= s -> RiskEngine.score_to_rating s = Spec.five_tier_rating s.
Proof.
  intros Hs. unfold RiskEngine.score_to_rating, Spec.five_tier_rating. simpl.
  split_thresholds s.
  - subst s. reflexivity.
  - destruct (Z.leb_spec s 0); [lia | reflexivity].
  - destruct (Z.leb_spec s 0); [lia | reflexivity].
  - destruct (Z.leb_spec s 0); [lia | reflexivity].
  - destruct (Z.leb_spec s 0); [lia | reflexivity].
Qed.

Lemma overall_rating_tiers (s : Z) :
  0 <= s ->
  (ConstraintsEngine.overall_rating s = "None" <-> s = 0)
  /\ (ConstraintsEngine.overall_rating s = "Low" <-> 1 <= s <= 3)
  /\ (ConstraintsEngine.overall_rating s = "Medium" <-> 4 <= s <= 7)
  /\ (ConstraintsEngine.overall_rating s = "High" <-> 8 <= s <= 12)
  /\ (ConstraintsEngine.overall_rating s = "Red-Flag" <-> s > 12).
Proof.
  intros Hs. unfold ConstraintsEngine.overall_rating.
  split_thresholds s;
    repeat split; intros; try discriminate; try lia; try reflexivity.
Qed.

(** The rating that [compute_constraint_severity] returns is its table
    applied to the total score it returns. *)
Lemma compute_constraint_severity_rating (settings : Settings)
    (constraints : Constraints) (severity : ConstraintsEngine.ConstraintSeverity) :
  ConstraintsEngine.compute_constraint_severity settings constraints = Ok severity ->
  ConstraintsEngine.rating severity
  = ConstraintsEngine.overall_rating (ConstraintsEngine.total_score severity).
Proof.
  unfold ConstraintsEngine.compute_constraint_severity, Py.bind.
  destruct (if bushfire_prone constraints then _ else _) as [e | b];
    [discriminate | ].
  intros Heq. injection Heq as <-. reflexivity.
Qed.

(** [compute_constraint_severity] returns unless the parcel is bushfire
    prone and its category entry holds [None]. *)
Lemma compute_constraint_severity_returns (settings : Settings)
    (constraints : Constraints) :
  bushfire_prone constraints = false
  \/ bushfire_category constraints <> Some None ->
  exists severity,
    ConstraintsEngine.compute_constraint_severity settings constraints
    = Ok severity.
Proof.
  intros H. unfold ConstraintsEngine.compute_constraint_severity.
  destruct (bushfire_prone constraints) eqn:Hprone.
  - destruct H as [H | H]; [discriminate | ].
    destruct (bushfire_category constraints) as [[category | ] | ];
      [ | contradiction | ]; cbn [get str_operand Py.bind Ok];
      match goal with
      | |- context [contains "Category 1" ?c || _] =>
          destruct (contains "Category 1" c
                    || contains "Vegetation Category 1" c);
          [ | destruct (contains "Category 2" c) ]
      end;
      cbn [Py.bind Ok]; eauto.
  - simpl. eauto.
Qed.

Lemma slope_penalty_code (mean_gradient : Q) :
  (if Qgtb mean_gradient 25 then 3
   else if Qgtb mean_gradient 15 then 2 else 0)
  = Spec.slope_penalty mean_gradient.
Proof.
  unfold Spec.slope_penalty.
  destruct (Qlt_le_dec 25 mean_gradient) as [H25 | H25].
  - apply Qgtb_gt in H25. now rewrite H25.
  - apply Qltb_ge in H25. unfold Qgtb. rewrite H25.
    destruct (Qlt_le_dec 15 mean_gradient) as [H15 | H15].
    + apply Qgtb_gt in H15. unfold Qgtb in H15. now rewrite H15.
    + apply Qltb_ge in H15. now rewrite H15.
Qed.

Lemma regularity_penalty_code (regularity : Q) :
  (if Qltb regularity 0.75 then 1 else 0) = Spec.regularity_penalty regularity.
Proof.
  unfold Spec.regularity_penalty.
  destruct (Qlt_le_dec regularity 0.75) as [H | H].
  - apply Qltb_lt in H. now rewrite H.
  - apply Qltb_ge in H. now rewrite H.
Qed.

Lemma compute_risk_rating_score (constraints : Constraints)
    (constraint_severity : ConstraintsEngine.ConstraintSeverity)
    (slope_data : SlopeData) (geometry_data : GeometryData) :
  RiskEngine.compute_risk_rating constraints constraint_severity slope_data
    geometry_data
  = RiskEngine.score_to_rating
      (Spec.risk_score constraint_severity slope_data geometry_data).
Proof.
  unfold RiskEngine.compute_risk_rating, Spec.risk_score.
  rewrite <- slope_penalty_code, <- regularity_penalty_code.
  f_equal.
  destruct (Qgtb _ 25); [ | destruct (Qgtb _ 15) ];
    destruct (Qltb _ 0.75); lia.
Qed.

Lemma slope_penalty_cases (mean_gradient : Q) :
  (Spec.slope_penalty mean_gradient = 3 <-> (25 < mean_gradient)%Q)
  /\ (Spec.slope_penalty mean_gradient = 2
      <-> (15 < mean_gradient)%Q /\ (mean_gradient <= 25)%Q)
  /\ (Spec.slope_penalty mean_gradient = 0 <-> (mean_gradient <= 15)%Q).
Proof.
  unfold Spec.slope_penalty.
  destruct (Qlt_le_dec 25 mean_gradient) as [H25 | H25];
    [ | destruct (Qlt_le_dec 15 mean_gradient) as [H15 | H15] ];
    repeat split; intros; try discriminate; try lra.
Qed.

Lemma regularity_penalty_cases (regularity : Q) :
  (Spec.regularity_penalty regularity = 1 <-> (regularity < 0.75)%Q)
  /\ (Spec.regularity_penalty regularity = 0 <-> (0.75 <= regularity)%Q).
Proof.
  unfold Spec.regularity_penalty.
  destruct (Qlt_le_dec regularity 0.75) as [H | H];
    repeat split; intros; try discriminate; try lra.
Qed.

(** C1. The constraint severity scorer and the risk rating aggregator map
    a score to a rating by the same function: for every score that is not
    negative the rating is "None" iff the score is 0, "Low" iff it lies in
    1..3, "Medium" iff in 4..7, "High" iff in 8..12 and "Red-Flag" iff it
    exceeds 12; the rating returned by [compute_constraint_severity] and the
    rating returned by [compute_risk_rating] agree whenever their scores
    do. *)
Theorem C1_rating_tables_agree (s : Z) :
  0 <= s ->
  (ConstraintsEngine.overall_rating s = "None" <-> s = 0)
  /\ (ConstraintsEngine.overall_rating s = "Low" <-> 1 <= s <= 3)
  /\ (ConstraintsEngine.overall_rating s = "Medium" <-> 4 <= s <= 7)
  /\ (ConstraintsEngine.overall_rating s = "High" <-> 8 <= s <= 12)
  /\ (ConstraintsEngine.overall_rating s = "Red-Flag" <-> s > 12)
  /\ RiskEngine.score_to_rating s = ConstraintsEngine.overall_rating s
  /\ (forall settings constraints severity,
        ConstraintsEngine.compute_constraint_severity settings constraints
        = Ok severity ->
        ConstraintsEngine.total_score severity = s ->
        forall constraints' severity' slope_data geometry_data,
          Spec.risk_score severity' slope_data geometry_data = s ->
          RiskEngine.compute_risk_rating constraints' severity' slope_data
            geometry_data
          = ConstraintsEngine.rating severity).
Proof.
  intros Hs.
  destruct (overall_rating_tiers s Hs) as (HNone & HLow & HMedium & HHigh & HRed).
  repeat (split; [assumption | ]).
  split; [symmetry; apply overall_rating_score_to_rating | ].
  intros settings constraints severity Hsev Htotal
         constraints' severity' slope_data geometry_data Hscore.
  rewrite compute_risk_rating_score, Hscore.
  rewrite (compute_constraint_severity_rating _ _ _ Hsev), Htotal.
  symmetry. apply overall_rating_score_to_rating.
Qed.

(** A score of 5 is rated "Medium" by both tables. *)
Lemma C1_rating_tables_agree_witness :
  0 <= 5
  /\ ConstraintsEngine.overall_rating 5 = "Medium"
  /\ RiskEngine.score_to_rating 5 = "Medium".
Proof.
  assert (H5 : 0 <= 5) by (apply Z.leb_le; reflexivity).
  destruct (C1_rating_tables_agree 5 H5) as (_ & _ & HMedium & _ & _ & Hagree & _).
  assert (HM : ConstraintsEngine.overall_rating 5 = "Medium")
    by (apply HMedium; split; apply Z.leb_le; reflexivity).
  split; [exact H5 | ].
  split; [exact HM | ].
  rewrite Hagree. exact HM.
Defined.

(** C4. The overall risk score is the constraint total score plus the
    slope penalty plus the regularity penalty, where the slope penalty is 3
    above a mean gradient of 25, else 2 above 15, else 0, and the regularity
    penalty is 1 below a regularity index of 0.75, else 0; the rating that
    [compute_risk_rating] returns is that total mapped through the five-tier
    threshold table. *)
Theorem C4_risk_score_and_rating (constraints : Constraints)
    (constraint_severity : ConstraintsEngine.ConstraintSeverity)
    (slope_data : SlopeData) (geometry_data : GeometryData) :
  let mean_gradient := get (mean_gradient_percent slope_data) 0%Q in
  let regularity := get (regularity_index geometry_data) 1.0%Q in
  let score :=
    ConstraintsEngine.total_score constraint_severity
    + Spec.slope_penalty mean_gradient
    + Spec.regularity_penalty regularity in
  RiskEngine.compute_risk_rating constraints constraint_severity slope_data
    geometry_data
  = RiskEngine.score_to_rating score
  /\ (0 <= ConstraintsEngine.total_score constraint_severity ->
      0 <= score
      /\ RiskEngine.compute_risk_rating constraints constraint_severity
           slope_data geometry_data
         = Spec.five_tier_rating score)
  /\ (Spec.slope_penalty mean_gradient = 3 <-> (25 < mean_gradient)%Q)
  /\ (Spec.slope_penalty mean_gradient = 2
      <-> (15 < mean_gradient)%Q /\ (mean_gradient <= 25)%Q)
  /\ (Spec.slope_penalty mean_gradient = 0 <-> (mean_gradient <= 15)%Q)
  /\ (Spec.regularity_penalty regularity = 1 <-> (regularity < 0.75)%Q)
  /\ (Spec.regularity_penalty regularity = 0 <-> (0.75 <= regularity)%Q).
Proof.
  intros mean_gradient regularity score.
  assert (Hcode : RiskEngine.compute_risk_rating constraints
                    constraint_severity slope_data geometry_data
                  = RiskEngine.score_to_rating score)
    by apply compute_risk_rating_score.
  split; [exact Hcode | ].
  split.
  - intros Hbase.
    assert (Hscore : 0 <= score).
    { subst score. unfold Spec.slope_penalty, Spec.regularity_penalty.
      destruct (Qlt_le_dec 25 mean_gradient);
        [ | destruct (Qlt_le_dec 15 mean_gradient) ];
        destruct (Qlt_le_dec regularity 0.75); lia. }
    split; [exact Hscore | ].
    rewrite Hcode. now apply score_to_rating_five_tier.
  - destruct (slope_penalty_cases mean_gradient) as (H3 & H2 & H0).
    destruct (regularity_penalty_cases regularity) as (R1 & R0).
    repeat (split; [assumption | ]). assumption.
Qed.

(** A mean gradient of 30 on an unconstrained regular lot: the rating
    carries the slope penalty of 3 and is "Low". *)
Lemma C4_risk_score_and_rating_witness :
  RiskEngine.compute_risk_rating Examples.unconstrained
    (Examples.severity_of_score 0) (Examples.slope 30)
    (Examples.regular_geometry 15)
  = RiskEngine.score_to_rating (0 + 3 + 0).
Proof.
  exact (proj1 (C4_risk_score_and_rating Examples.unconstrained
                  (Examples.severity_of_score 0) (Examples.slope 30)
                  (Examples.regular_geometry 15))).
Defined.

(** * Typology gates (lep_rules.py) *)

Ltac solve_incl := intros ? ?; simpl in *; tauto.

Lemma in_list_outside (x : string) (l l' : list string) :
  incl l l' -> ~ In x l' -> in_list x l = false.
Proof.
  intros Hincl Hout. apply in_list_not_In. intros Hin. apply Hout, Hincl, Hin.
Qed.

(** C8. For every zone code outside R1, R2, R3 and R4 the typology
    derivation returns all five typology gates as false, and raises no
    error. *)
Theorem C8_unknown_zone_not_feasible (settings : Settings) (zone_code : string)
    (parcel_area_sqm : Q) (geometry_data : GeometryData) :
  ~ In zone_code ["R1"; "R2"; "R3"; "R4"] ->
  LepRules.determine_allowed_typologies settings zone_code parcel_area_sqm
    geometry_data
  = {| dual_occupancy := false;
       terrace_row := false;
       manor_house := false;
       multi_dwelling := false;
       apartments := false |}.
Proof.
  intros Hzone. unfold LepRules.determine_allowed_typologies.
  set (zones := ["R1"; "R2"; "R3"; "R4"]) in Hzone.
  rewrite (in_list_outside zone_code ["R1"; "R2"; "R3"] zones ltac:(solve_incl) Hzone).
  rewrite (in_list_outside zone_code ["R1"; "R3"] zones ltac:(solve_incl) Hzone).
  rewrite (in_list_outside zone_code ["R1"; "R2"] zones ltac:(solve_incl) Hzone).
  rewrite (in_list_outside zone_code ["R3"; "R4"] zones ltac:(solve_incl) Hzone).
  reflexivity.
Qed.

(** A business zone on a large lot: no typology is feasible. *)
Lemma C8_unknown_zone_not_feasible_witness :
  LepRules.determine_allowed_typologies default_settings "B2" 900
    (Examples.regular_geometry 20)
  = {| dual_occupancy := false;
       terrace_row := false;
       manor_house := false;
       multi_dwelling := false;
       apartments := false |}.
Proof.
  apply (C8_unknown_zone_not_feasible default_settings "B2" 900
           (Examples.regular_geometry 20)).
  simpl. intros [H | [H | [H | [H | H]]]];
    first [discriminate H | exact H].
Defined.

(** * Full-application pathway (da_guidance.py) *)

(** C10. The red-flag list returned by [evaluate_da_potential] is empty
    if and only if the application is likely supportable. *)
Theorem C10_red_flags_iff_not_supportable (parcel_data : ParcelData)
    (geometry_data : GeometryData) (constraints : Constraints)
    (slope_data : SlopeData) (recommended_studies : list string) :
  let da_potential :=
    DaGuidance.evaluate_da_potential parcel_data geometry_data constraints
      slope_data recommended_studies in
  DaGuidance.red_flags da_potential = []
  <-> DaGuidance.is_likely_supportable da_potential = true.
Proof.
  unfold DaGuidance.evaluate_da_potential. cbn zeta.
  cbn [DaGuidance.red_flags DaGuidance.is_likely_supportable].
  destruct (heritage_item constraints);
    destruct (String.eqb (get (geotech_landslip_risk constraints) "Low")
                         "Very High");
    simpl; split; intros H; first [reflexivity | discriminate H].
Qed.

Lemma filter_filter {A : Type} (f g : A -> bool) (l : list A) :
  filter f (filter g l) = filter (fun x => g x && f x) l.
Proof.
  induction l as [ | a l IH]; simpl; [reflexivity | ].
  destruct (g a); simpl; [destruct (f a) | ]; now rewrite IH.
Qed.

Lemma in_list_app (x : string) (l l' : list string) :
  in_list x (l ++ l') = in_list x l || in_list x l'.
Proof. apply existsb_app. Qed.

(** Folding [fromkeys_step] from the keys already inserted appends the new
    keys in first-seen order. *)
Lemma fold_fromkeys_step (l keys : list string) :
  fold_left fromkeys_step l keys
  = keys ++ filter (fun y => negb (in_list y keys)) (Spec.first_seen l).
Proof.
  revert keys. induction l as [ | x l IH]; intros keys; simpl.
  - now rewrite app_nil_r.
  - rewrite IH. unfold fromkeys_step.
    destruct (in_list x keys) eqn:Hx; simpl.
    + f_equal. rewrite filter_filter. apply filter_ext_in. intros y _.
      destruct (String.eqb_spec x y) as [<- | _]; simpl; [ | reflexivity].
      now rewrite Hx.
    + rewrite <- app_assoc. simpl. do 2 f_equal.
      rewrite filter_filter. apply filter_ext. intros y.
      rewrite in_list_app. unfold in_list at 2. simpl.
      rewrite orb_false_r, negb_orb, (String.eqb_sym y x).
      apply andb_comm.
Qed.

Lemma fromkeys_first_seen (l : list string) :
  fromkeys l = Spec.first_seen l.
Proof.
  unfold fromkeys. rewrite fold_fromkeys_step. simpl.
  apply forallb_filter_id, forallb_forall. reflexivity.
Qed.

Lemma first_seen_NoDup (l : list string) : NoDup (Spec.first_seen l).
Proof.
  induction l as [ | x l IH]; simpl; constructor.
  - rewrite filter_In. intros [_ H]. now rewrite String.eqb_refl in H.
  - now apply NoDup_filter.
Qed.

Lemma first_seen_In (x : string) (l : list string) :
  In x (Spec.first_seen l) <-> In x l.
Proof.
  induction l as [ | y l IH]; simpl; [tauto | ].
  rewrite filter_In, IH.
  destruct (String.eqb_spec y x) as [-> | Hne]; simpl.
  - tauto.
  - split; [tauto | ]. intros [H | H]; [tauto | right; now split].
Qed.

(** A list without duplicates is left as it is. *)
Lemma first_seen_id (l : list string) : NoDup l -> Spec.first_seen l = l.
Proof.
  induction 1 as [ | x l Hx _ IH]; simpl; [reflexivity | ].
  f_equal. rewrite IH. apply forallb_filter_id, forallb_forall.
  intros y Hy. destruct (String.eqb_spec x y) as [-> | _];
    [contradiction | reflexivity].
Qed.

Lemma NoDup_firstn {A : Type} (n : nat) (l : list A) :
  NoDup l -> NoDup (firstn n l).
Proof.
  intros Hl. revert n. induction Hl as [ | x l Hx _ IH]; intros [ | n]; simpl;
    try constructor.
  - intros Hin. apply Hx. rewrite <- (firstn_skipn n l).
    apply in_or_app. now left.
  - apply IH.
Qed.

Lemma evaluate_da_potential_key_issues (parcel_data : ParcelData)
    (geometry_data : GeometryData) (constraints : Constraints)
    (slope_data : SlopeData) (recommended_studies : list string) :
  DaGuidance.key_issues
    (DaGuidance.evaluate_da_potential parcel_data geometry_data constraints
       slope_data recommended_studies)
  = firstn 5
      (fromkeys (Spec.da_issues_raised geometry_data constraints slope_data)).
Proof.
  destruct constraints as [bushfire category flood notes acid item area
                             foreshore riparian biodiversity geotech overlays].
  destruct geometry_data as [orientation frontage regularity corner].
  destruct slope_data as [mean_gradient max_gradient fall to_street].
  unfold DaGuidance.evaluate_da_potential, Spec.da_issues_raised,
    Spec.da_issue_order, Qgtb.
  cbn zeta. cbn [DaGuidance.key_issues filter map Spec.da_raises Data.bushfire_prone
    Data.flood_prone Data.heritage_item Data.heritage_conservation_area
    Data.geotech_landslip_risk Data.is_corner_lot Data.regularity_index
    Data.mean_gradient_percent].
  destruct bushfire, flood, item, area,
    (Qltb 15 (get mean_gradient 0%Q)),
    (in_list (get geotech "Low") ["High"; "Very High"]),
    (Qltb (get regularity 1.0%Q) 0.75), corner;
    reflexivity.
Qed.

(** The issues raised are pairwise distinct, so deduplication never drops
    one. *)
Lemma da_issues_raised_NoDup (geometry_data : GeometryData)
    (constraints : Constraints) (slope_data : SlopeData) :
  NoDup (Spec.da_issues_raised geometry_data constraints slope_data).
Proof.
  destruct constraints as [bushfire category flood notes acid item area
                             foreshore riparian biodiversity geotech overlays].
  destruct geometry_data as [orientation frontage regularity corner].
  destruct slope_data as [mean_gradient max_gradient fall to_street].
  unfold Spec.da_issues_raised, Spec.da_issue_order.
  cbn [filter map Spec.da_raises Data.bushfire_prone
    Data.flood_prone Data.heritage_item Data.heritage_conservation_area
    Data.geotech_landslip_risk Data.is_corner_lot Data.regularity_index
    Data.mean_gradient_percent].
  destruct bushfire, flood, item, area,
    (Qltb 15 (get mean_gradient 0%Q)),
    (in_list (get geotech "Low") ["High"; "Very High"]),
    (Qltb (get regularity 1.0%Q) 0.75), corner;
    cbn [orb filter map Spec.da_entry Data.heritage_item];
    repeat (constructor;
            [ simpl; intros H;
              repeat (destruct H as [H | H]; [discriminate H | ]); exact H
            | ]);
    constructor.
Qed.

(** C5. In the full-application evaluator [is_likely_supportable] is false
    exactly when a heritage item is present or the geotechnical landslip
    risk is "Very High"; each of the two conditions adds its entry to the
    red-flag list; the exposed key-issue list is the list of issues raised,
    deduplicated preserving first-seen order and cut to its first five
    entries, so it has no duplicate and at most five entries. *)
Theorem C5_da_supportability_and_key_issues (parcel_data : ParcelData)
    (geometry_data : GeometryData) (constraints : Constraints)
    (slope_data : SlopeData) (recommended_studies : list string) :
  let da_potential :=
    DaGuidance.evaluate_da_potential parcel_data geometry_data constraints
      slope_data recommended_studies in
  let geotech_risk := get (geotech_landslip_risk constraints) "Low" in
  (DaGuidance.is_likely_supportable da_potential = false
   <-> heritage_item constraints = true \/ geotech_risk = "Very High")
  /\ (heritage_item constraints = true ->
      In "Heritage Item" (DaGuidance.red_flags da_potential))
  /\ (geotech_risk = "Very High" ->
      In "Very High Landslip Risk" (DaGuidance.red_flags da_potential))
  /\ DaGuidance.key_issues da_potential
     = firstn 5
         (Spec.first_seen
            (Spec.da_issues_raised geometry_data constraints slope_data))
  /\ NoDup (DaGuidance.key_issues da_potential)
  /\ (List.length (DaGuidance.key_issues da_potential) <= 5)%nat.
Proof.
  intros da_potential geotech_risk.
  assert (Hkeys : DaGuidance.key_issues da_potential
                  = firstn 5
                      (Spec.first_seen
                         (Spec.da_issues_raised geometry_data constraints
                            slope_data))).
  { subst da_potential. rewrite evaluate_da_potential_key_issues.
    now rewrite fromkeys_first_seen. }
  assert (Hflags :
            DaGuidance.is_likely_supportable da_potential
            = negb (heritage_item constraints
                    || String.eqb geotech_risk "Very High")
            /\ DaGuidance.red_flags da_potential
               = (if heritage_item constraints then ["Heritage Item"] else [])
                   ++ (if String.eqb geotech_risk "Very High"
                       then ["Very High Landslip Risk"] else [])).
  { subst da_potential geotech_risk. unfold DaGuidance.evaluate_da_potential.
    cbn zeta. cbn [DaGuidance.red_flags DaGuidance.is_likely_supportable].
    destruct (heritage_item constraints);
      destruct (String.eqb (get (geotech_landslip_risk constraints) "Low")
                           "Very High"); split; reflexivity. }
  destruct Hflags as [Hsupportable Hred].
  repeat split.
  - rewrite Hsupportable, negb_false_iff, orb_true_iff, String.eqb_eq.
    trivial.
  - rewrite Hsupportable, negb_false_iff, orb_true_iff, String.eqb_eq.
    trivial.
  - intros Hitem. rewrite Hred, Hitem. now left.
  - intros Hrisk. apply String.eqb_eq in Hrisk. rewrite Hred, Hrisk.
    apply in_or_app. right. now left.
  - exact Hkeys.
  - rewrite Hkeys. apply NoDup_firstn, first_seen_NoDup.
  - rewrite Hkeys. apply firstn_le_length.
Qed.

(** A heritage-listed parcel with very high landslip risk on a steep,
    irregular corner lot: not supportable, both red flags raised. *)
Lemma C5_da_supportability_and_key_issues_witness :
  DaGuidance.is_likely_supportable
    (DaGuidance.evaluate_da_potential (Examples.lot 450.5)
       Examples.irregular_corner_geometry Examples.heavily_constrained
       (Examples.slope 30) [])
  = false
  /\ In "Heritage Item"
        (DaGuidance.red_flags
           (DaGuidance.evaluate_da_potential (Examples.lot 450.5)
              Examples.irregular_corner_geometry Examples.heavily_constrained
              (Examples.slope 30) [])).
Proof.
  destruct (C5_da_supportability_and_key_issues (Examples.lot 450.5)
              Examples.irregular_corner_geometry Examples.heavily_constrained
              (Examples.slope 30) [])
    as (Hsupportable & Hitem & _).
  split.
  - apply Hsupportable. left. reflexivity.
  - apply Hitem. reflexivity.
Defined.

(** * Fast-track pathway (cdc_low_rise.py) *)

Lemma evaluate_cdc_potential_blocking (settings : Settings)
    (parcel_data : ParcelData) (geometry_data : GeometryData)
    (constraints : Constraints) (slope_data : SlopeData) :
  CdcLowRise.blocking_constraints
    (CdcLowRise.evaluate_cdc_potential settings parcel_data geometry_data
       constraints slope_data)
  = Spec.cdc_blocking_list settings parcel_data geometry_data constraints
      slope_data.
Proof.
  destruct constraints as [bushfire category flood notes acid item area
                             foreshore riparian biodiversity geotech overlays].
  destruct geometry_data as [orientation frontage regularity corner].
  destruct slope_data as [mean_gradient max_gradient fall to_street].
  destruct parcel_data as [lot plan type rpd kind sqm dataset accuracy].
  unfold CdcLowRise.evaluate_cdc_potential, Spec.cdc_blocking_list,
    Spec.cdc_check_order, Qgtb.
  cbn zeta.
  cbn [CdcLowRise.blocking_constraints filter map Spec.cdc_blocks
    Data.bushfire_prone Data.flood_prone Data.heritage_item
    Data.heritage_conservation_area Data.foreshore_building_line
    Data.riparian_buffer Data.area_sqm Data.frontage_m
    Data.mean_gradient_percent].
  set (area_entry := ("Insufficient lot area (" ++ _)%string).
  set (frontage_entry := ("Insufficient frontage (" ++ _)%string).
  set (slope_entry := ("Slope too steep for CDC (" ++ _)%string).
  destruct bushfire, flood, item, area, foreshore, riparian,
    (Qltb (get sqm 0%Q) (MIN_LOT_AREA_DUAL_OCC_SQM settings)),
    (Qltb (get frontage 0%Q) (MIN_FRONTAGE_DUAL_OCC_M settings)),
    (Qltb (CDC_MAX_SLOPE_PERCENT settings) (get mean_gradient 0%Q));
    reflexivity.
Qed.

Lemma evaluate_cdc_potential_compliant (settings : Settings)
    (parcel_data : ParcelData) (geometry_data : GeometryData)
    (constraints : Constraints) (slope_data : SlopeData) :
  CdcLowRise.is_potentially_cdc_compliant
    (CdcLowRise.evaluate_cdc_potential settings parcel_data geometry_data
       constraints slope_data)
  = Nat.eqb
      (List.length
         (CdcLowRise.blocking_constraints
            (CdcLowRise.evaluate_cdc_potential settings parcel_data
               geometry_data constraints slope_data)))
      0.
Proof. reflexivity. Qed.

(** C2. In the fast-track evaluator [is_potentially_cdc_compliant] is true
    iff the blocking list is empty, and the entries of the blocking list are
    those of the blocking checks in the fixed check order: bushfire prone,
    flood prone, heritage item, heritage conservation area, foreshore
    building line, riparian buffer, area below minimum, frontage below
    minimum, mean gradient above the configured ceiling. *)
Theorem C2_cdc_blocking_list (settings : Settings) (parcel_data : ParcelData)
    (geometry_data : GeometryData) (constraints : Constraints)
    (slope_data : SlopeData) :
  let cdc_potential :=
    CdcLowRise.evaluate_cdc_potential settings parcel_data geometry_data
      constraints slope_data in
  (CdcLowRise.is_potentially_cdc_compliant cdc_potential = true
   <-> CdcLowRise.blocking_constraints cdc_potential = [])
  /\ CdcLowRise.blocking_constraints cdc_potential
     = map (Spec.cdc_entry parcel_data geometry_data slope_data)
         (filter
            (Spec.cdc_blocks settings parcel_data geometry_data constraints
               slope_data)
            [Spec.BushfireProne; Spec.FloodProne; Spec.HeritageItem;
             Spec.HeritageConservationArea; Spec.ForeshoreBuildingLine;
             Spec.RiparianBuffer; Spec.AreaBelowMinimum;
             Spec.FrontageBelowMinimum; Spec.GradientAboveCeiling]).
Proof.
  intros cdc_potential. split.
  - subst cdc_potential. rewrite evaluate_cdc_potential_compliant.
    destruct (CdcLowRise.blocking_constraints _); simpl; split;
      intros H; first [reflexivity | discriminate H].
  - apply evaluate_cdc_potential_blocking.
Qed.


(** * Float division (the dwelling estimate of yield_engine.py) *)

Section Floats.

Local Open Scope Q_scope.

(** Rounding reads the value of a rational, not its representation. *)
Lemma binary64_Qeq (x y : Q) : x == y -> binary64 x = binary64 y.
Proof.
  intros Hxy. unfold binary64. now rewrite (Qred_complete x y Hxy).
Qed.

(** A double is converted to itself. *)
Lemma float_of_binary64 (x : Q) :
  is_binary64 x = true -> exists v, float_of x = Ok v /\ v == x.
Proof.
  unfold is_binary64, float_of.
  destruct (binary64 x) as [v | ]; [ | discriminate].
  intros Hv. exists v. split; [reflexivity | now apply Qeq_bool_iff].
Qed.

Lemma Qeq_bool_Qeq (x y z : Q) : x == y -> Qeq_bool x z = Qeq_bool y z.
Proof.
  intros Hxy. apply eq_true_iff_eq. rewrite !Qeq_bool_iff.
  split; intros H; [rewrite <- Hxy | rewrite Hxy]; exact H.
Qed.

(** Division by a double: the dividend is converted, a zero divisor
    raises, the quotient is rounded. *)
Lemma truediv_by_binary64 (a b : Q) :
  is_binary64 b = true ->
  truediv a b
  = (a' <- float_of a ;;
     if Qeq_bool b 0 then Raise ZeroDivisionError
     else Ok (binary64 (a' / b))).
Proof.
  intros Hb. destruct (float_of_binary64 b Hb) as (v & Hv & Hvb).
  unfold truediv. rewrite Hv.
  destruct (float_of a) as [e | a']; cbn [Py.bind Ok]; [reflexivity | ].
  rewrite (Qeq_bool_Qeq v b 0 Hvb).
  destruct (Qeq_bool b 0); [reflexivity | ].
  f_equal. apply binary64_Qeq. now rewrite Hvb.
Qed.

(** The estimate [floor(max_gfa / avg_unit_size)] for a unit size that is
    a double. *)
Lemma estimated_units_cases (max_gfa avg_unit_size : Q) :
  is_binary64 avg_unit_size = true ->
  Spec.estimated_units max_gfa avg_unit_size
  = (max_gfa' <- float_of max_gfa ;;
     if Qeq_bool avg_unit_size 0 then Raise ZeroDivisionError
     else floor (binary64 (max_gfa' / avg_unit_size))).
Proof.
  intros Hunit. unfold Spec.estimated_units.
  rewrite (truediv_by_binary64 _ _ Hunit).
  destruct (float_of max_gfa) as [e | a']; cbn [Py.bind Ok]; [reflexivity | ].
  destruct (Qeq_bool avg_unit_size 0); reflexivity.
Qed.

(** The estimate raises nothing but the two arithmetic errors. *)
Lemma estimated_units_raises (max_gfa avg_unit_size : Q) (e : exn) :
  Spec.estimated_units max_gfa avg_unit_size = Raise e ->
  e = ZeroDivisionError \/ e = OverflowError.
Proof.
  unfold Spec.estimated_units, truediv, float_of, floor.
  destruct (binary64 max_gfa) as [a | ]; cbn [Py.bind Ok];
    [ | intros H; injection H as <-; now right].
  destruct (binary64 avg_unit_size) as [b | ]; cbn [Py.bind Ok];
    [ | intros H; injection H as <-; now right].
  destruct (Qeq_bool b 0); cbn [Py.bind Ok];
    [intros H; injection H as <-; now left | ].
  destruct (binary64 (a / b)); intros H;
    [discriminate H | injection H as <-; now right].
Qed.

End Floats.

Section FloatOrder.

Local Open Scope Q_scope.

(** Rounding to the nearest integer does not cross an integer. *)
Lemma Q_round_half_even_ge (k : Z) (y : Q) :
  inject_Z k <= y -> (k <= round_half_even y)%Z.
Proof.
  intros Hk. unfold round_half_even.
  assert (Hf : (k <= Qfloor y)%Z).
  { rewrite <- (Qfloor_Z k). now apply Qfloor_resp_le. }
  destruct (Qcompare _ _); [destruct (Z.even _) | | ]; lia.
Qed.

Lemma Q_round_half_even_le (k : Z) (y : Q) :
  y <= inject_Z k -> (round_half_even y <= k)%Z.
Proof.
  intros Hk. unfold round_half_even.
  pose proof (Qfloor_le y) as Hlo.
  assert (Hf : (Qfloor y <= k)%Z).
  { rewrite <- (Qfloor_Z k). now apply Qfloor_resp_le. }
  destruct (Z.eq_dec (Qfloor y) k) as [Heq | Hne].
  - assert (Hy : y - inject_Z (Qfloor y) == 0).
    { rewrite Heq in *. lra. }
    destruct (Qcompare_spec (y - inject_Z (Qfloor y)) (1 # 2)) as [H | H | H];
      [lra | lia | lra].
  - destruct (Qcompare _ _); [destruct (Z.even _) | | ]; lia.
Qed.

Lemma two_power_pos (e : Z) : 0 < 2 ^ e.
Proof. apply Qpower_0_lt. reflexivity. Qed.

Lemma two_power_Z (n : Z) : (0 <= n)%Z -> 2 ^ n == inject_Z (2 ^ n).
Proof. intros Hn. now rewrite Zpower_Qpower. Qed.

Lemma two_power_plus (n m : Z) : 2 ^ (n + m) == 2 ^ n * 2 ^ m.
Proof. apply Qpower_plus. discriminate. Qed.

(** A positive rational is at least [2^(log2 n - log2 d - 1)]. *)
Lemma log2_lower_bound (x : Q) :
  0 < x ->
  2 ^ (Z.log2 (Qnum x) - Z.log2 (Zpos (Qden x)) - 1) <= x.
Proof.
  intros Hx. destruct x as [n d].
  assert (Hn : (0 < n)%Z).
  { unfold Qlt in Hx. cbn in Hx. lia. }
  cbn [Qnum Qden].
  pose proof (Z.log2_spec n Hn) as [Hlo _].
  pose proof (Z.log2_spec (Zpos d) (Pos2Z.is_pos d)) as [_ Hhi].
  pose proof (Z.log2_nonneg n) as Ha.
  pose proof (Z.log2_nonneg (Zpos d)) as Hb.
  set (a := Z.log2 n) in *. set (b := Z.log2 (Zpos d)) in *.
  replace (a - b - 1)%Z with (a + - (b + 1))%Z by lia.
  rewrite two_power_plus, Qpower_opp, (two_power_Z a Ha),
          (two_power_Z (b + 1)) by lia.
  rewrite (Qmake_Qdiv n d).
  assert (Hd : 0 < inject_Z (Zpos d)) by reflexivity.
  assert (Hp : 0 < inject_Z (2 ^ (b + 1))).
  { rewrite <- two_power_Z by lia. apply two_power_pos. }
  apply Qle_shift_div_l; [exact Hd | ].
  change (inject_Z (2 ^ a) * / inject_Z (2 ^ (b + 1)) * inject_Z (Zpos d))
    with (inject_Z (2 ^ a) / inject_Z (2 ^ (b + 1)) * inject_Z (Zpos d)).
  assert (Heq : inject_Z (2 ^ a) / inject_Z (2 ^ (b + 1)) * inject_Z (Zpos d)
                == inject_Z (2 ^ a) * inject_Z (Zpos d)
                   / inject_Z (2 ^ (b + 1))).
  { field. intros H. rewrite H in Hp. discriminate Hp. }
  rewrite Heq. apply Qle_shift_div_r; [exact Hp | ].
  rewrite <- !inject_Z_mult, <- Zle_Qle.
  replace (Z.succ b) with (b + 1)%Z in Hhi by lia. nia.
Qed.

(** Above the subnormal range the mantissa has 53 bits. *)
Lemma last_place_normal (x : Q) :
  0 < x -> (-1074 < last_place x)%Z -> 2 ^ 51 * 2 ^ last_place x <= x.
Proof.
  intros Hx. unfold last_place.
  set (e0 := (Z.log2 (Qnum x) - Z.log2 (Zpos (Qden x)) - 52)%Z).
  pose proof (log2_lower_bound x Hx) as Hlow.
  replace (Z.log2 (Qnum x) - Z.log2 (Zpos (Qden x)) - 1)%Z
    with (51 + e0)%Z in Hlow by (subst e0; lia).
  rewrite two_power_plus in Hlow.
  destruct (Qle_bool (2 ^ 52 * 2 ^ e0) x) eqn:Hbranch.
  - intros Hnormal. rewrite Z.max_l by lia.
    apply Qle_bool_iff in Hbranch.
    pose proof (two_power_pos e0) as Hp.
    apply Qle_trans with (2 ^ 52 * 2 ^ e0); [ | exact Hbranch].
    apply Qmult_le_compat_r; [discriminate | now apply Qlt_le_weak].
  - intros Hnormal. rewrite Z.max_l by lia.
    replace e0 with (1 + (e0 - 1))%Z in Hlow at 1 by lia.
    rewrite two_power_plus in Hlow.
    pose proof (two_power_pos (e0 - 1)) as Hp.
    change (2 ^ 1) with 2 in Hlow.
    apply Qle_trans with (2 ^ 51 * (2 * 2 ^ (e0 - 1))); [ | exact Hlow].
    set (p := 2 ^ (e0 - 1)) in *. clearbody p.
    assert (H51 : 0 < 2 ^ 51) by apply two_power_pos.
    set (c := 2 ^ 51) in *. clearbody c. nra.
Qed.

(** The rounded magnitude stays on its side of every small integer. *)
Lemma rounded_small_integer (x : Q) (k : Z) :
  0 < x -> (0 <= k < 2 ^ 51)%Z ->
  let place := 2 ^ last_place x in
  let rounded := inject_Z (round_half_even (x / place)) * place in
  (inject_Z k <= x -> inject_Z k <= rounded)
  /\ (x <= inject_Z k -> rounded <= inject_Z k).
Proof.
  intros Hx Hk place rounded.
  pose proof (two_power_pos (last_place x)) as Hplace. fold place in Hplace.
  destruct (Z_le_gt_dec (last_place x) 0) as [Hfine | Hcoarse].
  - (* every integer is a multiple of the place *)
    set (scale := (2 ^ (- last_place x))%Z).
    assert (Hscale : (0 < scale)%Z) by (apply Z.pow_pos_nonneg; lia).
    assert (Hone : place * inject_Z scale == 1).
    { unfold scale. rewrite <- two_power_Z by lia. unfold place.
      rewrite <- two_power_plus.
      replace (last_place x + - last_place x)%Z with 0%Z by lia.
      reflexivity. }
    assert (Hinv : / place == inject_Z scale).
    { rewrite <- (Qmult_1_l (/ place)), <- Hone. field.
      intros H. rewrite H in Hplace. discriminate Hplace. }
    assert (Hs : 0 < inject_Z scale).
    { change 0 with (inject_Z 0). now rewrite <- Zlt_Qlt. }
    assert (Hk' : inject_Z (k * scale) * place == inject_Z k).
    { rewrite inject_Z_mult, <- Qmult_assoc, (Qmult_comm (inject_Z scale)),
              Hone. ring. }
    split; intros Hside.
    + rewrite <- Hk'. unfold rounded.
      apply Qmult_le_compat_r; [ | now apply Qlt_le_weak].
      rewrite <- Zle_Qle. apply Q_round_half_even_ge.
      unfold Qdiv. rewrite Hinv, inject_Z_mult.
      apply Qmult_le_compat_r; [exact Hside | now apply Qlt_le_weak].
    + rewrite <- Hk'. unfold rounded.
      apply Qmult_le_compat_r; [ | now apply Qlt_le_weak].
      rewrite <- Zle_Qle. apply Q_round_half_even_le.
      unfold Qdiv. rewrite Hinv, inject_Z_mult.
      apply Qmult_le_compat_r; [exact Hside | now apply Qlt_le_weak].
  - (* the magnitude is beyond every small integer *)
    pose proof (last_place_normal x Hx ltac:(lia)) as Hnormal.
    fold place in Hnormal.
    assert (Htwo : 2 <= place).
    { unfold place.
      replace (last_place x) with (1 + (last_place x - 1))%Z by lia.
      rewrite two_power_plus, (two_power_Z (last_place x - 1)) by lia.
      change (2 ^ 1) with 2.
      assert (H1 : (1 <= 2 ^ (last_place x - 1))%Z)
        by (pose proof (Z.pow_pos_nonneg 2 (last_place x - 1)); lia).
      rewrite Zle_Qle in H1. change (inject_Z 1) with 1 in H1. lra. }
    assert (Hsmall : inject_Z k < 2 ^ 51).
    { rewrite (two_power_Z 51) by lia. rewrite <- Zlt_Qlt. lia. }
    assert (H51 : 0 < 2 ^ 51) by apply two_power_pos.
    assert (Hmantissa : inject_Z (2 ^ 51) <= inject_Z (round_half_even (x / place))).
    { rewrite <- Zle_Qle. apply Q_round_half_even_ge.
      rewrite <- (two_power_Z 51) by lia.
      apply Qle_shift_div_l; [exact Hplace | exact Hnormal]. }
    rewrite <- (two_power_Z 51) in Hmantissa by lia.
    set (c := 2 ^ 51) in *. clearbody c.
    set (m := inject_Z (round_half_even (x / place))) in *.
    fold m in rounded. subst rounded. clearbody m.
    clearbody place.
    split; intros Hside; nra.
Qed.

(** Rounding to binary64 does not cross a small integer. *)
Lemma binary64_small_integer (x v : Q) (k : Z) :
  (0 <= k < 2 ^ 51)%Z ->
  binary64 x = Finite v ->
  (inject_Z k <= x -> inject_Z k <= v)
  /\ (x <= inject_Z k -> v <= inject_Z k).
Proof.
  intros Hk. unfold binary64.
  pose proof (Qred_correct x) as Hred.
  set (y := Qred x) in *. clearbody y.
  assert (Hk0 : 0 <= inject_Z k).
  { change 0 with (inject_Z 0). rewrite <- Zle_Qle. lia. }
  destruct (Qeq_bool y 0) eqn:Hzero.
  { apply Qeq_bool_iff in Hzero. intros Hv. injection Hv as <-.
    rewrite <- Hred, Hzero. split; intros H; [exact H | exact Hk0]. }
  assert (Hnonzero : ~ y == 0).
  { intros H. apply Qeq_bool_iff in H. congruence. }
  assert (Hpos : 0 < Qabs y).
  { destruct (Qlt_le_dec 0 y) as [H | H].
    - rewrite Qabs_pos by lra. exact H.
    - rewrite Qabs_neg by exact H.
      destruct (Qeq_dec y 0) as [H0 | H0]; [contradiction | ]. lra. }
  destruct (rounded_small_integer (Qabs y) k Hpos Hk) as [Hge Hle].
  cbv zeta in Hge, Hle.
  set (rounded := inject_Z (round_half_even (Qabs y / 2 ^ last_place (Qabs y)))
                  * 2 ^ last_place (Qabs y)) in *.
  assert (Hrounded : 0 <= rounded).
  { unfold rounded. apply Qmult_le_0_compat.
    - change 0 with (inject_Z 0). rewrite <- Zle_Qle.
      apply Q_round_half_even_ge. apply Qle_shift_div_l.
      + apply two_power_pos.
      + rewrite Qmult_0_l. now apply Qlt_le_weak.
    - apply Qlt_le_weak, two_power_pos. }
  clearbody rounded.
  destruct (Qle_bool (2 ^ 1024) rounded); [discriminate | ].
  intros Hv. injection Hv as <-. rewrite Qred_correct, <- Hred.
  destruct (Qle_bool 0 y) eqn:Hsign.
  - apply Qle_bool_iff in Hsign. rewrite Qabs_pos in Hge, Hle by exact Hsign.
    split; assumption.
  - assert (Hneg : y < 0).
    { apply Qnot_le_lt. intros H. apply Qle_bool_iff in H. congruence. }
    split; intros H; lra.
Qed.

(** The floor of a rounded number is the floor of the number, or one more
    when the number rounds up to an integer; beyond the counts that matter
    (below 0 and from 7 on) both floors lie on the same side. *)
Lemma binary64_floor (x v : Q) :
  binary64 x = Finite v ->
  ((0 <= Qfloor x <= 6)%Z ->
   (Qfloor x <= Qfloor v <= Qfloor x + 1)%Z)
  /\ ((Qfloor x < 0)%Z -> (Qfloor v <= 0)%Z)
  /\ ((7 <= Qfloor x)%Z -> (7 <= Qfloor v)%Z).
Proof.
  intros Hv.
  pose proof (Qfloor_le x) as Hlo. pose proof (Qlt_floor x) as Hhi.
  assert (Hfloor_ge : forall k : Z, inject_Z k <= v -> (k <= Qfloor v)%Z).
  { intros k H. rewrite <- (Qfloor_Z k). now apply Qfloor_resp_le. }
  assert (Hfloor_le : forall k : Z, v <= inject_Z k -> (Qfloor v <= k)%Z).
  { intros k H. rewrite <- (Qfloor_Z k). now apply Qfloor_resp_le. }
  split; [ | split ].
  - intros Hrange. split.
    + apply Hfloor_ge.
      apply (binary64_small_integer x v (Qfloor x)); [lia | exact Hv | exact Hlo].
    + apply Hfloor_le.
      apply (binary64_small_integer x v (Qfloor x + 1)); [lia | exact Hv | ].
      now apply Qlt_le_weak.
  - intros Hneg. apply Hfloor_le.
    apply (binary64_small_integer x v 0); [lia | exact Hv | ].
    apply Qle_trans with (inject_Z (Qfloor x + 1)); [now apply Qlt_le_weak | ].
    rewrite <- Zle_Qle. lia.
  - intros Hbig. apply Hfloor_ge.
    apply (binary64_small_integer x v 7); [lia | exact Hv | ].
    apply Qle_trans with (inject_Z (Qfloor x)); [ | exact Hlo].
    rewrite <- Zle_Qle. exact Hbig.
Qed.

(** The dwelling count from the float estimate is the count from the exact
    floor of the quotient, or one more. *)
Lemma dwellings_of_rounded (x v : Q) (typology : option Spec.Typology) :
  binary64 x = Finite v ->
  (Spec.dwellings (Qfloor x) typology
   <= Spec.dwellings (Qfloor v) typology
   <= Spec.dwellings (Qfloor x) typology + 1)%Z.
Proof.
  intros Hv. destruct (binary64_floor x v Hv) as (Hmid & Hneg & Hbig).
  destruct typology as [[ | | | ] | ]; cbn [Spec.dwellings];
    unfold Spec.clamp; try lia;
    destruct (Z_lt_le_dec (Qfloor x) 0) as [H0 | H0];
    try (specialize (Hneg H0));
    destruct (Z_le_gt_dec 7 (Qfloor x)) as [H7 | H7];
    try (specialize (Hbig H7));
    try (assert (Hm := Hmid ltac:(lia)));
    repeat match goal with
           | |- context [(?a <? ?b)%Z] => destruct (Z.ltb_spec a b)
           end; lia.
Qed.

End FloatOrder.
(** * Yield estimator (yield_engine.py) *)

Lemma clamp_code (x lo hi : Z) :
  lo <= hi -> Z.max lo (Z.min hi x) = Spec.clamp x lo hi.
Proof.
  intros Hbounds. unfold Spec.clamp.
  destruct (Z.ltb_spec x lo); [lia | ].
  destruct (Z.ltb_spec hi x); lia.
Qed.

(** What [compute_yield] does, by its four feasibility flags and the
    estimate of the number of units. *)
Lemma compute_yield_cases (settings : Settings) (parcel_data : ParcelData)
    (geometry_data : GeometryData) (envelope_data : Envelope)
    (typologies : Typologies) (constraints : Constraints) :
  let parcel_area := get (area_sqm parcel_data) 600%Q in
  let frontage := get (frontage_m geometry_data) 15%Q in
  let fsr := get (fsr_control envelope_data) 0.6%Q in
  let height := get (max_height_m envelope_data) 8.5%Q in
  let max_gfa := get (max_gfa_sqm envelope_data) 0%Q in
  let unit_size := AVERAGE_UNIT_SIZE_TOWNHOUSE_SQM settings in
  let clear := negb (heritage_item constraints) in
  let dual :=
    dual_occupancy typologies && clear
    && Qgeb parcel_area (MIN_LOT_AREA_DUAL_OCC_SQM settings)
    && Qgeb frontage (MIN_FRONTAGE_DUAL_OCC_M settings) in
  let terrace :=
    terrace_row typologies && Qgeb fsr (MIN_FSR_TERRACE settings) && clear in
  let manor :=
    manor_house typologies && Qle_bool height 8.5
    && Qgeb parcel_area 600 && clear in
  let multi :=
    multi_dwelling typologies
    && Qgeb fsr (MIN_FSR_MULTI_DWELLING settings) && clear in
  let answer count label :=
    Ok {| YieldEngine.dual_occ_feasible := dual;
          YieldEngine.terrace_row_feasible := terrace;
          YieldEngine.manor_house_feasible := manor;
          YieldEngine.multi_dwelling_feasible := multi;
          YieldEngine.indicative_dwellings_count := count;
          YieldEngine.primary_typology := label |} in
  YieldEngine.compute_yield settings parcel_data geometry_data envelope_data
    typologies constraints
  = if dual then answer 2 "Dual Occupancy"
    else if manor then answer 3 "Manor House"
    else if multi then
      estimated_units <- Spec.estimated_units max_gfa unit_size ;;
      answer (Z.max 2 (Z.min 6 estimated_units)) "Multi-Dwelling Housing"
    else if terrace then
      estimated_units <- Spec.estimated_units max_gfa unit_size ;;
      answer (Z.max 3 (Z.min 6 estimated_units)) "Terrace/Row Housing"
    else answer 1 "Single Dwelling".
Proof.
  intros parcel_area frontage fsr height max_gfa unit_size clear dual terrace
         manor multi answer.
  unfold YieldEngine.compute_yield. cbn zeta.
  fold parcel_area frontage fsr height max_gfa unit_size clear.
  fold dual. fold terrace. fold manor. fold multi.
  unfold Spec.estimated_units, answer.
  destruct dual; [reflexivity | ].
  destruct manor; [reflexivity | ].
  destruct multi;
    [destruct (truediv max_gfa unit_size) as [e | ratio]; cbn [Py.bind];
       [reflexivity | destruct (floor ratio); reflexivity] | ].
  destruct terrace;
    [destruct (truediv max_gfa unit_size) as [e | ratio]; cbn [Py.bind];
       [reflexivity | destruct (floor ratio); reflexivity] | ].
  reflexivity.
Qed.


(** C3. In the yield estimator the first feasible typology in the priority
    order dual occupancy, manor house, multi-dwelling, terrace row decides
    both the primary typology and the indicative dwelling count: 2 for dual
    occupancy, 3 for manor house, [clamp(floor(max_gfa / avg_unit_size), 2, 6)]
    for multi-dwelling, [clamp(floor(max_gfa / avg_unit_size), 3, 6)] for
    terrace row, and a single dwelling with count 1 when none is feasible; in
    particular dual occupancy wins over multi-dwelling when both are
    feasible.  The four feasibility flags are those the estimator computes
    from its inputs, and the division and the floor are those of the code,
    on floats: the estimator raises where they raise, and the count it gives
    is the count for the exact floor of the quotient, or one more when the
    float quotient of two floats rounds up to an integer. *)
Theorem C3_yield_priority_order (settings : Settings) (parcel_data : ParcelData)
    (geometry_data : GeometryData) (envelope_data : Envelope)
    (typologies : Typologies) (constraints : Constraints) :
  let max_gfa := get (max_gfa_sqm envelope_data) 0%Q in
  let unit_size := AVERAGE_UNIT_SIZE_TOWNHOUSE_SQM settings in
  let parcel_area := get (area_sqm parcel_data) 600%Q in
  let frontage := get (frontage_m geometry_data) 15%Q in
  let fsr := get (fsr_control envelope_data) 0.6%Q in
  let height := get (max_height_m envelope_data) 8.5%Q in
  let clear := negb (heritage_item constraints) in
  let dual :=
    dual_occupancy typologies && clear
    && Qgeb parcel_area (MIN_LOT_AREA_DUAL_OCC_SQM settings)
    && Qgeb frontage (MIN_FRONTAGE_DUAL_OCC_M settings) in
  let terrace :=
    terrace_row typologies && Qgeb fsr (MIN_FSR_TERRACE settings) && clear in
  let manor :=
    manor_house typologies && Qle_bool height 8.5
    && Qgeb parcel_area 600 && clear in
  let multi :=
    multi_dwelling typologies
    && Qgeb fsr (MIN_FSR_MULTI_DWELLING settings) && clear in
  let feasible typology :=
    match typology with
    | Spec.DualOccupancy => dual
    | Spec.ManorHouse => manor
    | Spec.MultiDwelling => multi
    | Spec.TerraceRow => terrace
    end in
  let first_feasible := find feasible Spec.priority_order in
  let answer estimated_units :=
    Ok {| YieldEngine.dual_occ_feasible := dual;
          YieldEngine.terrace_row_feasible := terrace;
          YieldEngine.manor_house_feasible := manor;
          YieldEngine.multi_dwelling_feasible := multi;
          YieldEngine.indicative_dwellings_count :=
            Spec.dwellings estimated_units first_feasible;
          YieldEngine.primary_typology :=
            Spec.typology_label first_feasible |} in
  YieldEngine.compute_yield settings parcel_data geometry_data envelope_data
    typologies constraints
  = (if Spec.by_floor_area first_feasible
     then estimated_units <- Spec.estimated_units max_gfa unit_size ;;
          answer estimated_units
     else answer 0)
  /\ (dual = true -> multi = true ->
      first_feasible = Some Spec.DualOccupancy
      /\ YieldEngine.compute_yield settings parcel_data geometry_data
           envelope_data typologies constraints
         = Ok {| YieldEngine.dual_occ_feasible := true;
                 YieldEngine.terrace_row_feasible := terrace;
                 YieldEngine.manor_house_feasible := manor;
                 YieldEngine.multi_dwelling_feasible := true;
                 YieldEngine.indicative_dwellings_count := 2;
                 YieldEngine.primary_typology := "Dual Occupancy" |})
  /\ (is_binary64 max_gfa = true ->
      is_binary64 unit_size = true ->
      forall estimated_units,
        Spec.estimated_units max_gfa unit_size = Ok estimated_units ->
        Spec.dwellings (Qfloor (max_gfa / unit_size)) first_feasible
        <= Spec.dwellings estimated_units first_feasible
        <= Spec.dwellings (Qfloor (max_gfa / unit_size)) first_feasible + 1).
Proof.
  intros max_gfa unit_size parcel_area frontage fsr height clear
         dual terrace manor multi feasible first_feasible answer.
  assert (Hcode : YieldEngine.compute_yield settings parcel_data geometry_data
                    envelope_data typologies constraints
                  = (if Spec.by_floor_area first_feasible
                     then estimated_units <-
                            Spec.estimated_units max_gfa unit_size ;;
                          answer estimated_units
                     else answer 0)).
  { rewrite compute_yield_cases. cbv zeta.
    fold parcel_area frontage fsr height max_gfa unit_size clear.
    fold dual. fold terrace. fold manor. fold multi.
    subst answer first_feasible feasible. unfold Spec.priority_order.
    cbn [find].
    destruct dual; [reflexivity | ].
    destruct manor; [reflexivity | ].
    destruct multi;
      [cbn [Spec.by_floor_area Spec.dwellings Spec.typology_label];
       destruct (Spec.estimated_units max_gfa unit_size); cbn [Py.bind];
       [reflexivity | now rewrite clamp_code by lia] | ].
    destruct terrace;
      [cbn [Spec.by_floor_area Spec.dwellings Spec.typology_label];
       destruct (Spec.estimated_units max_gfa unit_size); cbn [Py.bind];
       [reflexivity | now rewrite clamp_code by lia] | ].
    reflexivity. }
  split; [exact Hcode | ].
  split.
  - intros Hdual Hmulti.
    assert (Hfirst : first_feasible = Some Spec.DualOccupancy).
    { subst first_feasible feasible. unfold Spec.priority_order. cbn [find].
      now rewrite Hdual. }
    split; [exact Hfirst | ].
    rewrite Hcode. subst answer. cbv beta. rewrite Hfirst, Hdual, Hmulti.
    reflexivity.
  - intros Hgfa Hunit estimated_units Hestimate.
    rewrite (estimated_units_cases _ _ Hunit) in Hestimate.
    destruct (float_of_binary64 max_gfa Hgfa) as (a & Ha & Haq).
    rewrite Ha in Hestimate. cbn [Py.bind Ok] in Hestimate.
    destruct (Qeq_bool unit_size 0); [discriminate Hestimate | ].
    assert (Hquotient : (a / unit_size == max_gfa / unit_size)%Q)
      by now rewrite Haq.
    rewrite (binary64_Qeq _ _ Hquotient) in Hestimate.
    destruct (binary64 (max_gfa / unit_size)) as [v | ] eqn:Hv;
      [ | discriminate Hestimate].
    injection Hestimate as <-.
    now apply dwellings_of_rounded.
Qed.

(** A 608 sqm lot with 15 m frontage in zone R1, with a floor-space ratio
    of 0.75 and a maximum floor area of 456 sqm: dual occupancy and
    multi-dwelling are both feasible and the primary typology is dual
    occupancy.  A 1000 sqm lot with 10 m frontage in zone R3, with a
    maximum floor area of 300.5 sqm and an average unit size of 60.1 sqm:
    multi-dwelling housing with five dwellings, floor(300.5 / 60.1) on
    floats, one more than the four of the exact quotient. *)
Lemma C3_yield_priority_order_witness :
  YieldEngine.compute_yield default_settings (Examples.lot 608)
    (Examples.regular_geometry 15) (Examples.envelope_with_floor_area 456)
    (LepRules.determine_allowed_typologies default_settings "R1" 608
       (Examples.regular_geometry 15))
    Examples.unconstrained
  = Ok {| YieldEngine.dual_occ_feasible := true;
          YieldEngine.terrace_row_feasible := true;
          YieldEngine.manor_house_feasible := true;
          YieldEngine.multi_dwelling_feasible := true;
          YieldEngine.indicative_dwellings_count := 2;
          YieldEngine.primary_typology := "Dual Occupancy" |}
  /\ YieldEngine.compute_yield
       (Examples.with_unit_size Examples.double_60_1) (Examples.lot 1000)
       (Examples.regular_geometry 10) (Examples.envelope_with_floor_area 300.5)
       (LepRules.determine_allowed_typologies default_settings "R3" 1000
          (Examples.regular_geometry 10))
       Examples.unconstrained
     = Ok {| YieldEngine.dual_occ_feasible := false;
             YieldEngine.terrace_row_feasible := true;
             YieldEngine.manor_house_feasible := false;
             YieldEngine.multi_dwelling_feasible := true;
             YieldEngine.indicative_dwellings_count := 5;
             YieldEngine.primary_typology := "Multi-Dwelling Housing" |}
  /\ Spec.dwellings (Qfloor (300.5 / Examples.double_60_1))
       (Some Spec.MultiDwelling)
     <= 5
     <= Spec.dwellings (Qfloor (300.5 / Examples.double_60_1))
          (Some Spec.MultiDwelling) + 1.
Proof.
  split; [ | split ].
  - destruct (C3_yield_priority_order default_settings (Examples.lot 608)
                (Examples.regular_geometry 15)
                (Examples.envelope_with_floor_area 456)
                (LepRules.determine_allowed_typologies default_settings "R1"
                   608 (Examples.regular_geometry 15))
                Examples.unconstrained)
      as (_ & Hdual & _).
    exact (proj2 (Hdual eq_refl eq_refl)).
  - destruct (C3_yield_priority_order
                (Examples.with_unit_size Examples.double_60_1)
                (Examples.lot 1000) (Examples.regular_geometry 10)
                (Examples.envelope_with_floor_area 300.5)
                (LepRules.determine_allowed_typologies default_settings "R3"
                   1000 (Examples.regular_geometry 10))
                Examples.unconstrained)
      as (Hcode & _).
    rewrite Hcode. vm_compute. reflexivity.
  - destruct (C3_yield_priority_order
                (Examples.with_unit_size Examples.double_60_1)
                (Examples.lot 1000) (Examples.regular_geometry 10)
                (Examples.envelope_with_floor_area 300.5)
                (LepRules.determine_allowed_typologies default_settings "R3"
                   1000 (Examples.regular_geometry 10))
                Examples.unconstrained)
      as (_ & _ & Hbound).
    apply (Hbound ltac:(vm_compute; reflexivity)
             ltac:(vm_compute; reflexivity) 5).
    vm_compute. reflexivity.
Defined.

(** The estimate on floats.  At a floor area of 300.5 and a unit size of
    60.1 the float quotient is 5.0 although the exact quotient of the two
    doubles lies below 5; 1e308 / 0.001 overflows, and the floor raises. *)
Example estimate_rounds_up :
  binary64 60.1 = Finite Examples.double_60_1
  /\ Spec.estimated_units 300.5 Examples.double_60_1 = Ok 5
  /\ Qfloor (300.5 / Examples.double_60_1) = 4.
Proof. repeat split; vm_compute; reflexivity. Qed.

Example estimate_overflows :
  is_binary64 Examples.double_1e308 = true
  /\ is_binary64 Examples.double_0_001 = true
  /\ Spec.estimated_units Examples.double_1e308 Examples.double_0_001
     = Raise OverflowError
  /\ Spec.estimated_units 456 0 = Raise ZeroDivisionError.
Proof. repeat split; vm_compute; reflexivity. Qed.




(** * Polygon metrics (polygon_ops.py) *)

Section PolygonMetrics.

Import PolygonOps.

Local Open Scope R_scope.

Lemma boundary_length_nonneg (ring : list Point) : 0 <= boundary_length ring.
Proof.
  induction ring as [ | p [ | q rest] IH]; simpl; try lra.
  simpl in IH.
  pose proof (sqrt_pos ((fst q - fst p) * (fst q - fst p)
                        + (snd q - snd p) * (snd q - snd p))).
  lra.
Qed.

Lemma length_nonneg (polygon : Polygon) : 0 <= length polygon.
Proof. apply boundary_length_nonneg. Qed.

Lemma area_nonneg (polygon : Polygon) : 0 <= area polygon.
Proof.
  unfold area. pose proof (Rabs_pos (shoelace (exterior polygon))). lra.
Qed.

Lemma max_Rmax (a b : R) : max a b = Rmax a b.
Proof.
  unfold max, Rmax. destruct (Rlt_dec a b), (Rle_dec a b); lra.
Qed.

Lemma min_Rmin (a b : R) : min a b = Rmin a b.
Proof.
  unfold min, Rmin. destruct (Rlt_dec b a), (Rle_dec a b); lra.
Qed.

Lemma clamp_unit_bounds (x : R) : 0 <= Spec.clamp_unit x <= 1.
Proof.
  unfold Spec.clamp_unit, Rmax, Rmin.
  destruct (Rle_dec 1 x); destruct (Rle_dec 0 _); lra.
Qed.

(** Rounding to the nearest integer stays between integer bounds. *)
Lemma round_half_even_between (a b : Z) (x : R) :
  IZR a <= x <= IZR b -> (a <= round_half_even x <= b)%Z.
Proof.
  intros [Ha Hb]. unfold round_half_even.
  destruct (Zfloor_bound x) as [Hlo Hhi].
  assert (Hfa : (a <= Zfloor x)%Z) by (apply Zfloor_lub; exact Ha).
  assert (Hfb : (Zfloor x <= b)%Z) by (apply le_IZR; lra).
  assert (Hcases : (Zfloor x < b)%Z \/ x - IZR (Zfloor x) = 0).
  { destruct (Z.eq_dec (Zfloor x) b) as [Heq | Hne]; [right | left; lia].
    rewrite Heq in *. lra. }
  destruct (Rlt_dec (x - IZR (Zfloor x)) (1 / 2)); [lia | ].
  destruct Hcases as [Hlt | Hzero]; [ | lra].
  destruct (Rlt_dec (1 / 2) (x - IZR (Zfloor x))); [lia | ].
  destruct (Z.even (Zfloor x)); lia.
Qed.

Lemma round_unit_bounds (x : R) : 0 <= x <= 1 -> 0 <= round x 3 <= 1.
Proof.
  intros Hx. unfold round.
  assert (Hscale : 10 ^ 3 = 1000) by (simpl; lra).
  rewrite Hscale.
  destruct (round_half_even_between 0 1000 (x * 1000)) as [Hlo Hhi];
    [lra | ].
  apply IZR_le in Hlo, Hhi. lra.
Qed.

(** [compute_regularity_index] returns for every polygon: neither the
    square root nor the division raises. *)
Lemma compute_regularity_index_returns (polygon : Polygon) :
  compute_regularity_index polygon
  = Ok (if Req_dec_T (length polygon) 0 then 0
        else round (Spec.clamp_unit
                      (4 * sqrt (area polygon) / length polygon)) 3).
Proof.
  unfold compute_regularity_index.
  destruct (Req_dec_T (length polygon) 0) as [Hzero | Hpos]; [reflexivity | ].
  unfold math_sqrt.
  destruct (Rlt_dec (area polygon) 0) as [Hneg | _].
  { pose proof (area_nonneg polygon). lra. }
  cbn [Py.bind Ok]. unfold truediv.
  destruct (Req_dec_T (length polygon) 0) as [Hzero | _]; [contradiction | ].
  cbn [Py.bind Ok]. unfold Spec.clamp_unit.
  now rewrite max_Rmax, min_Rmin.
Qed.

End PolygonMetrics.

(** C7, as the code has it.  For every polygon [compute_regularity_index]
    returns a value in [0, 1]: 0 when the perimeter is 0, and otherwise
    [clamp(4 * sqrt(area) / perimeter, 0, 1)] rounded to three decimal
    places; it raises no error and never divides by zero. *)
Theorem C7_regularity_index_rounded (polygon : PolygonOps.Polygon) :
  exists regularity : R,
    PolygonOps.compute_regularity_index polygon = Ok regularity
    /\ (0 <= regularity <= 1)%R
    /\ (PolygonOps.length polygon = 0%R -> regularity = 0%R)
    /\ (PolygonOps.length polygon <> 0%R ->
        regularity
        = PolygonOps.round
            (Spec.clamp_unit
               (4 * sqrt (PolygonOps.area polygon)
                / PolygonOps.length polygon)%R) 3).
Proof.
  eexists. split; [apply compute_regularity_index_returns | ].
  destruct (Req_dec_T (PolygonOps.length polygon) 0) as [Hzero | Hpos].
  - split; [lra | ]. split; intros; [reflexivity | contradiction].
  - split; [apply round_unit_bounds, clamp_unit_bounds | ].
    split; intros; [contradiction | reflexivity].
Qed.

Section Rectangles.

Import PolygonOps.

Local Open Scope R_scope.

Lemma sqrt_of_square (x y : R) : 0 <= y -> x = y * y -> sqrt x = y.
Proof. intros Hy ->. now apply sqrt_square. Qed.

(** The metrics of a rectangle of width [w] and height [h]. *)
Lemma rectangle_area (w h : R) :
  0 <= w -> 0 <= h -> area (Examples.rectangle w h) = w * h.
Proof.
  intros Hw Hh. unfold area, Examples.rectangle. simpl.
  replace (0 * 0 - w * 0 + (w * h - w * 0 + (w * h - 0 * h + (0 * 0 - 0 * h + 0))))
    with (2 * (w * h)) by ring.
  rewrite Rabs_pos_eq; [lra | ].
  pose proof (Rmult_le_pos w h Hw Hh). lra.
Qed.

Lemma rectangle_length (w h : R) :
  0 <= w -> 0 <= h -> length (Examples.rectangle w h) = 2 * (w + h).
Proof.
  intros Hw Hh. unfold length, Examples.rectangle. simpl.
  rewrite (sqrt_of_square _ w), (sqrt_of_square _ h),
          (sqrt_of_square _ w), (sqrt_of_square _ h);
    first [assumption | ring].
Qed.

Lemma round_half_even_below (x : R) (n : Z) :
  IZR n <= x < IZR n + 1 / 2 -> round_half_even x = n.
Proof.
  intros Hx. unfold round_half_even.
  rewrite (Zfloor_eq n x) by lra.
  destruct (Rlt_dec (x - IZR n) (1 / 2)); [reflexivity | lra].
Qed.

Lemma round_half_even_above (x : R) (n : Z) :
  IZR n + 1 / 2 < x < IZR n + 1 -> round_half_even x = (n + 1)%Z.
Proof.
  intros Hx. unfold round_half_even.
  rewrite (Zfloor_eq n x) by lra.
  destruct (Rlt_dec (x - IZR n) (1 / 2)); [lra | ].
  destruct (Rlt_dec (1 / 2) (x - IZR n)); [reflexivity | lra].
Qed.

Lemma regularity_index_rectangle_4_9 :
  compute_regularity_index (Examples.rectangle 4 9) = Ok (923 / 1000)
  /\ Spec.clamp_unit
       (4 * sqrt (area (Examples.rectangle 4 9))
        / length (Examples.rectangle 4 9))
     = 12 / 13.
Proof.
  assert (Hraw : Spec.clamp_unit
                   (4 * sqrt (area (Examples.rectangle 4 9))
                    / length (Examples.rectangle 4 9))
                 = 12 / 13).
  { rewrite rectangle_area, rectangle_length by lra.
    rewrite (sqrt_of_square (4 * 9) 6) by lra.
    unfold Spec.clamp_unit, Rmax, Rmin.
    destruct (Rle_dec 1 (4 * 6 / (2 * (4 + 9)))); [lra | ].
    destruct (Rle_dec 0 (4 * 6 / (2 * (4 + 9)))); lra. }
  split; [ | exact Hraw].
  rewrite compute_regularity_index_returns.
  destruct (Req_dec_T (length (Examples.rectangle 4 9)) 0) as [Hzero | _].
  { rewrite rectangle_length in Hzero by lra. lra. }
  rewrite Hraw. unfold round.
  replace (10 ^ 3) with 1000 by (simpl; lra).
  rewrite (round_half_even_below _ 923) by lra.
  reflexivity.
Qed.

Lemma regularity_index_square_10 :
  compute_regularity_index (Examples.rectangle 10 10) = Ok 1.
Proof.
  rewrite compute_regularity_index_returns.
  destruct (Req_dec_T (length (Examples.rectangle 10 10)) 0) as [Hzero | _].
  { rewrite rectangle_length in Hzero by lra. lra. }
  rewrite rectangle_area, rectangle_length by lra.
  rewrite (sqrt_of_square (10 * 10) 10) by lra.
  replace (Spec.clamp_unit (4 * 10 / (2 * (10 + 10)))) with 1.
  - unfold round. replace (10 ^ 3) with 1000 by (simpl; lra).
    rewrite (round_half_even_below _ 1000) by lra.
    f_equal. lra.
  - unfold Spec.clamp_unit, Rmax, Rmin.
    destruct (Rle_dec 1 (4 * 10 / (2 * (10 + 10)))); [ | lra].
    destruct (Rle_dec 0 1); lra.
Qed.

Lemma collapsed_ring_metrics :
  length Examples.collapsed_ring = 0
  /\ area Examples.collapsed_ring = 0
  /\ compute_regularity_index Examples.collapsed_ring = Ok 0.
Proof.
  assert (Hlength : length Examples.collapsed_ring = 0).
  { unfold length, Examples.collapsed_ring. simpl.
    rewrite (sqrt_of_square _ 0) by lra. lra. }
  split; [exact Hlength | ]. split.
  - unfold area, Examples.collapsed_ring. simpl.
    replace (0 * 0 - 0 * 0 + (0 * 0 - 0 * 0 + (0 * 0 - 0 * 0 + 0))) with 0 by ring.
    rewrite Rabs_R0. lra.
  - rewrite compute_regularity_index_returns.
    destruct (Req_dec_T (length Examples.collapsed_ring) 0); [reflexivity | ].
    contradiction.
Qed.

Lemma builtin_polygon_metrics :
  area Examples.builtin_polygon = 600
  /\ length Examples.builtin_polygon = 110.
Proof.
  split.
  - unfold area, Examples.builtin_polygon. simpl.
    match goal with
    | |- Rabs ?s / 2 = _ => replace s with (Ropp 1200) by ring
    end.
    rewrite Rabs_Ropp, Rabs_pos_eq; lra.
  - unfold length, Examples.builtin_polygon. simpl.
    rewrite (sqrt_of_square _ 15), (sqrt_of_square _ 40),
            (sqrt_of_square _ 15), (sqrt_of_square _ 40);
      first [lra | ring].
Qed.

End Rectangles.

Section BuiltinParcel.

Import PolygonOps.

Local Open Scope R_scope.

Lemma sqrt_between (x lo hi : R) :
  0 <= lo -> 0 <= hi -> lo * lo < x < hi * hi -> lo < sqrt x < hi.
Proof.
  intros Hlo Hhi [H1 H2].
  assert (Hsq : 0 <= lo * lo) by (apply Rmult_le_pos; assumption).
  split.
  - rewrite <- (sqrt_square lo Hlo) at 1. apply sqrt_lt_1_alt. lra.
  - rewrite <- (sqrt_square hi Hhi) at 1. apply sqrt_lt_1_alt. lra.
Qed.

(** The regularity index of the built-in 15 m by 40 m parcel. *)
Lemma regularity_index_builtin_polygon :
  compute_regularity_index Examples.builtin_polygon = Ok (891 / 1000).
Proof.
  rewrite compute_regularity_index_returns.
  destruct builtin_polygon_metrics as [Harea Hlength].
  rewrite Harea, Hlength.
  destruct (Req_dec_T 110 0) as [Hzero | _]; [lra | ].
  pose proof (sqrt_between 600 (2448875 / 100000) (245025 / 10000)
                ltac:(lra) ltac:(lra) ltac:(lra)) as [Hlo Hhi].
  assert (Hclamp : Spec.clamp_unit (4 * sqrt 600 / 110) = 4 * sqrt 600 / 110).
  { unfold Spec.clamp_unit, Rmax, Rmin.
    destruct (Rle_dec 1 (4 * sqrt 600 / 110)); [lra | ].
    destruct (Rle_dec 0 (4 * sqrt 600 / 110)); lra. }
  rewrite Hclamp. unfold round.
  replace (10 ^ 3) with 1000 by (simpl; lra).
  rewrite (round_half_even_above _ 890) by lra.
  reflexivity.
Qed.

End BuiltinParcel.

(** For the square of side 10 the regularity index is returned and lies
    between 0 and 1. *)
Lemma C7_regularity_index_rounded_witness :
  exists regularity : R,
    PolygonOps.compute_regularity_index (Examples.rectangle 10 10)
    = Ok regularity
    /\ (0 <= regularity <= 1)%R.
Proof.
  destruct (C7_regularity_index_rounded (Examples.rectangle 10 10))
    as (regularity & Hreturns & Hbounds & _).
  exists regularity. split; [exact Hreturns | exact Hbounds].
Defined.

(** C7, as the claim has it, fails: for the 4 by 9 rectangle the clamped
    ratio is 12/13, and [compute_regularity_index] returns 0.923. *)
Lemma C7_regularity_index_counterexample :
  PolygonOps.compute_regularity_index (Examples.rectangle 4 9)
  = Ok (923 / 1000)%R
  /\ Spec.clamp_unit
       (4 * sqrt (PolygonOps.area (Examples.rectangle 4 9))
        / PolygonOps.length (Examples.rectangle 4 9))%R
     = (12 / 13)%R
  /\ (923 / 1000)%R <> (12 / 13)%R.
Proof.
  destruct regularity_index_rectangle_4_9 as [Hcode Hclamp].
  split; [exact Hcode | ]. split; [exact Hclamp | lra].
Qed.

(** * Pipeline (runner.py) *)

Lemma resolve_parcel_builtin (input_data : Runner.InputData) :
  Runner.resolve_parcel input_data
  = (Examples.builtin_parcel, Examples.builtin_polygon).
Proof. reflexivity. Qed.



Section GeometryStage.

Import PolygonOps.
Import Boundaries.

Local Open Scope R_scope.

Lemma segments_nil (coords : list Point) :
  segments coords = [] <-> (List.length coords < 2)%nat.
Proof.
  destruct coords as [ | p1 [ | p2 rest]]; cbn [segments List.length];
    split; intros H;
    first [reflexivity | lia | discriminate H | exfalso; lia].
Qed.






End GeometryStage.


(** * Scenarios *)

(** Every fast-track check blocks: the nine entries come in check order. *)
Lemma C2_cdc_blocking_list_witness :
  CdcLowRise.blocking_constraints
    (CdcLowRise.evaluate_cdc_potential default_settings (Examples.lot 450.5)
       Examples.irregular_corner_geometry Examples.heavily_constrained
       (Examples.slope 30))
  = ["Bushfire (BAL > 40 requires report)"; "Flood control lot";
     "Heritage Item"; "Heritage Conservation Area";
     "Foreshore Building Line"; "Riparian Buffer";
     "Insufficient lot area (450 sqm)"; "Insufficient frontage (12.2 m)";
     "Slope too steep for CDC (30.0%)"].
Proof.
  rewrite (proj2 (C2_cdc_blocking_list default_settings (Examples.lot 450.5)
                    Examples.irregular_corner_geometry
                    Examples.heavily_constrained (Examples.slope 30))).
  reflexivity.
Defined.

(** The unconstrained 607 sqm lot with 15 m frontage: fast-track eligible,
    supportable, no red flag, rated "None". *)
Example unconstrained_lot_scenario :
  CdcLowRise.evaluate_cdc_potential default_settings (Examples.lot 607)
    (Examples.regular_geometry 15) Examples.unconstrained (Examples.slope 6.5)
  = {| CdcLowRise.is_potentially_cdc_compliant := true;
       CdcLowRise.likely_pathway := "CDC Possible";
       CdcLowRise.blocking_constraints := [] |}
  /\ DaGuidance.evaluate_da_potential (Examples.lot 607)
       (Examples.regular_geometry 15) Examples.unconstrained
       (Examples.slope 6.5) []
     = {| DaGuidance.is_likely_supportable := true;
          DaGuidance.key_issues := ["Streetscape bulk & scale"];
          DaGuidance.recommended_studies := [];
          DaGuidance.red_flags := [] |}
  /\ RiskEngine.compute_risk_rating Examples.unconstrained
       (Examples.severity_of_score 0) (Examples.slope 6.5)
       (Examples.regular_geometry 15)
     = "None".
Proof. repeat split. Qed.

(** A bushfire-prone parcel whose category entry is [None] makes the
    severity scorer raise. *)
Example bushfire_without_category_raises :
  ConstraintsEngine.compute_constraint_severity default_settings
    {| bushfire_prone := true;
       bushfire_category := Some None;
       flood_prone := false;
       flood_notes := None;
       acid_sulfate_soil_class := "None";
       heritage_item := false;
       heritage_conservation_area := false;
       foreshore_building_line := false;
       riparian_buffer := false;
       biodiversity := false;
       geotech_landslip_risk := Some "Low";
       other_overlays := [] |}
  = Raise TypeError.
Proof. reflexivity. Qed.

(** * Further properties: constraint severity (constraints_engine.py) *)

Lemma prefix_app (a s : string) :
  prefix a s = true <-> exists rest, s = (a ++ rest)%string.
Proof.
  revert s. induction a as [ | c a IH]; intros s; simpl.
  - split; [intros _; now exists s | intros _; now destruct s].
  - destruct s as [ | d s]; simpl.
    + split; [discriminate | intros [rest H]; discriminate H].
    + destruct (ascii_dec c d) as [-> | Hne].
      * rewrite IH. split; intros [rest H]; exists rest.
        -- now subst.
        -- simpl in H. congruence.
      * split; [discriminate | ].
        intros [rest H]. simpl in H. congruence.
Qed.

Lemma contains_here (a s : string) :
  prefix a s = true -> contains a s = true.
Proof. intros H. destruct s; cbn [contains]; now rewrite H. Qed.

Lemma contains_later (a p s : string) :
  contains a s = true -> contains a (p ++ s)%string = true.
Proof.
  intros H. induction p as [ | c p IH]; [exact H | ].
  change (String c p ++ s)%string with (String c (p ++ s)%string).
  cbn [contains]. rewrite IH.
  now destruct (prefix a (String c (p ++ s))).
Qed.

Lemma string_app_assoc (a b c : string) :
  ((a ++ b) ++ c)%string = (a ++ (b ++ c))%string.
Proof. induction a as [ | x a IH]; simpl; [reflexivity | now rewrite IH]. Qed.

(** [contains] is the substring test. *)
Lemma contains_substring (a s : string) :
  contains a s = true <-> exists before after, s = (before ++ a ++ after)%string.
Proof.
  split.
  - induction s as [ | c s IH]; cbn [contains].
    + destruct (prefix a "") eqn:Hhere; [ | discriminate].
      intros _. apply prefix_app in Hhere. destruct Hhere as [rest Hrest].
      now exists "", rest.
    + destruct (prefix a (String c s)) eqn:Hhere.
      * intros _. apply prefix_app in Hhere. destruct Hhere as [rest Hrest].
        now exists "", rest.
      * intros Hlater. destruct (IH Hlater) as (before & after & ->).
        now exists (String c before), after.
  - intros (before & after & ->).
    apply contains_later, contains_here, prefix_app. now exists after.
Qed.

(** A text that contains "Vegetation Category 1" contains "Category 1". *)
Lemma vegetation_category_1 (category : string) :
  contains "Vegetation Category 1" category = true ->
  contains "Category 1" category = true.
Proof.
  rewrite !contains_substring. intros (before & after & ->).
  exists (before ++ "Vegetation ")%string, after.
  now rewrite string_app_assoc.
Qed.

(** The severity record that [compute_constraint_severity] builds from a
    bushfire severity. *)
Lemma compute_constraint_severity_cases (settings : Settings)
    (constraints : Constraints) :
  match ConstraintsEngine.compute_constraint_severity settings constraints with
  | inl e =>
      e = TypeError
      /\ bushfire_prone constraints = true
      /\ bushfire_category constraints = Some None
  | inr severity =>
      (bushfire_prone constraints = false
       \/ bushfire_category constraints <> Some None)
      /\ ConstraintsEngine.bushfire_severity severity
         = (if bushfire_prone constraints
            then match get (bushfire_category constraints) (Some "") with
                 | Some category => Tiers.bushfire_tier category
                 | None => 0
                 end
            else 0)
      /\ ConstraintsEngine.flood_severity severity
         = (if flood_prone constraints then 3 else 0)
      /\ ConstraintsEngine.heritage_severity severity
         = (if heritage_item constraints then 3
            else if heritage_conservation_area constraints then 2 else 0)
      /\ ConstraintsEngine.geotech_severity severity
         = Tiers.geotech_tier constraints
      /\ ConstraintsEngine.biodiversity_severity severity
         = (if biodiversity constraints then 2 else 0)
      /\ ConstraintsEngine.total_score severity
         = BUSHFIRE_WEIGHT settings * ConstraintsEngine.bushfire_severity severity
           + FLOOD_WEIGHT settings * ConstraintsEngine.flood_severity severity
           + HERITAGE_WEIGHT settings * ConstraintsEngine.heritage_severity severity
           + GEOTECH_WEIGHT settings * ConstraintsEngine.geotech_severity severity
           + BIODIVERSITY_WEIGHT settings
             * ConstraintsEngine.biodiversity_severity severity
           + MISC_WEIGHT settings
             * Z.of_nat (List.length (other_overlays constraints))
      /\ ConstraintsEngine.rating severity
         = ConstraintsEngine.overall_rating
             (ConstraintsEngine.total_score severity)
  end.
Proof.
  unfold ConstraintsEngine.compute_constraint_severity.
  destruct (bushfire_prone constraints) eqn:Hprone.
  - destruct (bushfire_category constraints) as [[category | ] | ] eqn:Hcat;
      cbn [get str_operand Py.bind Ok Raise].
    + unfold Tiers.bushfire_tier.
      destruct (contains "Category 1" category) eqn:H1.
      * cbn [orb Py.bind Ok]. repeat split. right. discriminate.
      * destruct (contains "Vegetation Category 1" category) eqn:HV.
        { apply vegetation_category_1 in HV. congruence. }
        cbn [orb]. destruct (contains "Category 2" category);
          cbn [Py.bind Ok]; repeat split; right; discriminate.
    + repeat split.
    + change (contains "Category 1" "" || contains "Vegetation Category 1" "")
        with false.
      change (contains "Category 2" "") with false.
      cbn [Py.bind Ok]. repeat split. right. discriminate.
  - cbn [Py.bind Ok]. repeat split. now left.
Qed.

Lemma geotech_tier_cases (constraints : Constraints) :
  let risk := get (geotech_landslip_risk constraints) "Low" in
  0 <= Tiers.geotech_tier constraints <= 3
  /\ (Tiers.geotech_tier constraints = 3 <-> risk = "Very High")
  /\ (Tiers.geotech_tier constraints = 2 <-> risk = "High")
  /\ (Tiers.geotech_tier constraints = 1 <-> risk = "Moderate")
  /\ (Tiers.geotech_tier constraints = 0
      <-> ~ In risk ["Very High"; "High"; "Moderate"]).
Proof.
  intros risk. unfold Tiers.geotech_tier. fold risk.
  unfold ConstraintsEngine.geotech_table. cbn [dict_get].
  destruct (String.eqb_spec "Very High" risk) as [<- | HVH];
    [ | destruct (String.eqb_spec "High" risk) as [<- | HH];
        [ | destruct (String.eqb_spec "Moderate" risk) as [<- | HM];
            [ | destruct (String.eqb_spec "Low" risk) as [<- | HL] ] ] ];
    (split; [lia | ]);
    repeat split; intros; try discriminate; try lia; try congruence;
    simpl in *; try tauto; intuition congruence.
Qed.

Lemma bushfire_tier_cases (category : string) :
  1 <= Tiers.bushfire_tier category <= 3
  /\ (Tiers.bushfire_tier category = 3
      <-> contains "Category 1" category = true)
  /\ (Tiers.bushfire_tier category = 2
      <-> contains "Category 1" category = false
          /\ contains "Category 2" category = true)
  /\ (Tiers.bushfire_tier category = 1
      <-> contains "Category 1" category = false
          /\ contains "Category 2" category = false).
Proof.
  unfold Tiers.bushfire_tier.
  destruct (contains "Category 1" category),
    (contains "Category 2" category);
    (split; [lia | ]); repeat split; intros; try discriminate; try lia;
    try tauto; intuition discriminate.
Qed.

(** X1. [compute_constraint_severity] raises exactly when the parcel is
    bushfire prone and its category entry holds [None] (the value that
    [evaluate_constraints] stores); the exception is then a [TypeError], and
    in every other case a severity record is returned. *)
Theorem X1_constraint_severity_raises (settings : Settings)
    (constraints : Constraints) :
  (ConstraintsEngine.compute_constraint_severity settings constraints
   = Raise TypeError
   <-> bushfire_prone constraints = true
       /\ bushfire_category constraints = Some None)
  /\ (forall e,
        ConstraintsEngine.compute_constraint_severity settings constraints
        = Raise e ->
        e = TypeError)
  /\ ((exists severity,
         ConstraintsEngine.compute_constraint_severity settings constraints
         = Ok severity)
      <-> bushfire_prone constraints = false
          \/ bushfire_category constraints <> Some None).
Proof.
  pose proof (compute_constraint_severity_cases settings constraints) as H.
  destruct (ConstraintsEngine.compute_constraint_severity settings constraints)
    as [e | severity].
  - destruct H as (-> & Hprone & Hcat). split; [ | split].
    + tauto.
    + intros e He. now injection He as <-.
    + split.
      * intros [severity Hs]. discriminate Hs.
      * intros [H | H]; congruence.
  - destruct H as (Hok & _). split; [ | split].
    + split; [discriminate | ].
      intros [Hprone Hcat]. destruct Hok; congruence.
    + intros e He. discriminate He.
    + split; [intros _; exact Hok | intros _; now exists severity].
Qed.

(** X2. The bushfire severity that [compute_constraint_severity] returns
    is 0 iff the parcel is not bushfire prone; for a prone parcel it is 3 iff
    the category text contains "Category 1", 2 iff it contains "Category 2"
    and not "Category 1", and 1 otherwise, also when the category entry is
    absent.  The test for "Vegetation Category 1" never decides: "Category 1"
    alone does. *)
Theorem X2_bushfire_severity_tiers (settings : Settings)
    (constraints : Constraints)
    (severity : ConstraintsEngine.ConstraintSeverity) :
  ConstraintsEngine.compute_constraint_severity settings constraints
  = Ok severity ->
  let b := ConstraintsEngine.bushfire_severity severity in
  (b = 0 <-> bushfire_prone constraints = false)
  /\ (bushfire_prone constraints = true ->
      bushfire_category constraints = None -> b = 1)
  /\ (forall category,
        bushfire_prone constraints = true ->
        bushfire_category constraints = Some (Some category) ->
        (b = 3 <-> contains "Category 1" category = true)
        /\ (b = 2 <-> contains "Category 1" category = false
                      /\ contains "Category 2" category = true)
        /\ (b = 1 <-> contains "Category 1" category = false
                      /\ contains "Category 2" category = false)).
Proof.
  intros Hreturns b.
  pose proof (compute_constraint_severity_cases settings constraints) as H.
  rewrite Hreturns in H. destruct H as (Hok & Hb & _).
  fold b in Hb. split; [ | split].
  - destruct (bushfire_prone constraints) eqn:Hprone.
    + split; [ | discriminate]. intros Hzero. exfalso.
      destruct (bushfire_category constraints) as [[category | ] | ];
        cbn [get] in Hb.
      * pose proof (bushfire_tier_cases category). lia.
      * destruct Hok; congruence.
      * unfold Tiers.bushfire_tier in Hb. simpl in Hb. lia.
    + split; [reflexivity | intros _; exact Hb].
  - intros Hprone Hcat. rewrite Hprone, Hcat in Hb. exact Hb.
  - intros category Hprone Hcat. rewrite Hprone, Hcat in Hb. cbn [get] in Hb.
    rewrite Hb. apply bushfire_tier_cases.
Qed.

(** A prone parcel whose category names both categories scores 3. *)
Lemma X2_bushfire_severity_tiers_witness :
  exists severity,
    ConstraintsEngine.compute_constraint_severity default_settings
      Samples.both_categories
    = Ok severity
    /\ ConstraintsEngine.bushfire_severity severity = 3.
Proof.
  destruct (ConstraintsEngine.compute_constraint_severity default_settings
              Samples.both_categories) as [e | severity] eqn:Hreturns.
  - vm_compute in Hreturns. discriminate Hreturns.
  - exists severity. split; [reflexivity | ].
    apply (proj1 (proj2 (proj2 (X2_bushfire_severity_tiers default_settings
                                  Samples.both_categories severity Hreturns))
                    "Category 2 near Category 1" eq_refl eq_refl)).
    reflexivity.
Defined.

(** X3. Every severity that [compute_constraint_severity] returns stays on
    its scale: bushfire and geotechnical in 0..3, flood 0 or 3, heritage 0, 2
    or 3 (3 for a heritage item, whether or not a conservation area also
    applies), biodiversity 0 or 2. *)
Theorem X3_severity_scales (settings : Settings) (constraints : Constraints)
    (severity : ConstraintsEngine.ConstraintSeverity) :
  ConstraintsEngine.compute_constraint_severity settings constraints
  = Ok severity ->
  0 <= ConstraintsEngine.bushfire_severity severity <= 3
  /\ (ConstraintsEngine.flood_severity severity = 3
      /\ flood_prone constraints = true
      \/ ConstraintsEngine.flood_severity severity = 0
         /\ flood_prone constraints = false)
  /\ (ConstraintsEngine.heritage_severity severity = 3
      /\ heritage_item constraints = true
      \/ ConstraintsEngine.heritage_severity severity = 2
         /\ heritage_item constraints = false
         /\ heritage_conservation_area constraints = true
      \/ ConstraintsEngine.heritage_severity severity = 0
         /\ heritage_item constraints = false
         /\ heritage_conservation_area constraints = false)
  /\ 0 <= ConstraintsEngine.geotech_severity severity <= 3
  /\ (ConstraintsEngine.geotech_severity severity = 3
      <-> get (geotech_landslip_risk constraints) "Low" = "Very High")
  /\ (ConstraintsEngine.biodiversity_severity severity = 2
      /\ biodiversity constraints = true
      \/ ConstraintsEngine.biodiversity_severity severity = 0
         /\ biodiversity constraints = false).
Proof.
  intros Hreturns.
  pose proof (compute_constraint_severity_cases settings constraints) as H.
  rewrite Hreturns in H.
  destruct H as (_ & Hb & Hf & Hh & Hg & Hbio & _).
  destruct (geotech_tier_cases constraints) as (Hrange & HVH & _).
  rewrite Hf, Hh, Hg, Hbio.
  split.
  { rewrite Hb. destruct (bushfire_prone constraints); [ | lia].
    destruct (get (bushfire_category constraints) (Some ""))
      as [category | ]; [ | lia].
    pose proof (bushfire_tier_cases category). lia. }
  split; [destruct (flood_prone constraints); tauto | ].
  split.
  { destruct (heritage_item constraints);
      destruct (heritage_conservation_area constraints); tauto. }
  split; [exact Hrange | ].
  split; [exact HVH | ].
  destruct (biodiversity constraints); tauto.
Qed.

(** The heavily constrained parcel: heritage severity 3 although a
    conservation area applies as well. *)
Lemma X3_severity_scales_witness :
  exists severity,
    ConstraintsEngine.compute_constraint_severity default_settings
      Examples.heavily_constrained
    = Ok severity
    /\ 0 <= ConstraintsEngine.bushfire_severity severity <= 3.
Proof.
  destruct (ConstraintsEngine.compute_constraint_severity default_settings
              Examples.heavily_constrained) as [e | severity] eqn:Hreturns.
  - vm_compute in Hreturns. discriminate Hreturns.
  - exists severity. split; [reflexivity | ].
    exact (proj1 (X3_severity_scales default_settings
                    Examples.heavily_constrained severity Hreturns)).
Defined.

Lemma bushfire_severity_nonneg (prone : bool) (category : option string) :
  0 <= (if prone
        then match category with
             | Some category => Tiers.bushfire_tier category
             | None => 0
             end
        else 0).
Proof.
  destruct prone; [ | lia]. destruct category as [category | ]; [ | lia].
  pose proof (bushfire_tier_cases category). lia.
Qed.

(** X4. With weights that are not negative the total score is not
    negative, and a constraint set that carries every constraint of another
    at least as severely never scores lower.  Bushfire and landslip risk
    are compared by tier, so that a bushfire category of a higher tier on
    the same land counts as more severe; a conservation area may become a
    heritage item, and the other overlays are compared by their number. *)
Theorem X4_total_score_monotone (settings : Settings)
    (constraints constraints' : Constraints)
    (severity severity' : ConstraintsEngine.ConstraintSeverity) :
  Tiers.weights_nonnegative settings ->
  Tiers.no_less_constrained constraints constraints' ->
  ConstraintsEngine.compute_constraint_severity settings constraints
  = Ok severity ->
  ConstraintsEngine.compute_constraint_severity settings constraints'
  = Ok severity' ->
  0 <= ConstraintsEngine.total_score severity
    <= ConstraintsEngine.total_score severity'.
Proof.
  intros (Wb & Wf & Wh & Wg & Wbio & Wm)
         (Hbush & Hflood & Hitem & Harea & Hgeo & Hbio & Hover) Hret Hret'.
  unfold Tiers.bushfire_level in Hbush.
  pose proof (compute_constraint_severity_cases settings constraints) as H.
  pose proof (compute_constraint_severity_cases settings constraints') as H'.
  rewrite Hret in H. rewrite Hret' in H'.
  destruct H as (_ & Eb & Ef & Eh & Eg & Ebio & Et & _).
  destruct H' as (_ & Eb' & Ef' & Eh' & Eg' & Ebio' & Et' & _).
  destruct (geotech_tier_cases constraints) as (Rg & _).
  destruct (geotech_tier_cases constraints') as (Rg' & _).
  assert (Bb : 0 <= ConstraintsEngine.bushfire_severity severity
               <= ConstraintsEngine.bushfire_severity severity').
  { rewrite Eb, Eb'. split; [apply bushfire_severity_nonneg | exact Hbush]. }
  assert (Bf : 0 <= ConstraintsEngine.flood_severity severity
               <= ConstraintsEngine.flood_severity severity').
  { rewrite Ef, Ef'. destruct (flood_prone constraints).
    - rewrite (Hflood eq_refl). lia.
    - destruct (flood_prone constraints'); lia. }
  assert (Bh : 0 <= ConstraintsEngine.heritage_severity severity
               <= ConstraintsEngine.heritage_severity severity').
  { rewrite Eh, Eh'. destruct (heritage_item constraints).
    - rewrite (Hitem eq_refl). lia.
    - destruct (heritage_conservation_area constraints).
      + destruct (Harea eq_refl) as [-> | ->];
          destruct (heritage_item constraints'); lia.
      + destruct (heritage_item constraints');
          [ | destruct (heritage_conservation_area constraints') ]; lia. }
  assert (Bg : 0 <= ConstraintsEngine.geotech_severity severity
               <= ConstraintsEngine.geotech_severity severity').
  { rewrite Eg, Eg'. lia. }
  assert (Bbio : 0 <= ConstraintsEngine.biodiversity_severity severity
                 <= ConstraintsEngine.biodiversity_severity severity').
  { rewrite Ebio, Ebio'. destruct (biodiversity constraints).
    - rewrite (Hbio eq_refl). lia.
    - destruct (biodiversity constraints'); lia. }
  rewrite Et, Et'. nia.
Qed.

(** On bushfire-prone land a change from vegetation category 2 to
    category 1 raises the score from 6 to 9 under the default weights. *)
Lemma X4_total_score_monotone_witness :
  exists severity severity',
    ConstraintsEngine.compute_constraint_severity default_settings
      (Samples.bushfire_of "Vegetation Category 2")
    = Ok severity
    /\ ConstraintsEngine.compute_constraint_severity default_settings
         (Samples.bushfire_of "Vegetation Category 1")
       = Ok severity'
    /\ ConstraintsEngine.total_score severity = 6
    /\ ConstraintsEngine.total_score severity' = 9
    /\ 0 <= ConstraintsEngine.total_score severity
         <= ConstraintsEngine.total_score severity'.
Proof.
  destruct (ConstraintsEngine.compute_constraint_severity default_settings
              (Samples.bushfire_of "Vegetation Category 2"))
    as [e | severity] eqn:Hret;
    [vm_compute in Hret; discriminate Hret | ].
  destruct (ConstraintsEngine.compute_constraint_severity default_settings
              (Samples.bushfire_of "Vegetation Category 1"))
    as [e | severity'] eqn:Hret';
    [vm_compute in Hret'; discriminate Hret' | ].
  exists severity, severity'. split; [reflexivity | ]. split; [reflexivity | ].
  split; [vm_compute in Hret; injection Hret as <-; reflexivity | ].
  split; [vm_compute in Hret'; injection Hret' as <-; reflexivity | ].
  apply (X4_total_score_monotone default_settings
           (Samples.bushfire_of "Vegetation Category 2")
           (Samples.bushfire_of "Vegetation Category 1") severity severity');
    [ | | exact Hret | exact Hret'].
  - repeat split; apply Z.leb_le; reflexivity.
  - unfold Tiers.no_less_constrained.
    split; [apply Z.leb_le; reflexivity | ].
    simpl.
    repeat split; intros; try discriminate;
      first [apply Z.leb_le; reflexivity | apply Nat.leb_le; reflexivity].
Defined.

(** X5. With positive weights the total score is 0, and the rating
    "None", exactly when none of the constraints that the score counts
    applies: the land is neither bushfire prone nor flood prone, it is no
    heritage item and lies in no conservation area, its landslip risk is
    other than "Moderate", "High" and "Very High", it has no biodiversity
    flag and no other overlay.  The foreshore building line, the riparian
    buffer and the acid sulfate soil class are not scored: whatever their
    values, the severity record is the same, so a parcel with both flags
    set and nothing else scores 0 and is rated "None". *)
Theorem X5_rating_none_iff_unconstrained (settings : Settings)
    (constraints : Constraints)
    (severity : ConstraintsEngine.ConstraintSeverity) :
  Tiers.weights_positive settings ->
  ConstraintsEngine.compute_constraint_severity settings constraints
  = Ok severity ->
  (ConstraintsEngine.total_score severity = 0
   <-> Tiers.nothing_scored constraints)
  /\ (ConstraintsEngine.rating severity = "None"
      <-> Tiers.nothing_scored constraints)
  /\ (forall acid_sulfate foreshore riparian,
        ConstraintsEngine.compute_constraint_severity settings
          (Tiers.with_unscored constraints acid_sulfate foreshore riparian)
        = Ok severity).
Proof.
  intros (Wb & Wf & Wh & Wg & Wbio & Wm) Hret.
  pose proof (compute_constraint_severity_cases settings constraints) as H.
  rewrite Hret in H.
  destruct H as (Hok & Eb & Ef & Eh & Eg & Ebio & Et & Er).
  destruct (geotech_tier_cases constraints) as (Rg & _ & _ & _ & Hg0).
  pose proof (bushfire_severity_nonneg (bushfire_prone constraints)
                (get (bushfire_category constraints) (Some ""))) as Bb.
  rewrite <- Eb in Bb.
  assert (Hb0 : ConstraintsEngine.bushfire_severity severity = 0
                <-> bushfire_prone constraints = false).
  { rewrite Eb. destruct (bushfire_prone constraints);
      [ | split; reflexivity].
    split; [ | discriminate]. intros Hzero. exfalso.
    destruct (bushfire_category constraints) as [[category | ] | ];
      cbn [get] in Hzero.
    - pose proof (bushfire_tier_cases category). lia.
    - destruct Hok; congruence.
    - unfold Tiers.bushfire_tier in Hzero. simpl in Hzero. lia. }
  assert (Hzero : ConstraintsEngine.total_score severity = 0
                  <-> Tiers.nothing_scored constraints).
  { unfold Tiers.nothing_scored. rewrite <- Hb0, <- Hg0, <- Eg.
    assert (Bf : 0 <= ConstraintsEngine.flood_severity severity)
      by (rewrite Ef; destruct (flood_prone constraints); lia).
    assert (Bh : 0 <= ConstraintsEngine.heritage_severity severity)
      by (rewrite Eh; destruct (heritage_item constraints);
          [ | destruct (heritage_conservation_area constraints) ]; lia).
    assert (Bbio : 0 <= ConstraintsEngine.biodiversity_severity severity)
      by (rewrite Ebio; destruct (biodiversity constraints); lia).
    assert (Bg : 0 <= ConstraintsEngine.geotech_severity severity)
      by (rewrite Eg; lia).
    pose proof (Zle_0_nat (List.length (other_overlays constraints))) as Bm.
    split.
    - intros Htotal. rewrite Et in Htotal.
      assert (Hall : ConstraintsEngine.bushfire_severity severity = 0
                     /\ ConstraintsEngine.flood_severity severity = 0
                     /\ ConstraintsEngine.heritage_severity severity = 0
                     /\ ConstraintsEngine.geotech_severity severity = 0
                     /\ ConstraintsEngine.biodiversity_severity severity = 0
                     /\ Z.of_nat (List.length (other_overlays constraints)) = 0)
        by nia.
      destruct Hall as (Z1 & Z2 & Z3 & Z4 & Z5 & Z6).
      rewrite Ef in Z2. rewrite Eh in Z3. rewrite Ebio in Z5.
      repeat split; try assumption.
      + destruct (flood_prone constraints); [lia | reflexivity].
      + destruct (heritage_item constraints); [lia | reflexivity].
      + destruct (heritage_item constraints); [lia | ].
        destruct (heritage_conservation_area constraints);
          [lia | reflexivity].
      + destruct (biodiversity constraints); [lia | reflexivity].
      + destruct (other_overlays constraints); [reflexivity | ].
        simpl in Z6. lia.
    - intros (Z1 & Hf & Hi & Ha & Z4 & Hbi & Ho).
      rewrite Et, Ef, Eh, Ebio, Hf, Hi, Ha, Hbi, Ho, Z1, Z4. simpl. lia. }
  split; [exact Hzero | ].
  split; [ | intros acid_sulfate foreshore riparian; rewrite <- Hret;
             reflexivity ].
  rewrite <- Hzero, Er. unfold ConstraintsEngine.overall_rating.
  destruct (Z.eqb_spec (ConstraintsEngine.total_score severity) 0) as [-> | Hne].
  - split; reflexivity.
  - split; [ | contradiction].
    destruct (_ <=? 3); [discriminate | ].
    destruct (_ <=? 7); [discriminate | ].
    destruct (_ <=? 12); discriminate.
Qed.

(** Under the default weights the unconstrained parcel is rated "None",
    and so is the same parcel behind a foreshore building line and within
    a riparian buffer. *)
Lemma X5_rating_none_iff_unconstrained_witness :
  exists severity,
    ConstraintsEngine.compute_constraint_severity default_settings
      Examples.unconstrained
    = Ok severity
    /\ ConstraintsEngine.rating severity = "None"
    /\ ConstraintsEngine.compute_constraint_severity default_settings
         (Tiers.with_unscored Examples.unconstrained "None" true true)
       = Ok severity.
Proof.
  destruct (ConstraintsEngine.compute_constraint_severity default_settings
              Examples.unconstrained) as [e | severity] eqn:Hret;
    [vm_compute in Hret; discriminate Hret | ].
  exists severity. split; [reflexivity | ].
  destruct (X5_rating_none_iff_unconstrained default_settings
              Examples.unconstrained severity) as (_ & Hrating & Hunscored).
  - repeat split.
  - exact Hret.
  - split; [ | apply Hunscored].
    apply Hrating.
    unfold Tiers.nothing_scored. simpl. repeat split.
    intros [H | [H | [H | H]]]; first [discriminate H | exact H].
Defined.

(** * Further properties: recommended studies (constraints_engine.py) *)

(** Case analysis on every flag that the engines read from a constraint
    set; the landslip risk is analysed through its three comparisons. *)
Ltac constraint_cases constraints :=
  destruct constraints as [bushfire category flood notes acid item area
                             foreshore riparian biodiversity geotech overlays];
  cbn [Data.bushfire_prone Data.flood_prone Data.heritage_item
       Data.heritage_conservation_area Data.foreshore_building_line
       Data.riparian_buffer Data.biodiversity Data.geotech_landslip_risk
       Data.other_overlays Data.bushfire_category] in *.

Lemma in_list_cons (x y : string) (l : list string) :
  in_list x (y :: l) = String.eqb x y || in_list x l.
Proof. reflexivity. Qed.

(** A list that first-seen deduplication leaves unchanged has no
    duplicate. *)
Ltac nodup_by_computation :=
  match goal with
  | |- NoDup ?l =>
      replace l with (Spec.first_seen l) by (vm_compute; reflexivity);
      apply first_seen_NoDup
  end.

(** The studies come in one block per category. *)
Lemma recommend_required_studies_blocks (constraints : Constraints) :
  ConstraintsEngine.recommend_required_studies constraints
  = (if bushfire_prone constraints
     then ["Bushfire Assessment Report"; "BAL Certificate"] else [])
    ++ (if flood_prone constraints
        then ["Flood Study"; "Flood Impact Assessment"] else [])
    ++ (if in_list (get (geotech_landslip_risk constraints) "Low")
             ["High"; "Very High"; "Moderate"]
        then "Geotechnical Report"
             :: (if in_list (get (geotech_landslip_risk constraints) "Low")
             ["High"; "Very High"]
                 then ["Slope Stability Assessment"] else [])
        else [])
    ++ (if biodiversity constraints
        then ["Biodiversity Assessment"; "Flora and Fauna Report"] else [])
    ++ (if foreshore_building_line constraints
        then ["Coastal Hazard Assessment"; "Foreshore Setback Report"]
        else [])
    ++ (if heritage_item constraints || heritage_conservation_area constraints
        then ["Heritage Impact Statement"] else []).
Proof.
  unfold ConstraintsEngine.recommend_required_studies. cbn zeta.
  destruct (bushfire_prone constraints), (flood_prone constraints),
    (in_list (get (geotech_landslip_risk constraints) "Low")
             ["High"; "Very High"; "Moderate"]),
    (in_list (get (geotech_landslip_risk constraints) "Low")
             ["High"; "Very High"]),
    (biodiversity constraints), (foreshore_building_line constraints),
    (heritage_item constraints || heritage_conservation_area constraints);
    reflexivity.
Qed.

Lemma recommend_required_studies_NoDup (constraints : Constraints) :
  NoDup (ConstraintsEngine.recommend_required_studies constraints)
  /\ (List.length (ConstraintsEngine.recommend_required_studies constraints)
      <= 11)%nat.
Proof.
  rewrite recommend_required_studies_blocks.
  destruct (bushfire_prone constraints), (flood_prone constraints),
    (in_list (get (geotech_landslip_risk constraints) "Low")
             ["High"; "Very High"; "Moderate"]),
    (in_list (get (geotech_landslip_risk constraints) "Low")
             ["High"; "Very High"]),
    (biodiversity constraints), (foreshore_building_line constraints),
    (heritage_item constraints || heritage_conservation_area constraints);
    (split; [nodup_by_computation | apply Nat.leb_le; reflexivity]).
Qed.

Lemma in_list_if (x : string) (b : bool) (l : list string) :
  in_list x (if b then l else []) = b && in_list x l.
Proof. now destruct b. Qed.

Lemma in_list_cons_if (x y : string) (b : bool) (l : list string) :
  in_list x (y :: (if b then l else [])) = String.eqb x y || b && in_list x l.
Proof. now destruct b. Qed.

(** Membership of a study, by the category that recommends it. *)
Ltac study_membership :=
  rewrite recommend_required_studies_blocks, !in_list_app, !in_list_if,
    in_list_cons_if;
  cbn [in_list existsb String.eqb Ascii.eqb Bool.eqb];
  rewrite ?andb_false_r, ?andb_true_r, ?orb_false_r, ?orb_false_l;
  reflexivity.

Lemma recommend_required_studies_membership (constraints : Constraints) :
  let risk := get (geotech_landslip_risk constraints) "Low" in
  let studies := ConstraintsEngine.recommend_required_studies constraints in
  in_list "Bushfire Assessment Report" studies = bushfire_prone constraints
  /\ in_list "BAL Certificate" studies = bushfire_prone constraints
  /\ in_list "Flood Study" studies = flood_prone constraints
  /\ in_list "Flood Impact Assessment" studies = flood_prone constraints
  /\ in_list "Geotechnical Report" studies
     = in_list risk ["High"; "Very High"; "Moderate"]
  /\ in_list "Slope Stability Assessment" studies
     = in_list risk ["High"; "Very High"; "Moderate"]
       && in_list risk ["High"; "Very High"]
  /\ in_list "Biodiversity Assessment" studies = biodiversity constraints
  /\ in_list "Flora and Fauna Report" studies = biodiversity constraints
  /\ in_list "Coastal Hazard Assessment" studies
     = foreshore_building_line constraints
  /\ in_list "Foreshore Setback Report" studies
     = foreshore_building_line constraints
  /\ in_list "Heritage Impact Statement" studies
     = heritage_item constraints || heritage_conservation_area constraints.
Proof.
  intros risk studies. subst studies risk.
  repeat split; study_membership.
Qed.

(** X6. The list of recommended studies has no duplicate and at most
    eleven entries, and it is empty exactly when no category asks for a
    study: no bushfire, flood, biodiversity, foreshore or heritage flag and
    a landslip risk other than "Moderate", "High" and "Very High". *)
Theorem X6_studies_distinct (constraints : Constraints) :
  let studies := ConstraintsEngine.recommend_required_studies constraints in
  NoDup studies
  /\ (List.length studies <= 11)%nat
  /\ (studies = []
      <-> bushfire_prone constraints = false
          /\ flood_prone constraints = false
          /\ ~ In (get (geotech_landslip_risk constraints) "Low")
                  ["High"; "Very High"; "Moderate"]
          /\ biodiversity constraints = false
          /\ foreshore_building_line constraints = false
          /\ heritage_item constraints = false
          /\ heritage_conservation_area constraints = false).
Proof.
  intros studies. subst studies.
  destruct (recommend_required_studies_NoDup constraints) as [Hnodup Hlength].
  split; [exact Hnodup | ]. split; [exact Hlength | ].
  rewrite <- in_list_not_In, recommend_required_studies_blocks.
  destruct (bushfire_prone constraints), (flood_prone constraints),
    (in_list (get (geotech_landslip_risk constraints) "Low")
             ["High"; "Very High"; "Moderate"]),
    (in_list (get (geotech_landslip_risk constraints) "Low")
             ["High"; "Very High"]),
    (biodiversity constraints), (foreshore_building_line constraints),
    (heritage_item constraints), (heritage_conservation_area constraints);
    cbn [orb app]; (split; [intros H | intros (? & ? & ? & ? & ? & ? & ?)]);
    first [discriminate | tauto | reflexivity].
Qed.

(** * Further properties: full-application pathway (da_guidance.py) *)

(** Whether each issue is exposed, by the conditions that raise it and the
    number of issues raised before it. *)
Lemma da_key_issues_membership (parcel_data : ParcelData)
    (geometry_data : GeometryData) (constraints : Constraints)
    (slope_data : SlopeData) (recommended_studies : list string) :
  let key_issues :=
    DaGuidance.key_issues
      (DaGuidance.evaluate_da_potential parcel_data geometry_data constraints
         slope_data recommended_studies) in
  let bushfire := bushfire_prone constraints in
  let flood := flood_prone constraints in
  let heritage :=
    heritage_item constraints || heritage_conservation_area constraints in
  let steep := Qltb 15 (get (mean_gradient_percent slope_data) 0%Q) in
  let unstable :=
    in_list (get (geotech_landslip_risk constraints) "Low")
            ["High"; "Very High"] in
  let irregular := Qltb (get (regularity_index geometry_data) 1.0%Q) 0.75 in
  let corner := is_corner_lot geometry_data in
  let raised :=
    Tiers.count_true [bushfire; flood; heritage; steep; unstable; irregular] in
  in_list "Bushfire vegetation setback" key_issues = bushfire
  /\ in_list "Flood planning and stormwater management" key_issues = flood
  /\ in_list "Heritage significance - strict controls apply" key_issues
     = heritage_item constraints
  /\ in_list "Heritage conservation area - streetscape compatibility"
       key_issues
     = negb (heritage_item constraints)
       && heritage_conservation_area constraints
  /\ in_list "Slope and stormwater" key_issues = steep
  /\ in_list "Geotechnical stability" key_issues = unstable
  /\ in_list "Irregular lot shape - design challenges" key_issues
     = irregular && (raised <=? 5)%nat
  /\ in_list "Streetscape bulk & scale" key_issues = (raised <=? 4)%nat
  /\ in_list "Corner lot - secondary street setbacks" key_issues
     = corner && (raised <=? 3)%nat
  /\ List.length key_issues
     = Nat.min 5 (raised + 1 + (if corner then 1 else 0)).
Proof.
  cbv zeta. rewrite evaluate_da_potential_key_issues.
  constraint_cases constraints.
  destruct geometry_data as [orientation frontage regularity corner].
  destruct slope_data as [mean_gradient max_gradient fall to_street].
  unfold Spec.da_issues_raised, Spec.da_issue_order.
  cbn [filter map Spec.da_raises Data.is_corner_lot Data.regularity_index
       Data.mean_gradient_percent Data.bushfire_prone Data.flood_prone
       Data.heritage_item Data.heritage_conservation_area
       Data.geotech_landslip_risk].
  destruct bushfire, flood, item, area,
    (Qltb 15 (get mean_gradient 0%Q)),
    (in_list (get geotech "Low") ["High"; "Very High"]),
    (Qltb (get regularity 1.0%Q) 0.75), corner;
    vm_compute; repeat split.
Qed.

Lemma in_list_high_moderate (risk : string) :
  in_list risk ["High"; "Very High"] = true ->
  in_list risk ["High"; "Very High"; "Moderate"] = true.
Proof. rewrite !in_list_In. simpl. tauto. Qed.

(** X7. The hazard issues that the full-application assessment exposes
    and the studies recommended for the same constraints go together: the
    bushfire, flood and heritage issues are exposed exactly when the
    bushfire, flood and heritage studies are recommended, and the
    geotechnical issue exactly when the slope stability assessment is, which
    in turn comes only with the geotechnical report; the assessment returns
    the studies it was given. *)
Theorem X7_studies_back_exposed_issues (parcel_data : ParcelData)
    (geometry_data : GeometryData) (constraints : Constraints)
    (slope_data : SlopeData) :
  let studies := ConstraintsEngine.recommend_required_studies constraints in
  let da_potential :=
    DaGuidance.evaluate_da_potential parcel_data geometry_data constraints
      slope_data studies in
  let key_issues := DaGuidance.key_issues da_potential in
  DaGuidance.recommended_studies da_potential = studies
  /\ (In "Slope Stability Assessment" studies ->
      In "Geotechnical Report" studies)
  /\ (In "Geotechnical stability" key_issues
      <-> In "Slope Stability Assessment" studies)
  /\ (In "Bushfire vegetation setback" key_issues
      <-> In "Bushfire Assessment Report" studies)
  /\ (In "Flood planning and stormwater management" key_issues
      <-> In "Flood Study" studies)
  /\ (In "Heritage significance - strict controls apply" key_issues
      \/ In "Heritage conservation area - streetscape compatibility"
            key_issues
      <-> In "Heritage Impact Statement" studies).
Proof.
  intros studies da_potential key_issues.
  destruct (recommend_required_studies_membership constraints)
    as (Sb & _ & Sf & _ & Sg & Ss & _ & _ & _ & _ & Sh).
  destruct (da_key_issues_membership parcel_data geometry_data constraints
              slope_data studies)
    as (Kb & Kf & Ki & Ka & _ & Kg & _).
  fold studies in Sb, Sf, Sg, Ss, Sh.
  fold da_potential key_issues in Kb, Kf, Ki, Ka, Kg.
  split; [reflexivity | ].
  rewrite <- !in_list_In, Sb, Sf, Sg, Ss, Sh, Kb, Kf, Ki, Ka, Kg.
  destruct (in_list (get (geotech_landslip_risk constraints) "Low")
                    ["High"; "Very High"]) eqn:Hhigh.
  - rewrite (in_list_high_moderate _ Hhigh).
    destruct (heritage_item constraints),
      (heritage_conservation_area constraints); simpl; tauto.
  - rewrite andb_false_r.
    destruct (heritage_item constraints),
      (heritage_conservation_area constraints); simpl;
      repeat split; intros; try tauto; try discriminate;
      intuition discriminate.
Qed.

(** X8. The exposed key-issue list is never empty and its length is the
    number of issues raised, cut at five.  The issue "Streetscape bulk &
    scale", which is always raised, is exposed only when at most four of the
    six conditions before it hold (bushfire, flood, heritage, steep slope,
    unstable ground, irregular shape); the corner-lot issue only when at
    most three do; the irregular-shape issue is hidden when all five
    conditions before it hold. *)
Theorem X8_key_issues_cap (parcel_data : ParcelData)
    (geometry_data : GeometryData) (constraints : Constraints)
    (slope_data : SlopeData) (recommended_studies : list string) :
  let key_issues :=
    DaGuidance.key_issues
      (DaGuidance.evaluate_da_potential parcel_data geometry_data constraints
         slope_data recommended_studies) in
  let irregular := Qltb (get (regularity_index geometry_data) 1.0%Q) 0.75 in
  let raised :=
    Tiers.count_true
      [bushfire_prone constraints;
       flood_prone constraints;
       heritage_item constraints || heritage_conservation_area constraints;
       Qltb 15 (get (mean_gradient_percent slope_data) 0%Q);
       in_list (get (geotech_landslip_risk constraints) "Low")
               ["High"; "Very High"];
       irregular] in
  key_issues <> []
  /\ List.length key_issues
     = Nat.min 5 (raised + 1 + (if is_corner_lot geometry_data then 1 else 0))
  /\ (In "Streetscape bulk & scale" key_issues <-> (raised <= 4)%nat)
  /\ (In "Corner lot - secondary street setbacks" key_issues
      <-> is_corner_lot geometry_data = true /\ (raised <= 3)%nat)
  /\ (In "Irregular lot shape - design challenges" key_issues
      <-> irregular = true /\ (raised <= 5)%nat).
Proof.
  intros key_issues irregular raised.
  destruct (da_key_issues_membership parcel_data geometry_data constraints
              slope_data recommended_studies)
    as (_ & _ & _ & _ & _ & _ & Ki & Kb & Kc & Kl).
  fold key_issues irregular raised in Ki, Kb, Kc, Kl.
  split.
  { intros Hnil. rewrite Hnil in Kl. cbn [List.length] in Kl.
    clearbody raised. lia. }
  split; [exact Kl | ].
  rewrite <- !in_list_In, Ki, Kb, Kc, !andb_true_iff, !Nat.leb_le.
  tauto.
Qed.

(** * Further properties: fast-track pathway (cdc_low_rise.py) *)

Lemma length_map_filter_zero {A B : Type} (f : A -> B) (p : A -> bool)
    (l : list A) :
  Nat.eqb (List.length (map f (filter p l))) 0 = negb (existsb p l).
Proof.
  induction l as [ | a l IH]; simpl; [reflexivity | ].
  destruct (p a); simpl; [reflexivity | exact IH].
Qed.

Lemma cdc_compliant_blocks (settings : Settings) (parcel_data : ParcelData)
    (geometry_data : GeometryData) (constraints : Constraints)
    (slope_data : SlopeData) :
  CdcLowRise.is_potentially_cdc_compliant
    (CdcLowRise.evaluate_cdc_potential settings parcel_data geometry_data
       constraints slope_data)
  = negb (existsb
            (Spec.cdc_blocks settings parcel_data geometry_data constraints
               slope_data)
            Spec.cdc_check_order).
Proof.
  rewrite evaluate_cdc_potential_compliant, evaluate_cdc_potential_blocking.
  apply length_map_filter_zero.
Qed.

Lemma cdc_compliant_rules (settings : Settings) (parcel_data : ParcelData)
    (geometry_data : GeometryData) (constraints : Constraints)
    (slope_data : SlopeData) :
  CdcLowRise.is_potentially_cdc_compliant
    (CdcLowRise.evaluate_cdc_potential settings parcel_data geometry_data
       constraints slope_data)
  = true
  <-> bushfire_prone constraints = false
      /\ flood_prone constraints = false
      /\ heritage_item constraints = false
      /\ heritage_conservation_area constraints = false
      /\ foreshore_building_line constraints = false
      /\ riparian_buffer constraints = false
      /\ (MIN_LOT_AREA_DUAL_OCC_SQM settings
          <= get (area_sqm parcel_data) 0)%Q
      /\ (MIN_FRONTAGE_DUAL_OCC_M settings
          <= get (frontage_m geometry_data) 0)%Q
      /\ (get (mean_gradient_percent slope_data) 0
          <= CDC_MAX_SLOPE_PERCENT settings)%Q.
Proof.
  rewrite cdc_compliant_blocks.
  unfold Spec.cdc_check_order. cbn [existsb Spec.cdc_blocks].
  rewrite negb_true_iff, !orb_false_iff, !Qltb_ge. tauto.
Qed.

(** X9. The fast-track assessment is eligible exactly when every rule is
    met: none of the six hazard flags (bushfire, flood, heritage item,
    heritage conservation area, foreshore building line, riparian buffer),
    an area and a frontage of at least the configured minimums (an absent
    entry counts as 0) and a mean gradient of at most the configured
    ceiling; the pathway label is "CDC Possible" then and "DA Only"
    otherwise. *)
Theorem X9_cdc_eligible_iff_all_rules_met (settings : Settings)
    (parcel_data : ParcelData) (geometry_data : GeometryData)
    (constraints : Constraints) (slope_data : SlopeData) :
  let cdc_potential :=
    CdcLowRise.evaluate_cdc_potential settings parcel_data geometry_data
      constraints slope_data in
  (CdcLowRise.is_potentially_cdc_compliant cdc_potential = true
   <-> bushfire_prone constraints = false
       /\ flood_prone constraints = false
       /\ heritage_item constraints = false
       /\ heritage_conservation_area constraints = false
       /\ foreshore_building_line constraints = false
       /\ riparian_buffer constraints = false
       /\ (MIN_LOT_AREA_DUAL_OCC_SQM settings
           <= get (area_sqm parcel_data) 0)%Q
       /\ (MIN_FRONTAGE_DUAL_OCC_M settings
           <= get (frontage_m geometry_data) 0)%Q
       /\ (get (mean_gradient_percent slope_data) 0
           <= CDC_MAX_SLOPE_PERCENT settings)%Q)
  /\ (CdcLowRise.likely_pathway cdc_potential = "CDC Possible"
      <-> CdcLowRise.is_potentially_cdc_compliant cdc_potential = true)
  /\ (CdcLowRise.likely_pathway cdc_potential = "DA Only"
      <-> CdcLowRise.is_potentially_cdc_compliant cdc_potential = false).
Proof.
  intros cdc_potential.
  assert (Hlabel : CdcLowRise.likely_pathway cdc_potential
                   = if CdcLowRise.is_potentially_cdc_compliant cdc_potential
                     then "CDC Possible" else "DA Only") by reflexivity.
  split.
  - apply cdc_compliant_rules.
  - rewrite Hlabel.
    destruct (CdcLowRise.is_potentially_cdc_compliant cdc_potential);
      repeat split; intros; try reflexivity; discriminate.
Qed.

(** X10. The fast-track assessment reads six hazard flags of the
    constraint set and nothing else: two constraint sets that agree on them
    get the same assessment, whatever their landslip risk, biodiversity
    flag, bushfire category and other overlays. *)
Theorem X10_cdc_reads_six_flags (settings : Settings)
    (parcel_data : ParcelData) (geometry_data : GeometryData)
    (constraints constraints' : Constraints) (slope_data : SlopeData) :
  bushfire_prone constraints' = bushfire_prone constraints ->
  flood_prone constraints' = flood_prone constraints ->
  heritage_item constraints' = heritage_item constraints ->
  heritage_conservation_area constraints'
  = heritage_conservation_area constraints ->
  foreshore_building_line constraints' = foreshore_building_line constraints ->
  riparian_buffer constraints' = riparian_buffer constraints ->
  CdcLowRise.evaluate_cdc_potential settings parcel_data geometry_data
    constraints' slope_data
  = CdcLowRise.evaluate_cdc_potential settings parcel_data geometry_data
      constraints slope_data.
Proof.
  intros Hb Hf Hi Ha Hs Hr. unfold CdcLowRise.evaluate_cdc_potential.
  rewrite Hb, Hf, Hi, Ha, Hs, Hr. reflexivity.
Qed.

(** A parcel with very high landslip risk, protected vegetation and a
    scenic overlay is assessed like the unconstrained parcel: fast-track
    eligible. *)
Lemma X10_cdc_reads_six_flags_witness :
  CdcLowRise.evaluate_cdc_potential default_settings (Examples.lot 607)
    (Examples.regular_geometry 15) Samples.very_high_landslip
    (Examples.slope 6.5)
  = CdcLowRise.evaluate_cdc_potential default_settings (Examples.lot 607)
      (Examples.regular_geometry 15) Examples.unconstrained
      (Examples.slope 6.5)
  /\ CdcLowRise.is_potentially_cdc_compliant
       (CdcLowRise.evaluate_cdc_potential default_settings (Examples.lot 607)
          (Examples.regular_geometry 15) Examples.unconstrained
          (Examples.slope 6.5))
     = true.
Proof.
  split; [ | reflexivity].
  apply (X10_cdc_reads_six_flags default_settings (Examples.lot 607)
           (Examples.regular_geometry 15) Examples.unconstrained
           Samples.very_high_landslip (Examples.slope 6.5));
    reflexivity.
Defined.

Lemma cdc_entry_injective (parcel_data : ParcelData)
    (geometry_data : GeometryData) (slope_data : SlopeData)
    (check check' : Spec.CdcCheck) :
  Spec.cdc_entry parcel_data geometry_data slope_data check
  = Spec.cdc_entry parcel_data geometry_data slope_data check' ->
  check = check'.
Proof.
  destruct check, check'; intros H; try reflexivity;
    cbn [Spec.cdc_entry String.append] in H; discriminate H.
Qed.

Lemma NoDup_map_injective {A B : Type} (f : A -> B) (l : list A) :
  (forall x y, f x = f y -> x = y) -> NoDup l -> NoDup (map f l).
Proof.
  intros Hinj. induction 1 as [ | a l Ha _ IH]; simpl; constructor.
  - rewrite in_map_iff. intros (b & Heq & Hb).
    apply Hinj in Heq. now subst.
  - exact IH.
Qed.

(** X11. The blocking list of the fast-track assessment has no duplicate
    entry and at most nine entries, one per blocking check. *)
Theorem X11_blocking_list_distinct (settings : Settings)
    (parcel_data : ParcelData) (geometry_data : GeometryData)
    (constraints : Constraints) (slope_data : SlopeData) :
  let blocking :=
    CdcLowRise.blocking_constraints
      (CdcLowRise.evaluate_cdc_potential settings parcel_data geometry_data
         constraints slope_data) in
  NoDup blocking
  /\ (List.length blocking <= 9)%nat
  /\ List.length blocking
     = Tiers.count_true
         (map (Spec.cdc_blocks settings parcel_data geometry_data constraints
                 slope_data)
            Spec.cdc_check_order).
Proof.
  intros blocking. subst blocking.
  rewrite evaluate_cdc_potential_blocking. unfold Spec.cdc_blocking_list.
  split; [ | split].
  - apply NoDup_map_injective.
    + intros check check'. apply cdc_entry_injective.
    + apply NoDup_filter. unfold Spec.cdc_check_order.
      repeat (constructor;
              [ simpl; intros H;
                repeat (destruct H as [H | H]; [discriminate H | ]); exact H
              | ]).
      constructor.
  - rewrite length_map.
    apply (Nat.le_trans _ _ _ (filter_length_le _ _)). reflexivity.
  - rewrite length_map. unfold Tiers.count_true.
    induction Spec.cdc_check_order as [ | check order IH]; simpl;
      [reflexivity | ].
    destruct (Spec.cdc_blocks _ _ _ _ _ check); simpl; now rewrite IH.
Qed.

(** * Further properties: how the assessments compose *)

(** X12. A parcel that is fast-track eligible in zone R1, R2 or R3 gets
    dual occupancy as its primary typology, with two dwellings: the area and
    frontage rules of the fast-track assessment are the dual-occupancy
    minimums of the typology gates and of the yield estimator, and an
    eligible parcel carries no heritage item. *)
Theorem X12_eligible_parcel_yields_dual_occupancy (settings : Settings)
    (zone_code : string) (parcel_data : ParcelData)
    (geometry_data : GeometryData) (envelope_data : Envelope)
    (constraints : Constraints) (slope_data : SlopeData) :
  In zone_code ["R1"; "R2"; "R3"] ->
  CdcLowRise.is_potentially_cdc_compliant
    (CdcLowRise.evaluate_cdc_potential settings parcel_data geometry_data
       constraints slope_data)
  = true ->
  let typologies :=
    LepRules.determine_allowed_typologies settings zone_code
      (get (area_sqm parcel_data) 600%Q) geometry_data in
  dual_occupancy typologies = true
  /\ exists yield_data,
       YieldEngine.compute_yield settings parcel_data geometry_data
         envelope_data typologies constraints
       = Ok yield_data
       /\ YieldEngine.dual_occ_feasible yield_data = true
       /\ YieldEngine.primary_typology yield_data = "Dual Occupancy"
       /\ YieldEngine.indicative_dwellings_count yield_data = 2.
Proof.
  intros Hzone Heligible typologies.
  apply cdc_compliant_rules in Heligible.
  destruct Heligible as (_ & _ & Hitem & _ & _ & _ & Harea & Hfrontage & _).
  apply in_list_In in Hzone.
  assert (Harea' : Qgeb (get (area_sqm parcel_data) 600%Q)
                     (MIN_LOT_AREA_DUAL_OCC_SQM settings) = true).
  { apply Qgeb_ge. destruct (area_sqm parcel_data) as [a | ]; cbn [get] in *;
      [exact Harea | ].
    eapply Qle_trans; [exact Harea | discriminate]. }
  assert (Hfrontage' : Qgeb (get (frontage_m geometry_data) 15%Q)
                         (MIN_FRONTAGE_DUAL_OCC_M settings) = true).
  { apply Qgeb_ge. destruct (frontage_m geometry_data) as [f | ];
      cbn [get] in *; [exact Hfrontage | ].
    eapply Qle_trans; [exact Hfrontage | discriminate]. }
  apply Qgeb_ge in Hfrontage.
  assert (Hdual : dual_occupancy typologies = true).
  { subst typologies. unfold LepRules.determine_allowed_typologies.
    cbn zeta. cbn [dual_occupancy]. now rewrite Hzone, Harea', Hfrontage. }
  split; [exact Hdual | ].
  unfold YieldEngine.compute_yield. cbn zeta.
  rewrite Hdual, Hitem, Harea', Hfrontage'. cbn [negb andb Py.bind Ok].
  eexists. split; [reflexivity | ]. repeat split.
Qed.

(** The 607 sqm lot with 15 m frontage in zone R1, unconstrained and on a
    gentle slope. *)
Lemma X12_eligible_parcel_yields_dual_occupancy_witness :
  exists yield_data,
    YieldEngine.compute_yield default_settings (Examples.lot 607)
      (Examples.regular_geometry 15) (Examples.envelope_of 0.6 607)
      (LepRules.determine_allowed_typologies default_settings "R1"
         (get (area_sqm (Examples.lot 607)) 600%Q)
         (Examples.regular_geometry 15))
      Examples.unconstrained
    = Ok yield_data
    /\ YieldEngine.primary_typology yield_data = "Dual Occupancy".
Proof.
  destruct (X12_eligible_parcel_yields_dual_occupancy default_settings "R1"
              (Examples.lot 607) (Examples.regular_geometry 15)
              (Examples.envelope_of 0.6 607) Examples.unconstrained
              (Examples.slope 6.5))
    as (_ & yield_data & Hreturns & _ & Hprimary & _).
  - simpl. left. reflexivity.
  - reflexivity.
  - exists yield_data. split; [exact Hreturns | exact Hprimary].
Defined.

(** * Further properties: yield estimator (yield_engine.py) *)

(** [compute_yield] raises what the estimate of the number of units
    raises, where it takes the estimate. *)
Lemma compute_yield_raises_estimate (settings : Settings)
    (parcel_data : ParcelData) (geometry_data : GeometryData)
    (envelope_data : Envelope) (typologies : Typologies)
    (constraints : Constraints) (e : exn) :
  let parcel_area := get (area_sqm parcel_data) 600%Q in
  let frontage := get (frontage_m geometry_data) 15%Q in
  let fsr := get (fsr_control envelope_data) 0.6%Q in
  let height := get (max_height_m envelope_data) 8.5%Q in
  let clear := negb (heritage_item constraints) in
  let dual :=
    dual_occupancy typologies && clear
    && Qgeb parcel_area (MIN_LOT_AREA_DUAL_OCC_SQM settings)
    && Qgeb frontage (MIN_FRONTAGE_DUAL_OCC_M settings) in
  let terrace :=
    terrace_row typologies && Qgeb fsr (MIN_FSR_TERRACE settings) && clear in
  let manor :=
    manor_house typologies && Qle_bool height 8.5
    && Qgeb parcel_area 600 && clear in
  let multi :=
    multi_dwelling typologies
    && Qgeb fsr (MIN_FSR_MULTI_DWELLING settings) && clear in
  YieldEngine.compute_yield settings parcel_data geometry_data envelope_data
    typologies constraints
  = Raise e
  <-> (dual = false /\ manor = false /\ (multi = true \/ terrace = true))
      /\ Spec.estimated_units (get (max_gfa_sqm envelope_data) 0%Q)
           (AVERAGE_UNIT_SIZE_TOWNHOUSE_SQM settings)
         = Raise e.
Proof.
  intros parcel_area frontage fsr height clear dual terrace manor multi.
  rewrite compute_yield_cases. cbv zeta.
  fold parcel_area frontage fsr height clear.
  fold dual. fold terrace. fold manor. fold multi.
  destruct (Spec.estimated_units (get (max_gfa_sqm envelope_data) 0%Q)
              (AVERAGE_UNIT_SIZE_TOWNHOUSE_SQM settings))
    as [e' | estimated_units];
    cbn [Py.bind];
    destruct dual, manor, multi, terrace;
    (split;
     [ intros Hraise; cbv [Raise Ok] in Hraise |- *;
       first [ discriminate Hraise
             | split; [ | injection Hraise as ->; reflexivity];
               split; [reflexivity | ]; split; [reflexivity | ];
               first [left; reflexivity | right; reflexivity] ]
     | intros [(? & ? & [? | ?]) Hraise]; cbv [Raise Ok] in Hraise |- *;
       first [discriminate | injection Hraise as ->; reflexivity] ]).
Qed.

(** What the estimate of the number of units raises, for a unit size that
    is a double. *)
Lemma estimated_units_raise_cases (max_gfa avg_unit_size : Q) :
  is_binary64 avg_unit_size = true ->
  (Spec.estimated_units max_gfa avg_unit_size = Raise ZeroDivisionError
   <-> (exists a, float_of max_gfa = Ok a) /\ (avg_unit_size == 0)%Q)
  /\ (Spec.estimated_units max_gfa avg_unit_size = Raise OverflowError
      <-> float_of max_gfa = Raise OverflowError
          \/ exists a,
               float_of max_gfa = Ok a
               /\ ~ (avg_unit_size == 0)%Q
               /\ binary64 (a / avg_unit_size) = Infinite).
Proof.
  intros Hunit. rewrite (estimated_units_cases _ _ Hunit).
  unfold float_of.
  destruct (binary64 max_gfa) as [a | ]; cbn [Py.bind Ok].
  - destruct (Qeq_bool avg_unit_size 0) eqn:Hzero.
    + apply Qeq_bool_iff in Hzero. split; split.
      * intros _. split; [now exists a | exact Hzero].
      * reflexivity.
      * intros H. discriminate H.
      * intros [H | (a' & Ha & Hne & _)];
          [discriminate H | contradiction].
    + assert (Hne : ~ (avg_unit_size == 0)%Q).
      { intros H. apply Qeq_bool_iff in H. congruence. }
      unfold floor.
      destruct (binary64 (a / avg_unit_size)) as [v | ] eqn:Hquotient;
        split; split.
      * intros H. discriminate H.
      * intros [_ H]. contradiction.
      * intros H. discriminate H.
      * intros [H | (a' & Ha & _ & Hinf)]; [discriminate H | ].
        injection Ha as <-. rewrite Hquotient in Hinf. discriminate Hinf.
      * intros H. discriminate H.
      * intros [_ H]. contradiction.
      * intros _. right. exists a.
        split; [reflexivity | ]. split; [exact Hne | exact Hquotient].
      * reflexivity.
  - split; split.
    + intros H. discriminate H.
    + intros [[a Ha] _]. discriminate Ha.
    + intros _. now left.
    + reflexivity.
Qed.

(** X13. The yield estimator raises only where the count has to be
    computed from the floor area, that is when neither dual occupancy nor
    manor house is feasible and multi-dwelling or terrace row is, and only
    the two errors of [math.floor(max_gfa / avg_unit_size)].  With an average
    unit size that is a float, it raises a [ZeroDivisionError] exactly when
    the floor area converts to a float and the unit size is zero, and an
    [OverflowError] exactly when the floor area is an integer too large for
    a float or when, with a unit size other than zero, the rounded quotient
    is infinite: so it can raise with a unit size other than zero. *)
Theorem X13_compute_yield_raises (settings : Settings)
    (parcel_data : ParcelData) (geometry_data : GeometryData)
    (envelope_data : Envelope) (typologies : Typologies)
    (constraints : Constraints) :
  let parcel_area := get (area_sqm parcel_data) 600%Q in
  let frontage := get (frontage_m geometry_data) 15%Q in
  let fsr := get (fsr_control envelope_data) 0.6%Q in
  let height := get (max_height_m envelope_data) 8.5%Q in
  let max_gfa := get (max_gfa_sqm envelope_data) 0%Q in
  let unit_size := AVERAGE_UNIT_SIZE_TOWNHOUSE_SQM settings in
  let clear := negb (heritage_item constraints) in
  let dual :=
    dual_occupancy typologies && clear
    && Qgeb parcel_area (MIN_LOT_AREA_DUAL_OCC_SQM settings)
    && Qgeb frontage (MIN_FRONTAGE_DUAL_OCC_M settings) in
  let terrace :=
    terrace_row typologies && Qgeb fsr (MIN_FSR_TERRACE settings) && clear in
  let manor :=
    manor_house typologies && Qle_bool height 8.5
    && Qgeb parcel_area 600 && clear in
  let multi :=
    multi_dwelling typologies
    && Qgeb fsr (MIN_FSR_MULTI_DWELLING settings) && clear in
  let by_floor_area :=
    dual = false /\ manor = false /\ (multi = true \/ terrace = true) in
  let outcome :=
    YieldEngine.compute_yield settings parcel_data geometry_data
      envelope_data typologies constraints in
  is_binary64 unit_size = true ->
  (outcome = Raise ZeroDivisionError
   <-> by_floor_area
       /\ (exists a, float_of max_gfa = Ok a)
       /\ (unit_size == 0)%Q)
  /\ (outcome = Raise OverflowError
      <-> by_floor_area
          /\ (float_of max_gfa = Raise OverflowError
              \/ exists a,
                   float_of max_gfa = Ok a
                   /\ ~ (unit_size == 0)%Q
                   /\ binary64 (a / unit_size) = Infinite))
  /\ (forall e,
        outcome = Raise e ->
        by_floor_area /\ (e = ZeroDivisionError \/ e = OverflowError)).
Proof.
  intros parcel_area frontage fsr height max_gfa unit_size clear dual terrace
         manor multi by_floor_area outcome Hunit.
  destruct (estimated_units_raise_cases max_gfa unit_size Hunit)
    as [Hzero Hoverflow].
  split; [ | split ].
  - unfold outcome. rewrite compute_yield_raises_estimate.
    fold max_gfa unit_size. rewrite Hzero. reflexivity.
  - unfold outcome. rewrite compute_yield_raises_estimate.
    fold max_gfa unit_size. rewrite Hoverflow. reflexivity.
  - intros e He. unfold outcome in He.
    apply compute_yield_raises_estimate in He. destruct He as [Hreached He].
    split; [exact Hreached | exact (estimated_units_raises _ _ _ He)].
Qed.

(** A floor area of 1e308 with an average unit size of 0.001, in zone R3
    with 10 m frontage: the quotient overflows and the estimator raises an
    [OverflowError], with a unit size other than zero. *)
Lemma X13_compute_yield_raises_witness :
  YieldEngine.compute_yield
    (Examples.with_unit_size Examples.double_0_001) (Examples.lot 1000)
    (Examples.regular_geometry 10)
    (Examples.envelope_with_floor_area Examples.double_1e308)
    (LepRules.determine_allowed_typologies default_settings "R3" 1000
       (Examples.regular_geometry 10))
    Examples.unconstrained
  = Raise OverflowError
  /\ ~ (Examples.double_0_001 == 0)%Q.
Proof.
  split; [ | discriminate].
  apply (X13_compute_yield_raises
           (Examples.with_unit_size Examples.double_0_001) (Examples.lot 1000)
           (Examples.regular_geometry 10)
           (Examples.envelope_with_floor_area Examples.double_1e308)
           (LepRules.determine_allowed_typologies default_settings "R3" 1000
              (Examples.regular_geometry 10))
           Examples.unconstrained).
  - vm_compute. reflexivity.
  - split.
    + split; [reflexivity | ]. split; [reflexivity | ]. left. reflexivity.
    + right. exists Examples.double_1e308.
      split; [vm_compute; reflexivity | ].
      split; [discriminate | vm_compute; reflexivity].
Defined.

(** X14. Whenever the yield estimator returns, the indicative dwelling
    count lies between 1 and 6, it is 1 exactly for the primary typology
    "Single Dwelling", and the primary typology is one of the five labels. *)
Theorem X14_dwelling_count_bounds (settings : Settings)
    (parcel_data : ParcelData) (geometry_data : GeometryData)
    (envelope_data : Envelope) (typologies : Typologies)
    (constraints : Constraints) (yield_data : YieldEngine.YieldData) :
  YieldEngine.compute_yield settings parcel_data geometry_data envelope_data
    typologies constraints
  = Ok yield_data ->
  1 <= YieldEngine.indicative_dwellings_count yield_data <= 6
  /\ (YieldEngine.indicative_dwellings_count yield_data = 1
      <-> YieldEngine.primary_typology yield_data = "Single Dwelling")
  /\ In (YieldEngine.primary_typology yield_data)
        ["Dual Occupancy"; "Manor House"; "Multi-Dwelling Housing";
         "Terrace/Row Housing"; "Single Dwelling"].
Proof.
  rewrite compute_yield_cases. cbv zeta.
  destruct (Spec.estimated_units _ _) as [e | estimated_units];
    cbn [Py.bind];
    repeat match goal with
           | |- context [if ?b then _ else _] => destruct b
           end;
    intros Hreturns; cbv [Raise Ok] in Hreturns;
    first [discriminate Hreturns | injection Hreturns as <-];
    cbn [YieldEngine.indicative_dwellings_count YieldEngine.primary_typology];
    (split; [lia | ]);
    (split; [split; intros H; first [discriminate H | lia | reflexivity]
            | simpl; tauto]).
Qed.

(** A 1000 sqm lot at a floor-space ratio of 0.9 in zone R3 with 10 m
    frontage: multi-dwelling housing, nine units by floor area, cut to 6. *)
Lemma X14_dwelling_count_bounds_witness :
  exists yield_data,
    YieldEngine.compute_yield default_settings (Examples.lot 1000)
      (Examples.regular_geometry 10) (Examples.envelope_of 0.9 1000)
      (LepRules.determine_allowed_typologies default_settings "R3" 1000
         (Examples.regular_geometry 10))
      Examples.unconstrained
    = Ok yield_data
    /\ 1 <= YieldEngine.indicative_dwellings_count yield_data <= 6.
Proof.
  destruct (YieldEngine.compute_yield default_settings (Examples.lot 1000)
              (Examples.regular_geometry 10) (Examples.envelope_of 0.9 1000)
              (LepRules.determine_allowed_typologies default_settings "R3" 1000
                 (Examples.regular_geometry 10))
              Examples.unconstrained) as [e | yield_data] eqn:Hreturns.
  - vm_compute in Hreturns. discriminate Hreturns.
  - exists yield_data. split; [reflexivity | ].
    exact (proj1 (X14_dwelling_count_bounds _ _ _ _ _ _ _ Hreturns)).
Defined.

(** * Further properties: typology gates (lep_rules.py) *)

(** The gates of [determine_allowed_typologies], one by one. *)
Lemma determine_allowed_typologies_gates (settings : Settings)
    (zone_code : string) (parcel_area_sqm : Q) (geometry_data : GeometryData) :
  LepRules.determine_allowed_typologies settings zone_code parcel_area_sqm
    geometry_data
  = {| dual_occupancy :=
         in_list zone_code ["R1"; "R2"; "R3"]
         && (Qgeb parcel_area_sqm (MIN_LOT_AREA_DUAL_OCC_SQM settings)
             && Qgeb (get (frontage_m geometry_data) 0%Q)
                     (MIN_FRONTAGE_DUAL_OCC_M settings));
       terrace_row := in_list zone_code ["R1"; "R3"];
       manor_house :=
         in_list zone_code ["R1"; "R2"] && Qgeb parcel_area_sqm 600;
       multi_dwelling := in_list zone_code ["R1"; "R3"];
       apartments := in_list zone_code ["R3"; "R4"] |}.
Proof.
  unfold LepRules.determine_allowed_typologies. cbn zeta.
  destruct (in_list zone_code ["R1"; "R2"; "R3"]),
    (in_list zone_code ["R1"; "R3"]), (in_list zone_code ["R1"; "R2"]),
    (in_list zone_code ["R3"; "R4"]), (Qgeb parcel_area_sqm 600),
    (Qgeb parcel_area_sqm (MIN_LOT_AREA_DUAL_OCC_SQM settings)
     && Qgeb (get (frontage_m geometry_data) 0%Q)
             (MIN_FRONTAGE_DUAL_OCC_M settings));
    reflexivity.
Qed.

Lemma Qgeb_trans (x y z : Q) :
  (z <= y)%Q -> Qgeb x y = true -> Qgeb x z = true.
Proof.
  rewrite !Qgeb_ge. intros Hzy Hyx. eapply Qle_trans; eassumption.
Qed.

(** X15. When the typology gates come from [determine_allowed_typologies]
    and the floor-space minimum for multi-dwelling housing does not exceed
    the one for terrace housing (they are equal by default), terrace row is
    never the primary typology: whenever terrace row is feasible
    multi-dwelling housing is, and it comes first. *)
Theorem X15_terrace_row_never_primary (settings : Settings)
    (zone_code : string) (parcel_area_sqm : Q) (parcel_data : ParcelData)
    (geometry_data : GeometryData) (envelope_data : Envelope)
    (constraints : Constraints) (yield_data : YieldEngine.YieldData) :
  (MIN_FSR_MULTI_DWELLING settings <= MIN_FSR_TERRACE settings)%Q ->
  YieldEngine.compute_yield settings parcel_data geometry_data envelope_data
    (LepRules.determine_allowed_typologies settings zone_code parcel_area_sqm
       geometry_data)
    constraints
  = Ok yield_data ->
  (YieldEngine.terrace_row_feasible yield_data = true ->
   YieldEngine.multi_dwelling_feasible yield_data = true)
  /\ YieldEngine.primary_typology yield_data <> "Terrace/Row Housing".
Proof.
  intros Hfsr. rewrite compute_yield_cases, determine_allowed_typologies_gates.
  cbv zeta. cbn [terrace_row multi_dwelling manor_house dual_occupancy].
  set (zone := in_list zone_code ["R1"; "R3"]).
  destruct (Qgeb (get (fsr_control envelope_data) 0.6%Q)
                 (MIN_FSR_TERRACE settings)) eqn:Hterrace.
  - rewrite (Qgeb_trans _ _ _ Hfsr Hterrace).
    destruct (Spec.estimated_units _ _) as [e | estimated_units];
      cbn [Py.bind];
      repeat match goal with
             | |- context [if ?b then _ else _] => destruct b
             end;
      intros Hreturns; cbv [Raise Ok] in Hreturns;
      first [discriminate Hreturns | injection Hreturns as <-];
      cbn [YieldEngine.terrace_row_feasible
           YieldEngine.multi_dwelling_feasible YieldEngine.primary_typology];
      (split; [intros H; first [exact H | reflexivity | discriminate H]
              | discriminate]).
  - rewrite !andb_false_r. cbn [andb].
    destruct (Spec.estimated_units _ _) as [e | estimated_units];
      cbn [Py.bind];
      repeat match goal with
             | |- context [if ?b then _ else _] => destruct b
             end;
      intros Hreturns; cbv [Raise Ok] in Hreturns;
      first [discriminate Hreturns | injection Hreturns as <-];
      cbn [YieldEngine.terrace_row_feasible
           YieldEngine.multi_dwelling_feasible YieldEngine.primary_typology];
      (split; [intros H; first [exact H | reflexivity | discriminate H]
              | discriminate]).
Qed.

(** Zone R3 at a floor-space ratio of 0.9: terrace row is feasible and the
    primary typology is multi-dwelling housing. *)
Lemma X15_terrace_row_never_primary_witness :
  exists yield_data,
    YieldEngine.compute_yield default_settings (Examples.lot 1000)
      (Examples.regular_geometry 10) (Examples.envelope_of 0.9 1000)
      (LepRules.determine_allowed_typologies default_settings "R3" 1000
         (Examples.regular_geometry 10))
      Examples.unconstrained
    = Ok yield_data
    /\ YieldEngine.primary_typology yield_data <> "Terrace/Row Housing".
Proof.
  destruct (YieldEngine.compute_yield default_settings (Examples.lot 1000)
              (Examples.regular_geometry 10) (Examples.envelope_of 0.9 1000)
              (LepRules.determine_allowed_typologies default_settings "R3" 1000
                 (Examples.regular_geometry 10))
              Examples.unconstrained) as [e | yield_data] eqn:Hreturns.
  - vm_compute in Hreturns. discriminate Hreturns.
  - exists yield_data. split; [reflexivity | ].
    refine (proj2 (X15_terrace_row_never_primary default_settings "R3" 1000
                     (Examples.lot 1000) (Examples.regular_geometry 10)
                     (Examples.envelope_of 0.9 1000) Examples.unconstrained
                     yield_data _ Hreturns)).
    discriminate.
Defined.

(** X16. The typology gates never close when a lot grows: with a larger
    area and a longer frontage every typology that was allowed stays
    allowed.  Terrace row and multi-dwelling housing are always allowed
    together, manor house and apartments never are, and only apartments can
    be allowed in zone R4. *)
Theorem X16_typology_gates_monotone (settings : Settings) (zone_code : string)
    (parcel_area_sqm parcel_area_sqm' : Q)
    (geometry_data geometry_data' : GeometryData) :
  (parcel_area_sqm <= parcel_area_sqm')%Q ->
  (get (frontage_m geometry_data) 0 <= get (frontage_m geometry_data') 0)%Q ->
  let typologies :=
    LepRules.determine_allowed_typologies settings zone_code parcel_area_sqm
      geometry_data in
  let typologies' :=
    LepRules.determine_allowed_typologies settings zone_code parcel_area_sqm'
      geometry_data' in
  (dual_occupancy typologies = true -> dual_occupancy typologies' = true)
  /\ (manor_house typologies = true -> manor_house typologies' = true)
  /\ terrace_row typologies' = terrace_row typologies
  /\ multi_dwelling typologies' = multi_dwelling typologies
  /\ apartments typologies' = apartments typologies
  /\ terrace_row typologies = multi_dwelling typologies
  /\ manor_house typologies && apartments typologies = false
  /\ (zone_code = "R4" ->
      typologies = {| dual_occupancy := false;
                      terrace_row := false;
                      manor_house := false;
                      multi_dwelling := false;
                      apartments := true |}).
Proof.
  intros Harea Hfrontage typologies typologies'. subst typologies typologies'.
  rewrite !determine_allowed_typologies_gates.
  cbn [dual_occupancy manor_house terrace_row multi_dwelling apartments].
  split.
  { rewrite !andb_true_iff, !Qgeb_ge. intros (Hz & Ha & Hf).
    repeat split; [exact Hz | | ]; eapply Qle_trans; eassumption. }
  split.
  { rewrite !andb_true_iff, !Qgeb_ge. intros (Hz & Ha).
    split; [exact Hz | ]. eapply Qle_trans; eassumption. }
  do 4 (split; [reflexivity | ]).
  split.
  - destruct (in_list zone_code ["R1"; "R2"]) eqn:Hlow; [ | reflexivity].
    destruct (in_list zone_code ["R3"; "R4"]) eqn:Hhigh;
      [ | apply andb_false_r].
    apply in_list_In in Hlow, Hhigh. simpl in Hlow, Hhigh.
    exfalso. destruct Hlow as [<- | [<- | []]];
      destruct Hhigh as [H | [H | []]]; discriminate H.
  - intros ->. reflexivity.
Qed.

(** A lot growing from 500 sqm to 607 sqm in zone R1 gains the manor house
    and keeps what it had. *)
Lemma X16_typology_gates_monotone_witness :
  manor_house
    (LepRules.determine_allowed_typologies default_settings "R1" 500
       (Examples.regular_geometry 15))
  = false
  /\ manor_house
       (LepRules.determine_allowed_typologies default_settings "R1" 607
          (Examples.regular_geometry 15))
     = true
  /\ (dual_occupancy
        (LepRules.determine_allowed_typologies default_settings "R1" 500
           (Examples.regular_geometry 15))
      = true ->
      dual_occupancy
        (LepRules.determine_allowed_typologies default_settings "R1" 607
           (Examples.regular_geometry 15))
      = true).
Proof.
  split; [reflexivity | ]. split; [reflexivity | ].
  refine (proj1 (X16_typology_gates_monotone default_settings "R1" 500 607
                   (Examples.regular_geometry 15)
                   (Examples.regular_geometry 15) _ _));
    discriminate.
Defined.

(** * Further properties: a heritage item across the assessments *)

(** X17. A heritage item decides every assessment at once, whatever the
    other inputs and settings: the yield estimator returns a single dwelling
    with no typology feasible (also when the average unit size is zero),
    fast-track is blocked with the entry "Heritage Item", the full
    application is not supportable and exposes the heritage issue, the
    heritage impact statement is recommended, the heritage severity is 3,
    and under the default weights the constraint rating is "High" or
    "Red-Flag". *)
Theorem X17_heritage_item_scenario (settings : Settings)
    (parcel_data : ParcelData) (geometry_data : GeometryData)
    (envelope_data : Envelope) (typologies : Typologies)
    (constraints : Constraints) (slope_data : SlopeData) :
  heritage_item constraints = true ->
  let cdc_potential :=
    CdcLowRise.evaluate_cdc_potential settings parcel_data geometry_data
      constraints slope_data in
  let studies := ConstraintsEngine.recommend_required_studies constraints in
  let da_potential :=
    DaGuidance.evaluate_da_potential parcel_data geometry_data constraints
      slope_data studies in
  YieldEngine.compute_yield settings parcel_data geometry_data envelope_data
    typologies constraints
  = Ok {| YieldEngine.dual_occ_feasible := false;
          YieldEngine.terrace_row_feasible := false;
          YieldEngine.manor_house_feasible := false;
          YieldEngine.multi_dwelling_feasible := false;
          YieldEngine.indicative_dwellings_count := 1;
          YieldEngine.primary_typology := "Single Dwelling" |}
  /\ CdcLowRise.is_potentially_cdc_compliant cdc_potential = false
  /\ CdcLowRise.likely_pathway cdc_potential = "DA Only"
  /\ In "Heritage Item" (CdcLowRise.blocking_constraints cdc_potential)
  /\ DaGuidance.is_likely_supportable da_potential = false
  /\ In "Heritage significance - strict controls apply"
        (DaGuidance.key_issues da_potential)
  /\ In "Heritage Impact Statement" studies
  /\ (forall severity,
        ConstraintsEngine.compute_constraint_severity settings constraints
        = Ok severity ->
        ConstraintsEngine.heritage_severity severity = 3)
  /\ (forall severity,
        ConstraintsEngine.compute_constraint_severity default_settings
          constraints
        = Ok severity ->
        12 <= ConstraintsEngine.total_score severity
        /\ In (ConstraintsEngine.rating severity) ["High"; "Red-Flag"]).
Proof.
  intros Hitem cdc_potential studies da_potential.
  assert (Hcdc : CdcLowRise.is_potentially_cdc_compliant cdc_potential = false).
  { apply not_true_iff_false. intros Hyes.
    apply cdc_compliant_rules in Hyes. destruct Hyes as (_ & _ & Hno & _).
    congruence. }
  split.
  { rewrite compute_yield_cases. cbv zeta. rewrite Hitem. cbn [negb].
    rewrite !andb_false_r. reflexivity. }
  split; [exact Hcdc | ].
  split.
  { change (CdcLowRise.likely_pathway cdc_potential)
      with (if CdcLowRise.is_potentially_cdc_compliant cdc_potential
            then "CDC Possible" else "DA Only").
    now rewrite Hcdc. }
  split.
  { subst cdc_potential. rewrite evaluate_cdc_potential_blocking.
    unfold Spec.cdc_blocking_list. apply in_map_iff.
    exists Spec.HeritageItem. split; [reflexivity | ].
    apply filter_In. split; [simpl; tauto | exact Hitem]. }
  split.
  { subst da_potential. unfold DaGuidance.evaluate_da_potential. cbn zeta.
    cbn [DaGuidance.is_likely_supportable]. rewrite Hitem.
    now destruct (String.eqb _ "Very High"). }
  split.
  { apply in_list_In.
    destruct (da_key_issues_membership parcel_data geometry_data constraints
                slope_data studies) as (_ & _ & Hk & _).
    fold da_potential in Hk. now rewrite Hk. }
  split.
  { apply in_list_In.
    destruct (recommend_required_studies_membership constraints)
      as (_ & _ & _ & _ & _ & _ & _ & _ & _ & _ & Hs).
    fold studies in Hs. now rewrite Hs, Hitem. }
  split.
  - intros severity Hret.
    pose proof (compute_constraint_severity_cases settings constraints) as H.
    rewrite Hret in H. destruct H as (_ & _ & _ & Hh & _).
    now rewrite Hh, Hitem.
  - intros severity Hret.
    pose proof (compute_constraint_severity_cases default_settings
                  constraints) as H.
    rewrite Hret in H. destruct H as (_ & Eb & Ef & Eh & Eg & Ebio & Et & Er).
    destruct (geotech_tier_cases constraints) as (Rg & _).
    pose proof (bushfire_severity_nonneg (bushfire_prone constraints)
                  (get (bushfire_category constraints) (Some ""))) as Bb.
    rewrite <- Eb in Bb. rewrite <- Eg in Rg. rewrite Hitem in Eh.
    assert (Bf : 0 <= ConstraintsEngine.flood_severity severity)
      by (rewrite Ef; destruct (flood_prone constraints); lia).
    assert (Bbio : 0 <= ConstraintsEngine.biodiversity_severity severity)
      by (rewrite Ebio; destruct (biodiversity constraints); lia).
    pose proof (Zle_0_nat (List.length (other_overlays constraints))) as Bm.
    assert (Htotal : 12 <= ConstraintsEngine.total_score severity).
    { rewrite Et, Eh. cbn [BUSHFIRE_WEIGHT FLOOD_WEIGHT HERITAGE_WEIGHT
                           GEOTECH_WEIGHT BIODIVERSITY_WEIGHT MISC_WEIGHT
                           default_settings]. lia. }
    split; [exact Htotal | ].
    rewrite Er. unfold ConstraintsEngine.overall_rating.
    destruct (Z.eqb_spec (ConstraintsEngine.total_score severity) 0); [lia | ].
    destruct (Z.leb_spec (ConstraintsEngine.total_score severity) 3); [lia | ].
    destruct (Z.leb_spec (ConstraintsEngine.total_score severity) 7); [lia | ].
    destruct (Z.leb_spec (ConstraintsEngine.total_score severity) 12);
      simpl; tauto.
Qed.

(** The heritage-listed 607 sqm lot. *)
Lemma X17_heritage_item_scenario_witness :
  In "Heritage Item"
    (CdcLowRise.blocking_constraints
       (CdcLowRise.evaluate_cdc_potential default_settings (Examples.lot 607)
          (Examples.regular_geometry 15) Examples.heritage_listed
          (Examples.slope 6.5))).
Proof.
  exact (proj1 (proj2 (proj2 (proj2
           (X17_heritage_item_scenario default_settings (Examples.lot 607)
              (Examples.regular_geometry 15) (Examples.envelope_of 0.6 607)
              (LepRules.determine_allowed_typologies default_settings "R1" 607
                 (Examples.regular_geometry 15))
              Examples.heritage_listed (Examples.slope 6.5) eq_refl))))).
Defined.

(** * Further properties: risk rating (risk_engine.py) *)

Lemma total_score_nonneg (settings : Settings) (constraints : Constraints)
    (severity : ConstraintsEngine.ConstraintSeverity) :
  Tiers.weights_nonnegative settings ->
  ConstraintsEngine.compute_constraint_severity settings constraints
  = Ok severity ->
  0 <= ConstraintsEngine.total_score severity.
Proof.
  intros (Wb & Wf & Wh & Wg & Wbio & Wm) Hret.
  pose proof (compute_constraint_severity_cases settings constraints) as H.
  rewrite Hret in H. destruct H as (_ & Eb & Ef & Eh & Eg & Ebio & Et & _).
  destruct (geotech_tier_cases constraints) as (Rg & _).
  pose proof (bushfire_severity_nonneg (bushfire_prone constraints)
                (get (bushfire_category constraints) (Some ""))) as Bb.
  rewrite <- Eb in Bb. rewrite <- Eg in Rg.
  assert (Bf : 0 <= ConstraintsEngine.flood_severity severity)
    by (rewrite Ef; destruct (flood_prone constraints); lia).
  assert (Bh : 0 <= ConstraintsEngine.heritage_severity severity)
    by (rewrite Eh; destruct (heritage_item constraints);
        [ | destruct (heritage_conservation_area constraints) ]; lia).
  assert (Bbio : 0 <= ConstraintsEngine.biodiversity_severity severity)
    by (rewrite Ebio; destruct (biodiversity constraints); lia).
  pose proof (Zle_0_nat (List.length (other_overlays constraints))) as Bm.
  rewrite Et. nia.
Qed.

Lemma rating_rank_score_to_rating (s : Z) :
  Tiers.rating_rank (RiskEngine.score_to_rating s)
  = if s =? 0 then 0
    else if s <=? 3 then 1
    else if s <=? 7 then 2
    else if s <=? 12 then 3
    else 4.
Proof.
  unfold RiskEngine.score_to_rating.
  destruct (s =? 0); [reflexivity | ].
  destruct (s <=? 3); [reflexivity | ].
  destruct (s <=? 7); [reflexivity | ].
  destruct (s <=? 12); reflexivity.
Qed.

Lemma slope_penalty_range (mean_gradient : Q) :
  0 <= Spec.slope_penalty mean_gradient <= 3.
Proof.
  unfold Spec.slope_penalty.
  destruct (Qlt_le_dec 25 mean_gradient);
    [ | destruct (Qlt_le_dec 15 mean_gradient) ]; lia.
Qed.

Lemma regularity_penalty_range (regularity : Q) :
  0 <= Spec.regularity_penalty regularity <= 1.
Proof.
  unfold Spec.regularity_penalty.
  destruct (Qlt_le_dec regularity 0.75); lia.
Qed.

Ltac score_tiers s :=
  destruct (Z.eqb_spec s 0);
  destruct (Z.leb_spec s 3);
  destruct (Z.leb_spec s 7);
  destruct (Z.leb_spec s 12).

(** X18. With weights that are not negative the overall risk rating is
    never below the constraint rating it starts from, and the slope and the
    lot shape raise it by at most two levels: an unconstrained parcel is
    rated at most "Medium".  The risk rating is "None" exactly when the
    constraint rating is "None", the mean gradient is at most 15 and the
    regularity index is at least 0.75. *)
Theorem X18_risk_rating_above_constraint_rating (settings : Settings)
    (constraints : Constraints)
    (severity : ConstraintsEngine.ConstraintSeverity)
    (slope_data : SlopeData) (geometry_data : GeometryData) :
  Tiers.weights_nonnegative settings ->
  ConstraintsEngine.compute_constraint_severity settings constraints
  = Ok severity ->
  let risk :=
    RiskEngine.compute_risk_rating constraints severity slope_data
      geometry_data in
  Tiers.rating_rank (ConstraintsEngine.rating severity)
    <= Tiers.rating_rank risk
    <= Tiers.rating_rank (ConstraintsEngine.rating severity) + 2
  /\ (risk = "None"
      <-> ConstraintsEngine.rating severity = "None"
          /\ (get (mean_gradient_percent slope_data) 0 <= 15)%Q
          /\ (0.75 <= get (regularity_index geometry_data) 1.0)%Q)
  /\ (ConstraintsEngine.rating severity = "None" ->
      In risk ["None"; "Low"; "Medium"]).
Proof.
  intros Hweights Hret risk.
  pose proof (total_score_nonneg settings constraints severity Hweights Hret)
    as Htotal.
  assert (Hrisk : risk
                  = RiskEngine.score_to_rating
                      (Spec.risk_score severity slope_data geometry_data))
    by apply compute_risk_rating_score.
  rewrite (compute_constraint_severity_rating settings constraints severity
             Hret), overall_rating_score_to_rating.
  rewrite Hrisk. unfold Spec.risk_score.
  pose proof (slope_penalty_range (get (mean_gradient_percent slope_data) 0%Q))
    as Hp.
  pose proof (regularity_penalty_range
                (get (regularity_index geometry_data) 1.0%Q)) as Hq.
  destruct (slope_penalty_cases (get (mean_gradient_percent slope_data) 0%Q))
    as (_ & _ & Hp0).
  destruct (regularity_penalty_cases
              (get (regularity_index geometry_data) 1.0%Q)) as (_ & Hq0).
  rewrite <- Hp0, <- Hq0.
  set (p := Spec.slope_penalty _) in *.
  set (q := Spec.regularity_penalty _) in *.
  set (t := ConstraintsEngine.total_score severity) in *.
  clearbody p q t. clear Hp0 Hq0 Hrisk risk.
  split; [ | split ].
  - rewrite !rating_rank_score_to_rating.
    score_tiers t; score_tiers (t + p + q); lia.
  - unfold RiskEngine.score_to_rating.
    score_tiers t; score_tiers (t + p + q);
      (split; [intros Hnone | intros (Hnone & ? & ?)]);
      try discriminate; try lia; try reflexivity; repeat split; lia.
  - unfold RiskEngine.score_to_rating.
    score_tiers t; score_tiers (t + p + q);
      intros Hnone; try discriminate; try lia; simpl; tauto.
Qed.

(** The unconstrained parcel on a 30 percent slope is rated "Low" although
    its constraint rating is "None". *)
Lemma X18_risk_rating_above_constraint_rating_witness :
  exists severity,
    ConstraintsEngine.compute_constraint_severity default_settings
      Examples.unconstrained
    = Ok severity
    /\ Tiers.rating_rank (ConstraintsEngine.rating severity)
       <= Tiers.rating_rank
            (RiskEngine.compute_risk_rating Examples.unconstrained severity
               (Examples.slope 30) (Examples.regular_geometry 15)).
Proof.
  destruct (ConstraintsEngine.compute_constraint_severity default_settings
              Examples.unconstrained) as [e | severity] eqn:Hret;
    [vm_compute in Hret; discriminate Hret | ].
  exists severity. split; [reflexivity | ].
  apply (X18_risk_rating_above_constraint_rating default_settings
           Examples.unconstrained severity (Examples.slope 30)
           (Examples.regular_geometry 15)).
  - repeat split; apply Z.leb_le; reflexivity.
  - exact Hret.
Defined.

(** X19. A slope that blocks the fast-track pathway is reported by every
    assessment.  When the configured gradient ceiling is at least 15 and the
    weights are not negative, a mean gradient above the ceiling puts the
    slope entry on the blocking list, exposes the issue "Slope and
    stormwater" in the full-application assessment, whatever else is raised,
    and gives an overall risk rating other than "None". *)
Theorem X19_steep_slope_reported_everywhere (settings : Settings)
    (parcel_data : ParcelData) (geometry_data : GeometryData)
    (constraints : Constraints) (slope_data : SlopeData)
    (severity : ConstraintsEngine.ConstraintSeverity)
    (recommended_studies : list string) :
  Tiers.weights_nonnegative settings ->
  (15 <= CDC_MAX_SLOPE_PERCENT settings)%Q ->
  (CDC_MAX_SLOPE_PERCENT settings
   < get (mean_gradient_percent slope_data) 0)%Q ->
  ConstraintsEngine.compute_constraint_severity settings constraints
  = Ok severity ->
  In ("Slope too steep for CDC ("
      ++ format_fixed 1 (get (mean_gradient_percent slope_data) 0%Q)
      ++ "%)")%string
     (CdcLowRise.blocking_constraints
        (CdcLowRise.evaluate_cdc_potential settings parcel_data geometry_data
           constraints slope_data))
  /\ In "Slope and stormwater"
        (DaGuidance.key_issues
           (DaGuidance.evaluate_da_potential parcel_data geometry_data
              constraints slope_data recommended_studies))
  /\ 1 <= Tiers.rating_rank
            (RiskEngine.compute_risk_rating constraints severity slope_data
               geometry_data).
Proof.
  intros Hweights Hceiling Hsteep Hret.
  assert (Hfifteen : (15 < get (mean_gradient_percent slope_data) 0)%Q)
    by (eapply Qle_lt_trans; eassumption).
  split; [ | split ].
  - rewrite evaluate_cdc_potential_blocking. unfold Spec.cdc_blocking_list.
    apply in_map_iff. exists Spec.GradientAboveCeiling.
    split; [reflexivity | ].
    apply filter_In. split; [simpl; tauto | ].
    apply Qltb_lt. exact Hsteep.
  - apply in_list_In.
    destruct (da_key_issues_membership parcel_data geometry_data constraints
                slope_data recommended_studies) as (_ & _ & _ & _ & Hk & _).
    rewrite Hk. apply Qltb_lt. exact Hfifteen.
  - pose proof (total_score_nonneg settings constraints severity Hweights
                  Hret) as Htotal.
    rewrite compute_risk_rating_score, rating_rank_score_to_rating.
    unfold Spec.risk_score.
    pose proof (regularity_penalty_range
                  (get (regularity_index geometry_data) 1.0%Q)) as Hq.
    assert (Hp : 2 <= Spec.slope_penalty
                        (get (mean_gradient_percent slope_data) 0%Q)).
    { unfold Spec.slope_penalty.
      destruct (Qlt_le_dec 25 _); [lia | ].
      destruct (Qlt_le_dec 15 _) as [ | Hle]; [lia | ].
      exfalso. apply (Qlt_not_le _ _ Hfifteen Hle). }
    set (s := _ + _ + _) in *.
    assert (Hs : 2 <= s) by (subst s; lia).
    clearbody s. score_tiers s; lia.
Qed.

(** A 22 percent slope on the otherwise unconstrained 607 sqm lot. *)
Lemma X19_steep_slope_reported_everywhere_witness :
  exists severity,
    ConstraintsEngine.compute_constraint_severity default_settings
      Examples.unconstrained
    = Ok severity
    /\ In "Slope too steep for CDC (22.0%)"
          (CdcLowRise.blocking_constraints
             (CdcLowRise.evaluate_cdc_potential default_settings
                (Examples.lot 607) (Examples.regular_geometry 15)
                Examples.unconstrained (Examples.slope 22)))
    /\ 1 <= Tiers.rating_rank
              (RiskEngine.compute_risk_rating Examples.unconstrained severity
                 (Examples.slope 22) (Examples.regular_geometry 15)).
Proof.
  destruct (ConstraintsEngine.compute_constraint_severity default_settings
              Examples.unconstrained) as [e | severity] eqn:Hret;
    [vm_compute in Hret; discriminate Hret | ].
  exists severity. split; [reflexivity | ].
  assert (Hweights : Tiers.weights_nonnegative default_settings)
    by (repeat split; apply Z.leb_le; reflexivity).
  assert (Hceiling : (15 <= CDC_MAX_SLOPE_PERCENT default_settings)%Q)
    by (apply Qle_bool_iff; reflexivity).
  assert (Hsteep : (CDC_MAX_SLOPE_PERCENT default_settings
                    < get (mean_gradient_percent (Examples.slope 22)) 0)%Q)
    by reflexivity.
  destruct (X19_steep_slope_reported_everywhere default_settings
              (Examples.lot 607) (Examples.regular_geometry 15)
              Examples.unconstrained (Examples.slope 22) severity []
              Hweights Hceiling Hsteep Hret) as (Hblock & _ & Hrank).
  split; [exact Hblock | exact Hrank].
Defined.

(** * Further properties: slope metrics (slope.py) *)

(** [x % 360] for an angle at most one turn past the range: the remainder
    lies in [0, 360) and is the angle or the angle less one turn. *)
Lemma modulo_one_turn (x : Q) :
  (0 <= x)%Q -> (x < 720)%Q ->
  (x < 360 /\ modulo x 360 == x)%Q \/ (360 <= x /\ modulo x 360 == x - 360)%Q.
Proof.
  intros Hlo Hhi. unfold modulo.
  assert (Hx : (x == 360 * (x / 360))%Q) by (field; discriminate).
  pose proof (Qfloor_le (x / 360)) as Hfl.
  pose proof (Qlt_floor (x / 360)) as Hfu.
  set (k := Qfloor (x / 360)) in *.
  assert (Hk : k = 0 \/ k = 1).
  { assert (H1 : (inject_Z k < inject_Z 2)%Q).
    { apply Qle_lt_trans with (x / 360)%Q; [exact Hfl | ].
      change (inject_Z 2) with 2%Q. lra. }
    assert (H2 : (inject_Z (-1) < inject_Z k)%Q).
    { rewrite inject_Z_plus in Hfu. change (inject_Z 1) with 1%Q in Hfu.
      change (inject_Z (-1)) with (-1)%Q. lra. }
    rewrite <- Zlt_Qlt in H1, H2. lia. }
  destruct Hk as [-> | ->].
  - left. rewrite inject_Z_plus in Hfu.
    change (inject_Z 0) with 0%Q in *. change (inject_Z 1) with 1%Q in Hfu.
    split; lra.
  - right. change (inject_Z 1) with 1%Q in *. split; lra.
Qed.

Lemma min3_le (a b c bound : Q) :
  (min3 a b c <= bound)%Q <-> (a <= bound \/ b <= bound \/ c <= bound)%Q.
Proof.
  unfold min3, Qmin. rewrite !Q.min_le_iff. tauto.
Qed.

(** X20. The stub of [compute_slope_metrics] never reads the parcel
    polygon and always reports a fall to the south (180 degrees): for a
    front orientation between 0 and 360 degrees the lot falls to the street
    exactly when the orientation lies between 45 and 135 degrees, and never
    when no orientation is given; the gradients are 6.5 and 12 percent
    without elevation data and 5 and 10 percent with any. *)
Theorem X20_falls_to_street (polygon : PolygonOps.Polygon)
    (dem_data : option Slope.Dem) (front_orientation_deg : Q) :
  (0 <= front_orientation_deg)%Q ->
  (front_orientation_deg <= 360)%Q ->
  (falls_to_street
     (Slope.compute_slope_metrics polygon dem_data
        (Some front_orientation_deg))
   = Some true
   <-> (45 <= front_orientation_deg)%Q /\ (front_orientation_deg <= 135)%Q)
  /\ falls_to_street (Slope.compute_slope_metrics polygon dem_data None)
     = Some false
  /\ (forall polygon',
        Slope.compute_slope_metrics polygon' dem_data
          (Some front_orientation_deg)
        = Slope.compute_slope_metrics polygon dem_data
            (Some front_orientation_deg))
  /\ mean_gradient_percent
       (Slope.compute_slope_metrics polygon dem_data
          (Some front_orientation_deg))
     = Some (match dem_data with Some _ => 5.0 | None => 6.5 end)%Q
  /\ max_gradient_percent
       (Slope.compute_slope_metrics polygon dem_data
          (Some front_orientation_deg))
     = Some (match dem_data with Some _ => 10.0 | None => 12.0 end)%Q.
Proof.
  intros Hlo Hhi.
  split; [ | split; [ | split; [ | split ] ] ].
  - assert (Hfalls :
      falls_to_street
        (Slope.compute_slope_metrics polygon dem_data
           (Some front_orientation_deg))
      = Some
          (Qle_bool
             (min3
                (Qabs (180.0 - modulo (front_orientation_deg + 90) 360))
                (Qabs (180.0 - modulo (front_orientation_deg + 90) 360 + 360))
                (Qabs (180.0 - modulo (front_orientation_deg + 90) 360 - 360)))
             45))
      by (destruct dem_data; reflexivity).
    rewrite Hfalls. clear Hfalls.
    assert (Hbool : forall b : bool, Some b = Some true <-> b = true)
      by (intros b; split; [intros H; now injection H | now intros ->]).
    rewrite Hbool, Qle_bool_iff, min3_le, !Qabs_Qle_condition.
    destruct (modulo_one_turn (front_orientation_deg + 90)) as [[? Hm] | [? Hm]];
      try lra; rewrite !Hm; lra.
  - destruct dem_data; reflexivity.
  - intros polygon'. reflexivity.
  - destruct dem_data; reflexivity.
  - destruct dem_data; reflexivity.
Qed.

(** A lot that fronts a street to the east (orientation 90). *)
Lemma X20_falls_to_street_witness :
  falls_to_street
    (Slope.compute_slope_metrics Examples.builtin_polygon None (Some 90%Q))
  = Some true.
Proof.
  apply (X20_falls_to_street Examples.builtin_polygon None 90).
  - apply Qle_bool_iff. reflexivity.
  - apply Qle_bool_iff. reflexivity.
  - split; apply Qle_bool_iff; reflexivity.
Defined.

(** * Further properties: the pipeline (runner.py) *)

(** The four assessments of the built-in parcel, by the frontage, the
    regularity index and the corner flag that the geometry stage reports. *)
Lemma builtin_parcel_assessments (geometry_data : GeometryData)
    (slope_data : SlopeData) :
  mean_gradient_percent slope_data = Some 6.5%Q ->
  let wide := Qle_bool 15 (get (frontage_m geometry_data) 0%Q) in
  let irregular := Qltb (get (regularity_index geometry_data) 1.0%Q) 0.75 in
  let lep_data :=
    LepRules.evaluate_lep_controls get_settings Examples.builtin_parcel
      geometry_data in
  YieldEngine.compute_yield get_settings Examples.builtin_parcel geometry_data
    (LepRules.envelope lep_data) (LepRules.typologies lep_data)
    Examples.unconstrained
  = Ok {| YieldEngine.dual_occ_feasible := wide;
          YieldEngine.terrace_row_feasible := false;
          YieldEngine.manor_house_feasible := true;
          YieldEngine.multi_dwelling_feasible := false;
          YieldEngine.indicative_dwellings_count := if wide then 2 else 3;
          YieldEngine.primary_typology :=
            if wide then "Dual Occupancy" else "Manor House" |}
  /\ CdcLowRise.evaluate_cdc_potential get_settings Examples.builtin_parcel
       geometry_data Examples.unconstrained slope_data
     = {| CdcLowRise.is_potentially_cdc_compliant := wide;
          CdcLowRise.likely_pathway :=
            if wide then "CDC Possible" else "DA Only";
          CdcLowRise.blocking_constraints :=
            if wide then []
            else [("Insufficient frontage ("
                   ++ format_fixed 1 (get (frontage_m geometry_data) 0%Q)
                   ++ " m)")%string] |}
  /\ DaGuidance.evaluate_da_potential Examples.builtin_parcel geometry_data
       Examples.unconstrained slope_data
       (ConstraintsEngine.recommend_required_studies Examples.unconstrained)
     = {| DaGuidance.is_likely_supportable := true;
          DaGuidance.key_issues :=
            (if irregular then ["Irregular lot shape - design challenges"]
             else [])
            ++ ["Streetscape bulk & scale"]
            ++ (if is_corner_lot geometry_data
                then ["Corner lot - secondary street setbacks"] else []);
          DaGuidance.recommended_studies := [];
          DaGuidance.red_flags := [] |}
  /\ RiskEngine.compute_risk_rating Examples.unconstrained
       (Examples.severity_of_score 0) slope_data geometry_data
     = if irregular then "Low" else "None".
Proof.
  destruct slope_data as [mean_gradient max_gradient fall street].
  destruct geometry_data as [orientation frontage regularity corner].
  intros Hgradient wide irregular lep_data.
  cbn [mean_gradient_percent frontage_m regularity_index is_corner_lot]
    in Hgradient, wide, irregular.
  subst mean_gradient.
  assert (Hminimum : forall f : Q,
            Qgeb f (MIN_FRONTAGE_DUAL_OCC_M get_settings) = Qle_bool 15 f).
  { intros f. apply eq_true_iff_eq. rewrite Qgeb_ge, Qle_bool_iff.
    change (MIN_FRONTAGE_DUAL_OCC_M get_settings) with 15.0%Q.
    split; intros H; lra. }
  assert (Hwide : Qgeb (get frontage 0%Q)
                    (MIN_FRONTAGE_DUAL_OCC_M get_settings) = wide)
    by apply Hminimum.
  assert (Hnarrow : Qltb (get frontage 0%Q)
                      (MIN_FRONTAGE_DUAL_OCC_M get_settings) = negb wide).
  { unfold Qltb. f_equal. exact Hwide. }
  assert (Hyield : Qgeb (get frontage 15%Q)
                     (MIN_FRONTAGE_DUAL_OCC_M get_settings)
                   = wide || match frontage with Some _ => false | None => true end).
  { subst wide. destruct frontage as [f | ]; cbn [get];
      [rewrite orb_false_r; apply Hminimum | reflexivity]. }
  assert (Hgate : dual_occupancy (LepRules.typologies lep_data) = wide).
  { subst lep_data. unfold LepRules.evaluate_lep_controls. cbn zeta.
    cbn [LepRules.typologies]. unfold LepRules.determine_allowed_typologies.
    cbn zeta. cbn [dual_occupancy frontage_m]. rewrite Hwide.
    now destruct wide. }
  split; [ | split; [ | split ] ].
  - rewrite compute_yield_cases. cbv zeta. cbn [frontage_m].
    rewrite Hgate, Hyield.
    set (entry := get frontage 0%Q) in *. clearbody wide.
    destruct wide, frontage, corner; reflexivity.
  - unfold CdcLowRise.evaluate_cdc_potential. cbn zeta.
    cbn [frontage_m mean_gradient_percent]. rewrite Hnarrow.
    set (entry := format_fixed 1 (get frontage 0%Q)). clearbody wide entry.
    destruct wide; reflexivity.
  - unfold DaGuidance.evaluate_da_potential. cbn zeta.
    cbn [regularity_index is_corner_lot mean_gradient_percent].
    fold irregular. clearbody irregular.
    destruct irregular, corner; reflexivity.
  - unfold RiskEngine.compute_risk_rating. cbn zeta.
    cbn [regularity_index mean_gradient_percent].
    fold irregular. clearbody irregular. destruct irregular; reflexivity.
Qed.

(** The result of the pipeline holds what each stage returns for the
    built-in parcel. *)
Lemma analyse_parcel_stages
    (compute_geometry : PolygonOps.Polygon -> ParcelData -> GeometryData)
    (user_input : Runner.UserInput) :
  let geometry_data :=
    compute_geometry Examples.builtin_polygon Examples.builtin_parcel in
  let slope_data :=
    Slope.compute_slope_metrics Examples.builtin_polygon None
      (front_orientation_deg geometry_data) in
  let lep_data :=
    LepRules.evaluate_lep_controls get_settings Examples.builtin_parcel
      geometry_data in
  exists result yield_data,
    Runner.analyse_parcel compute_geometry user_input = Ok result
    /\ YieldEngine.compute_yield get_settings Examples.builtin_parcel
         geometry_data (LepRules.envelope lep_data)
         (LepRules.typologies lep_data) Examples.unconstrained
       = Ok yield_data
    /\ Runner.development_metrics_yield result = yield_data
    /\ Runner.feasibility_cdc_potential result
       = CdcLowRise.evaluate_cdc_potential get_settings
           Examples.builtin_parcel geometry_data Examples.unconstrained
           slope_data
    /\ Runner.feasibility_da_potential result
       = DaGuidance.evaluate_da_potential Examples.builtin_parcel
           geometry_data Examples.unconstrained slope_data
           (ConstraintsEngine.recommend_required_studies
              Examples.unconstrained)
    /\ Runner.feasibility_overall_risk_rating result
       = RiskEngine.compute_risk_rating Examples.unconstrained
           (Examples.severity_of_score 0) slope_data geometry_data
    /\ Runner.input result = Runner.normalise_input user_input.
Proof.
  intros geometry_data slope_data lep_data.
  unfold Runner.analyse_parcel.
  rewrite resolve_parcel_builtin. cbv beta iota zeta.
  change (ConstraintsEngine.compute_constraint_severity get_settings
            (ConstraintsEngine.evaluate_constraints Examples.builtin_polygon
               (compute_geometry Examples.builtin_polygon
                  Examples.builtin_parcel)))
    with (Ok (Examples.severity_of_score 0)).
  cbn [Py.bind Ok].
  match goal with
  | |- context [YieldEngine.compute_yield ?s ?p ?g ?e ?t ?c] =>
      assert (Hyield : exists yield_data,
                 YieldEngine.compute_yield s p g e t c = Ok yield_data)
        by (eexists;
            exact (proj1 (builtin_parcel_assessments geometry_data slope_data
                            eq_refl)));
      destruct Hyield as [yield_data Hyield];
      rewrite Hyield
  end.
  cbn [Py.bind Ok]. eexists. exists yield_data.
  split; [reflexivity | ]. split; [exact Hyield | ].
  repeat split.
Qed.

(** X21. What the pipeline answers, for every request and every geometry
    stage.  The analysis is always of the built-in 607 sqm parcel in zone R1
    without overlays, so the verdict depends on the reported geometry alone:
    fast-track is possible and the primary typology is dual occupancy with
    two dwellings exactly when the reported frontage is at least 15 m,
    otherwise the only blocking entry is the frontage and the primary
    typology is manor house with three dwellings; the full application is
    always supportable, without red flag or study; the risk rating is "Low"
    when the regularity index is below 0.75 and "None" otherwise. *)
Theorem X21_pipeline_verdict
    (compute_geometry : PolygonOps.Polygon -> ParcelData -> GeometryData)
    (user_input : Runner.UserInput) :
  let geometry_data :=
    compute_geometry Examples.builtin_polygon Examples.builtin_parcel in
  let frontage := get (frontage_m geometry_data) 0%Q in
  let regularity := get (regularity_index geometry_data) 1.0%Q in
  exists result,
    Runner.analyse_parcel compute_geometry user_input = Ok result
    /\ ((15 <= frontage)%Q ->
        CdcLowRise.likely_pathway (Runner.feasibility_cdc_potential result)
        = "CDC Possible"
        /\ CdcLowRise.blocking_constraints
             (Runner.feasibility_cdc_potential result) = []
        /\ YieldEngine.primary_typology
             (Runner.development_metrics_yield result) = "Dual Occupancy"
        /\ YieldEngine.indicative_dwellings_count
             (Runner.development_metrics_yield result) = 2)
    /\ ((frontage < 15)%Q ->
        CdcLowRise.likely_pathway (Runner.feasibility_cdc_potential result)
        = "DA Only"
        /\ CdcLowRise.blocking_constraints
             (Runner.feasibility_cdc_potential result)
           = [("Insufficient frontage (" ++ format_fixed 1 frontage
               ++ " m)")%string]
        /\ YieldEngine.primary_typology
             (Runner.development_metrics_yield result) = "Manor House"
        /\ YieldEngine.indicative_dwellings_count
             (Runner.development_metrics_yield result) = 3)
    /\ DaGuidance.is_likely_supportable
         (Runner.feasibility_da_potential result) = true
    /\ DaGuidance.red_flags (Runner.feasibility_da_potential result) = []
    /\ DaGuidance.recommended_studies (Runner.feasibility_da_potential result)
       = []
    /\ ((regularity < 0.75)%Q ->
        Runner.feasibility_overall_risk_rating result = "Low")
    /\ ((0.75 <= regularity)%Q ->
        Runner.feasibility_overall_risk_rating result = "None").
Proof.
  intros geometry_data frontage regularity.
  destruct (analyse_parcel_stages compute_geometry user_input)
    as (result & yield_data & Hret & Hyield & Hy & Hc & Hd & Hr & _).
  exists result. split; [exact Hret | ].
  rewrite Hy, Hc, Hd, Hr. clear Hy Hc Hd Hr Hret.
  fold geometry_data in Hyield |- *.
  destruct (builtin_parcel_assessments geometry_data
              (Slope.compute_slope_metrics Examples.builtin_polygon None
                 (front_orientation_deg geometry_data)) eq_refl)
    as (Ey & Ec & Ed & Er).
  rewrite Hyield in Ey. injection Ey as ->.
  rewrite Ec, Ed, Er. clear Ec Ed Er Hyield.
  cbn [CdcLowRise.likely_pathway CdcLowRise.blocking_constraints
       YieldEngine.primary_typology YieldEngine.indicative_dwellings_count
       DaGuidance.is_likely_supportable DaGuidance.red_flags
       DaGuidance.recommended_studies].
  fold frontage regularity.
  split.
  { intros Hwide. apply Qle_bool_iff in Hwide. rewrite Hwide.
    repeat split. }
  split.
  { intros Hnarrow.
    assert (Hb : Qle_bool 15 frontage = false).
    { apply not_true_iff_false. rewrite Qle_bool_iff.
      apply Qlt_not_le. exact Hnarrow. }
    rewrite Hb. repeat split. }
  split; [reflexivity | ]. split; [reflexivity | ]. split; [reflexivity | ].
  split.
  - intros Hlow. apply Qltb_lt in Hlow. now rewrite Hlow.
  - intros Hhigh. apply Qltb_ge in Hhigh. now rewrite Hhigh.
Qed.

(** * Further properties: polygon metrics (polygon_ops.py) *)

Section Rounding.

Import PolygonOps.

Local Open Scope R_scope.

Lemma round_half_even_error (x : R) :
  Rabs (IZR (round_half_even x) - x) <= 1 / 2.
Proof.
  unfold round_half_even.
  destruct (Zfloor_bound x) as [Hlo Hhi].
  destruct (Rlt_dec (x - IZR (Zfloor x)) (1 / 2)).
  { apply Rabs_le. lra. }
  destruct (Rlt_dec (1 / 2) (x - IZR (Zfloor x))).
  { rewrite plus_IZR. apply Rabs_le. lra. }
  destruct (Z.even (Zfloor x)); [ | rewrite plus_IZR]; apply Rabs_le; lra.
Qed.

Lemma round_half_even_nonneg (x : R) :
  0 <= x -> (0 <= round_half_even x)%Z.
Proof.
  intros Hx. unfold round_half_even.
  assert (Hf : (0 <= Zfloor x)%Z) by (apply Zfloor_lub; exact Hx).
  destruct (Rlt_dec _ _); [exact Hf | ].
  destruct (Rlt_dec _ _); [lia | ].
  destruct (Z.even _); lia.
Qed.

Lemma pow_10_pos (n : nat) : 0 < 10 ^ n.
Proof. apply pow_lt. lra. Qed.

(** [round(x, n)] is a multiple of [10 ** -n] within half a unit of the
    last place of [x], and not negative when [x] is not. *)
Lemma round_error (x : R) (n : nat) :
  Rabs (round x n - x) <= 1 / 2 / 10 ^ n
  /\ (0 <= x -> 0 <= round x n)
  /\ exists k : Z, round x n = IZR k / 10 ^ n.
Proof.
  pose proof (pow_10_pos n) as Hs. unfold round.
  set (s := 10 ^ n) in *.
  split; [ | split ].
  - replace (IZR (round_half_even (x * s)) / s - x)
      with ((IZR (round_half_even (x * s)) - x * s) / s) by (field; lra).
    unfold Rdiv at 1 3. rewrite Rabs_mult, (Rabs_pos_eq (/ s)).
    + apply Rmult_le_compat_r; [ | apply round_half_even_error].
      left. now apply Rinv_0_lt_compat.
    + left. now apply Rinv_0_lt_compat.
  - intros Hx.
    assert (Hxs : 0 <= x * s) by (apply Rmult_le_pos; lra).
    apply round_half_even_nonneg, IZR_le in Hxs.
    apply Rmult_le_pos; [exact Hxs | ].
    left. now apply Rinv_0_lt_compat.
  - eexists. reflexivity.
Qed.

End Rounding.

(** X22. The rounded metrics stay close to the measured ones: for every
    polygon [compute_area_perimeter] returns an area and a perimeter that
    are not negative, are whole numbers of hundredths and lie within 0.005
    of the polygon's area and boundary length; the regularity index of a
    polygon with a boundary is a whole number of thousandths within 0.0005
    of the clamped ratio [4 * sqrt(area) / perimeter]. *)
Theorem X22_rounded_metrics_error (polygon : PolygonOps.Polygon) :
  let '(area_sqm, perimeter_m) := PolygonOps.compute_area_perimeter polygon in
  (0 <= area_sqm /\ 0 <= perimeter_m
   /\ Rabs (area_sqm - PolygonOps.area polygon) <= 5 / 1000
   /\ Rabs (perimeter_m - PolygonOps.length polygon) <= 5 / 1000
   /\ (exists k : Z, area_sqm = IZR k / 100)
   /\ (exists k : Z, perimeter_m = IZR k / 100)
   /\ (PolygonOps.length polygon <> 0 ->
       exists regularity,
         PolygonOps.compute_regularity_index polygon = Ok regularity
         /\ Rabs (regularity
                  - Spec.clamp_unit
                      (4 * sqrt (PolygonOps.area polygon)
                       / PolygonOps.length polygon))
            <= 5 / 10000
         /\ exists k : Z, (0 <= k <= 1000)%Z /\ regularity = IZR k / 1000))%R.
Proof.
  unfold PolygonOps.compute_area_perimeter. cbv zeta.
  destruct (round_error (PolygonOps.area polygon) 2) as (Ea & Na & ka & Ka).
  destruct (round_error (PolygonOps.length polygon) 2) as (El & Nl & kl & Kl).
  assert (H2 : (10 ^ 2 = 100)%R) by (simpl; lra).
  assert (H3 : (10 ^ 3 = 1000)%R) by (simpl; lra).
  rewrite H2 in *.
  split; [apply Na, area_nonneg | ].
  split; [apply Nl, length_nonneg | ].
  split; [lra | ]. split; [lra | ].
  split; [exists ka; exact Ka | ]. split; [exists kl; exact Kl | ].
  intros Hboundary. eexists.
  split; [apply compute_regularity_index_returns | ].
  destruct (Req_dec_T (PolygonOps.length polygon) 0) as [Hzero | _];
    [contradiction | ].
  set (ratio := Spec.clamp_unit _).
  destruct (round_error ratio 3) as (Er & _).
  rewrite H3 in Er. split; [lra | ].
  unfold PolygonOps.round. rewrite H3.
  exists (PolygonOps.round_half_even (ratio * 1000)).
  split; [ | reflexivity].
  apply round_half_even_between.
  pose proof (clamp_unit_bounds
                (4 * sqrt (PolygonOps.area polygon)
                 / PolygonOps.length polygon)) as Hunit.
  fold ratio in Hunit. lra.
Qed.

Section RectangleIndex.

Import PolygonOps.

Local Open Scope R_scope.

(** The geometric mean of two lengths is at most their arithmetic mean. *)
Lemma sqrt_product_le_mean (w h : R) :
  0 <= w -> 0 <= h -> 2 * sqrt (w * h) <= w + h.
Proof.
  intros Hw Hh.
  assert (Hsq : sqrt (w * h) <= sqrt ((w + h) / 2 * ((w + h) / 2))).
  { apply sqrt_le_1_alt. pose proof (Rle_0_sqr (w - h)) as Hsqr.
    unfold Rsqr in Hsqr. lra. }
  rewrite sqrt_square in Hsq by lra. lra.
Qed.

Lemma regularity_index_rectangle (w h : R) :
  0 < w -> 0 < h ->
  compute_regularity_index (Examples.rectangle w h)
  = Ok (round (2 * sqrt (w * h) / (w + h)) 3).
Proof.
  intros Hw Hh. rewrite compute_regularity_index_returns.
  rewrite rectangle_area, rectangle_length by lra.
  destruct (Req_dec_T (2 * (w + h)) 0) as [Hzero | _]; [lra | ].
  replace (4 * sqrt (w * h) / (2 * (w + h)))
    with (2 * sqrt (w * h) / (w + h)) by (field; lra).
  pose proof (sqrt_product_le_mean w h) as Hmean.
  pose proof (sqrt_pos (w * h)) as Hroot.
  assert (Hratio : 0 <= 2 * sqrt (w * h) / (w + h) <= 1).
  { split.
    - apply Rmult_le_pos; [lra | ]. left. apply Rinv_0_lt_compat. lra.
    - apply Rmult_le_reg_r with (w + h); [lra | ].
      unfold Rdiv. rewrite Rmult_assoc, Rinv_l by lra. lra. }
  unfold Spec.clamp_unit, Rmax, Rmin.
  destruct (Rle_dec 1 (2 * sqrt (w * h) / (w + h))) as [Hone | _].
  - assert (Heq : 2 * sqrt (w * h) / (w + h) = 1) by lra.
    rewrite Heq. destruct (Rle_dec 0 1); [reflexivity | lra].
  - destruct (Rle_dec 0 (2 * sqrt (w * h) / (w + h))); [reflexivity | lra].
Qed.

End RectangleIndex.

(** X23. The regularity index of a rectangular lot.  For a rectangle of
    width [w] and height [h] the index is [2 * sqrt(w * h) / (w + h)]
    rounded to three places, so the clamp never acts; it is 1 for every
    square, it is the same for the rectangle turned by a quarter and for the
    rectangle scaled by any factor, and it depends on the proportions
    alone. *)
Theorem X23_rectangle_regularity (w h : R) :
  (0 < w)%R -> (0 < h)%R ->
  PolygonOps.compute_regularity_index (Examples.rectangle w h)
  = Ok (PolygonOps.round (2 * sqrt (w * h) / (w + h)) 3)
  /\ PolygonOps.compute_regularity_index (Examples.rectangle w w) = Ok 1%R
  /\ PolygonOps.compute_regularity_index (Examples.rectangle h w)
     = PolygonOps.compute_regularity_index (Examples.rectangle w h)
  /\ (forall k : R,
        (0 < k)%R ->
        PolygonOps.compute_regularity_index
          (Examples.rectangle (k * w) (k * h))
        = PolygonOps.compute_regularity_index (Examples.rectangle w h)).
Proof.
  intros Hw Hh.
  split; [now apply regularity_index_rectangle | ].
  split.
  { rewrite regularity_index_rectangle by assumption.
    rewrite sqrt_square by lra.
    replace (2 * w / (w + w))%R with 1%R by (field; lra).
    unfold PolygonOps.round.
    replace (10 ^ 3)%R with 1000%R by (simpl; lra).
    rewrite (round_half_even_below _ 1000) by lra.
    f_equal. lra. }
  split.
  { rewrite !regularity_index_rectangle by assumption.
    now rewrite (Rmult_comm h w), (Rplus_comm h w). }
  intros k Hk.
  assert (Hkw : (0 < k * w)%R) by now apply Rmult_lt_0_compat.
  assert (Hkh : (0 < k * h)%R) by now apply Rmult_lt_0_compat.
  rewrite !regularity_index_rectangle by assumption.
  do 2 f_equal.
  replace (k * w * (k * h))%R with (k * k * (w * h))%R by ring.
  rewrite sqrt_mult_alt by nra. rewrite sqrt_square by lra.
  field. lra.
Qed.

(** The 4 by 9 rectangle and its quarter turn both get 0.923. *)
Lemma X23_rectangle_regularity_witness :
  PolygonOps.compute_regularity_index (Examples.rectangle 9 4)
  = PolygonOps.compute_regularity_index (Examples.rectangle 4 9).
Proof.
  apply (X23_rectangle_regularity 4 9); lra.
Defined.

(** X24. The three descriptions of a regularity index partition the
    indices at 0.7 and 0.9, and they do not line up with the 0.75 threshold
    of the risk rating: on a parcel without constraints and without slope
    penalty an "irregular lot" is always rated "Low" and a "regular lot"
    always "None", while a "mildly irregular" lot is rated "Low" exactly
    below 0.75. *)
Theorem X24_regularity_description (regularity : Q)
    (constraints : Constraints) (slope_data : SlopeData)
    (geometry_data : GeometryData) :
  regularity_index geometry_data = Some regularity ->
  (get (mean_gradient_percent slope_data) 0 <= 15)%Q ->
  let description := Geometry.get_regularity_description regularity in
  let risk :=
    RiskEngine.compute_risk_rating constraints (Examples.severity_of_score 0)
      slope_data geometry_data in
  (description = "regular lot" <-> (0.9 <= regularity)%Q)
  /\ (description = "mildly irregular"
      <-> (0.7 <= regularity)%Q /\ (regularity < 0.9)%Q)
  /\ (description = "irregular lot" <-> (regularity < 0.7)%Q)
  /\ (description = "irregular lot" -> risk = "Low")
  /\ (description = "regular lot" -> risk = "None")
  /\ (description = "mildly irregular" ->
      (risk = "Low" <-> (regularity < 0.75)%Q)).
Proof.
  intros Hindex Hgentle description risk.
  assert (Hrisk : risk = if Qltb regularity 0.75 then "Low" else "None").
  { subst risk. unfold RiskEngine.compute_risk_rating. cbn zeta.
    rewrite Hindex. cbn [get].
    assert (H25 : Qgtb (get (mean_gradient_percent slope_data) 0%Q) 25
                  = false).
    { apply not_true_iff_false. rewrite Qgtb_gt. intros H. lra. }
    assert (H15 : Qgtb (get (mean_gradient_percent slope_data) 0%Q) 15
                  = false).
    { apply not_true_iff_false. rewrite Qgtb_gt. intros H. lra. }
    rewrite H25, H15. destruct (Qltb regularity 0.75); reflexivity. }
  assert (Hlow : risk = "Low" <-> (regularity < 0.75)%Q).
  { rewrite Hrisk, <- Qltb_lt. destruct (Qltb regularity 0.75);
      split; intros H; first [reflexivity | discriminate H]. }
  assert (Hnone : risk = "None" <-> (0.75 <= regularity)%Q).
  { rewrite Hrisk, <- Qltb_ge. destruct (Qltb regularity 0.75);
      split; intros H; first [reflexivity | discriminate H]. }
  clearbody risk. subst description.
  unfold Geometry.get_regularity_description.
  destruct (Qgeb regularity 0.9) eqn:H9;
    [ | destruct (Qgeb regularity 0.7) eqn:H7 ].
  - apply Qgeb_ge in H9.
    split; [split; [intros _; exact H9 | reflexivity] | ].
    split; [split; [discriminate | intros [_ H]; lra] | ].
    split; [split; [discriminate | intros H; lra] | ].
    split; [discriminate | ].
    split; [intros _; apply Hnone; lra | discriminate].
  - apply Qgeb_ge in H7. apply not_true_iff_false in H9.
    rewrite Qgeb_ge in H9. apply Qnot_le_lt in H9.
    split; [split; [discriminate | intros H; lra] | ].
    split; [split; [intros _; split; assumption | reflexivity] | ].
    split; [split; [discriminate | intros H; lra] | ].
    split; [discriminate | ].
    split; [discriminate | intros _; exact Hlow].
  - apply not_true_iff_false in H7. rewrite Qgeb_ge in H7.
    apply Qnot_le_lt in H7.
    split; [split; [discriminate | intros H; lra] | ].
    split; [split; [discriminate | intros [H _]; lra] | ].
    split; [split; [intros _; exact H7 | reflexivity] | ].
    split; [intros _; apply Hlow; lra | ].
    split; discriminate.
Qed.

(** An index of 0.72 is described as "mildly irregular" and rated "Low". *)
Lemma X24_regularity_description_witness :
  Geometry.get_regularity_description 0.72 = "mildly irregular"
  /\ RiskEngine.compute_risk_rating Examples.unconstrained
       (Examples.severity_of_score 0) (Examples.slope 6.5)
       {| front_orientation_deg := None;
          frontage_m := Some 15%Q;
          regularity_index := Some 0.72%Q;
          is_corner_lot := false |}
     = "Low".
Proof.
  destruct (X24_regularity_description 0.72 Examples.unconstrained
              (Examples.slope 6.5)
              {| front_orientation_deg := None;
                 frontage_m := Some 15%Q;
                 regularity_index := Some 0.72%Q;
                 is_corner_lot := false |})
    as (_ & Hmild & _ & _ & _ & Hrated).
  - reflexivity.
  - apply Qle_bool_iff. reflexivity.
  - split; [reflexivity | ].
    apply Hrated; reflexivity.
Defined.

(** * Further properties: corner lots (boundaries.py) *)

Section CornerLots.

Variable intersects : PolygonOps.Polygon -> PolygonOps.Polygon -> bool.

Lemma count_intersecting_roads (polygon : PolygonOps.Polygon)
    (roads : list PolygonOps.Polygon) (count : Z) :
  fold_left
    (fun intersecting_roads road =>
       if intersects polygon road
       then intersecting_roads + 1
       else intersecting_roads)
    roads count
  = count + Z.of_nat (List.length (filter (intersects polygon) roads)).
Proof.
  revert count.
  induction roads as [ | road roads IH]; intros count; cbn [fold_left filter].
  - cbn [List.length]. lia.
  - rewrite IH. destruct (intersects polygon road); cbn [List.length]; lia.
Qed.

Lemma detect_corner_lot_count (polygon : PolygonOps.Polygon)
    (roads : list PolygonOps.Polygon) :
  Geometry.detect_corner_lot intersects polygon roads = true
  <-> (2 <= List.length (filter (intersects polygon) roads))%nat.
Proof.
  unfold Geometry.detect_corner_lot.
  destruct roads as [ | road roads].
  - cbn [filter List.length]. split; [discriminate | lia].
  - rewrite count_intersecting_roads, Z.leb_le. lia.
Qed.

End CornerLots.

(** X25. [detect_corner_lot] answers whether at least two entries of the
    road list intersect the parcel, whatever the intersection test: it is
    false for fewer than two roads, adding roads never turns a corner lot
    into a non-corner lot, and the roads are not compared with one another,
    so one intersecting road listed twice makes a corner lot. *)
Theorem X25_corner_lot_counts_roads
    (intersects : PolygonOps.Polygon -> PolygonOps.Polygon -> bool)
    (polygon : PolygonOps.Polygon) (roads : list PolygonOps.Polygon) :
  (Geometry.detect_corner_lot intersects polygon roads = true
   <-> (2 <= List.length (filter (intersects polygon) roads))%nat)
  /\ ((List.length roads < 2)%nat ->
      Geometry.detect_corner_lot intersects polygon roads = false)
  /\ (forall more,
        Geometry.detect_corner_lot intersects polygon roads = true ->
        Geometry.detect_corner_lot intersects polygon (roads ++ more) = true)
  /\ (forall road,
        intersects polygon road = true ->
        Geometry.detect_corner_lot intersects polygon [road; road] = true).
Proof.
  split; [apply detect_corner_lot_count | ].
  split.
  { intros Hfew. apply not_true_iff_false. rewrite detect_corner_lot_count.
    pose proof (filter_length_le (intersects polygon) roads). lia. }
  split.
  { intros more. rewrite !detect_corner_lot_count, filter_app, length_app.
    lia. }
  intros road Hroad. apply detect_corner_lot_count.
  cbn [filter]. rewrite Hroad. cbn [List.length]. lia.
Qed.

(** * Further properties: planning controls (lep_rules.py) *)

Lemma Q_round_half_even_error (x : Q) :
  (Qabs (inject_Z (round_half_even x) - x) <= 1 # 2)%Q.
Proof.
  unfold round_half_even.
  pose proof (Qfloor_le x) as Hlo. pose proof (Qlt_floor x) as Hhi.
  rewrite inject_Z_plus in Hhi. change (inject_Z 1) with 1%Q in Hhi.
  apply Qabs_Qle_condition.
  destruct (Qcompare_spec (x - inject_Z (Qfloor x)) (1 # 2)) as [He | Hl | Hg].
  - destruct (Z.even (Qfloor x));
      [ | rewrite inject_Z_plus; change (inject_Z 1) with 1%Q ]; lra.
  - lra.
  - rewrite inject_Z_plus. change (inject_Z 1) with 1%Q. lra.
Qed.

(** [round(x, 1)] lies within 0.05 of [x]. *)
Lemma Q_round_one_place_error (x : Q) :
  (Qabs (round x 1 - x) <= 5 # 100)%Q.
Proof.
  unfold round. change (inject_Z (10 ^ Z.of_nat 1)) with 10%Q.
  pose proof (Q_round_half_even_error (x * 10)) as H.
  apply Qabs_Qle_condition in H. apply Qabs_Qle_condition.
  set (r := inject_Z (round_half_even (x * 10))) in *. clearbody r.
  assert (Hdiv : (r / 10 == r * (1 # 10))%Q) by (field; discriminate).
  rewrite Hdiv. lra.
Qed.

(** X26. Downstream of the planning-controls stub the yield estimator
    never reaches its floor-area branches.  The stub fixes zone R1, a height
    of 8.5 m and a floor-space ratio of 0.6, and reports a maximum floor area
    within 0.05 sqm of 0.6 times the parcel area; so whenever the configured
    floor-space minimums for terrace and multi-dwelling housing exceed 0.6
    (they are 0.7 by default) the estimator returns without raising, also
    for an average unit size of zero, terrace and multi-dwelling housing are
    infeasible, the primary typology is dual occupancy, manor house or
    single dwelling with at most three dwellings, and manor house is
    feasible exactly for a parcel of at least 600 sqm that is no heritage
    item.  The side setback is 3 m on a corner lot and the configured
    default otherwise. *)
Theorem X26_lep_stub_limits_yield (settings : Settings)
    (parcel_data : ParcelData) (geometry_data : GeometryData)
    (constraints : Constraints) :
  (0.6 < MIN_FSR_TERRACE settings)%Q ->
  (0.6 < MIN_FSR_MULTI_DWELLING settings)%Q ->
  let parcel_area := get (area_sqm parcel_data) 600%Q in
  let lep_data :=
    LepRules.evaluate_lep_controls settings parcel_data geometry_data in
  (exists max_gfa,
     max_gfa_sqm (LepRules.envelope lep_data) = Some max_gfa
     /\ (Qabs (max_gfa - 0.6 * parcel_area) <= 5 # 100)%Q)
  /\ side_setback_min_m (LepRules.envelope lep_data)
     = (if is_corner_lot geometry_data then 3.0%Q
        else DEFAULT_SIDE_SETBACK_MIN_M settings)
  /\ exists yield_data,
       YieldEngine.compute_yield settings parcel_data geometry_data
         (LepRules.envelope lep_data) (LepRules.typologies lep_data)
         constraints
       = Ok yield_data
       /\ YieldEngine.terrace_row_feasible yield_data = false
       /\ YieldEngine.multi_dwelling_feasible yield_data = false
       /\ (YieldEngine.manor_house_feasible yield_data = true
           <-> heritage_item constraints = false
               /\ (600 <= parcel_area)%Q)
       /\ In (YieldEngine.primary_typology yield_data)
             ["Dual Occupancy"; "Manor House"; "Single Dwelling"]
       /\ 1 <= YieldEngine.indicative_dwellings_count yield_data <= 3.
Proof.
  intros Hterrace Hmulti parcel_area lep_data.
  split.
  { eexists. split; [reflexivity | ]. apply Q_round_one_place_error. }
  split.
  { subst lep_data. unfold LepRules.evaluate_lep_controls. cbn zeta.
    cbn [LepRules.envelope side_setback_min_m].
    unfold LepRules.calculate_setbacks.
    now destruct (is_corner_lot geometry_data). }
  assert (Ht : Qgeb 0.6 (MIN_FSR_TERRACE settings) = false).
  { apply not_true_iff_false. rewrite Qgeb_ge. intros H. lra. }
  assert (Hm : Qgeb 0.6 (MIN_FSR_MULTI_DWELLING settings) = false).
  { apply not_true_iff_false. rewrite Qgeb_ge. intros H. lra. }
  rewrite compute_yield_cases. cbv zeta.
  subst lep_data. unfold LepRules.evaluate_lep_controls. cbn zeta.
  cbn [LepRules.envelope LepRules.typologies fsr_control max_height_m
       max_gfa_sqm get].
  rewrite Ht, Hm, !andb_false_r. cbn [andb].
  unfold LepRules.determine_allowed_typologies. cbn zeta.
  cbn [dual_occupancy manor_house terrace_row multi_dwelling].
  change (in_list "R1" ["R1"; "R2"]) with true.
  change (in_list "R1" ["R1"; "R2"; "R3"]) with true.
  change (Qle_bool 8.5 8.5) with true. cbv iota.
  fold parcel_area.
  assert (Hmanor : (if Qgeb parcel_area 600 then true else false)
                   && true && Qgeb parcel_area 600
                   && negb (heritage_item constraints) = true
                   <-> heritage_item constraints = false
                       /\ (600 <= parcel_area)%Q).
  { rewrite <- Qgeb_ge.
    destruct (Qgeb parcel_area 600), (heritage_item constraints);
      cbn; intuition congruence. }
  set (manor := (if Qgeb parcel_area 600 then true else false)
                && true && Qgeb parcel_area 600
                && negb (heritage_item constraints)) in *.
  set (dual := _ && _ && _ && _). clearbody dual manor.
  destruct dual; [ | destruct manor ];
    (eexists; split; [reflexivity | ];
     cbn [YieldEngine.terrace_row_feasible
          YieldEngine.multi_dwelling_feasible
          YieldEngine.manor_house_feasible YieldEngine.primary_typology
          YieldEngine.indicative_dwellings_count];
     split; [reflexivity | ]; split; [reflexivity | ];
     split; [exact Hmanor | ]; split; [simpl; tauto | lia]).
Qed.

(** The 607 sqm lot under the default settings: the maximum floor area is
    364.2 sqm. *)
Lemma X26_lep_stub_limits_yield_witness :
  exists max_gfa,
    max_gfa_sqm
      (LepRules.envelope
         (LepRules.evaluate_lep_controls default_settings (Examples.lot 607)
            (Examples.regular_geometry 15)))
    = Some max_gfa
    /\ (Qabs (max_gfa - 0.6 * 607) <= 5 # 100)%Q.
Proof.
  apply (X26_lep_stub_limits_yield default_settings (Examples.lot 607)
           (Examples.regular_geometry 15) Examples.unconstrained);
    reflexivity.
Defined.

(** * Further properties: the notes (yield_engine.py, risk_engine.py) *)

Lemma hd_error_map_filter {A B : Type} (f : A -> B) (p : A -> bool)
    (l : list A) :
  hd_error (map f (filter p l)) = option_map f (find p l).
Proof.
  induction l as [ | a l IH]; cbn [filter find]; [reflexivity | ].
  destruct (p a); [reflexivity | exact IH].
Qed.

(** The first entry of the blocking list is the entry of the first check
    that blocks, and the assessment is eligible when there is none. *)
Lemma cdc_first_blocking (settings : Settings) (parcel_data : ParcelData)
    (geometry_data : GeometryData) (constraints : Constraints)
    (slope_data : SlopeData) :
  let cdc_potential :=
    CdcLowRise.evaluate_cdc_potential settings parcel_data geometry_data
      constraints slope_data in
  hd_error (CdcLowRise.blocking_constraints cdc_potential)
  = option_map
      (Spec.cdc_entry parcel_data geometry_data slope_data)
      (find (Spec.cdc_blocks settings parcel_data geometry_data constraints
               slope_data)
            Spec.cdc_check_order)
  /\ CdcLowRise.is_potentially_cdc_compliant cdc_potential
     = match CdcLowRise.blocking_constraints cdc_potential with
       | [] => true
       | _ :: _ => false
       end.
Proof.
  intros cdc_potential. split.
  - subst cdc_potential. rewrite evaluate_cdc_potential_blocking.
    apply hd_error_map_filter.
  - subst cdc_potential. rewrite evaluate_cdc_potential_compliant.
    now destruct (CdcLowRise.blocking_constraints _).
Qed.

(** What the notes keep of a blocking entry. *)
Lemma blocker_name_of_entry (parcel_data : ParcelData)
    (geometry_data : GeometryData) (slope_data : SlopeData)
    (check : Spec.CdcCheck) :
  Text.lower
    (Text.strip
       (Text.split_first "("
          (Spec.cdc_entry parcel_data geometry_data slope_data check)))
  = Notes.blocker_name check.
Proof. destruct check; reflexivity. Qed.

(** What the notes keep of the first recommended study. *)
Lemma main_study_of_recommended (constraints : Constraints) :
  option_map
    (fun first_study =>
       Text.lower
         (Text.strip
            (Text.remove_all "Report"
               (Text.remove_all "Assessment" first_study))))
    (hd_error (ConstraintsEngine.recommend_required_studies constraints))
  = Notes.main_study_name constraints.
Proof.
  rewrite recommend_required_studies_blocks. unfold Notes.main_study_name.
  set (moderate := in_list _ ["High"; "Very High"; "Moderate"]).
  set (high := in_list _ ["High"; "Very High"]).
  set (heritage := heritage_item constraints || _).
  clearbody moderate high heritage.
  destruct (bushfire_prone constraints); [reflexivity | ].
  destruct (flood_prone constraints); [reflexivity | ].
  destruct moderate; [reflexivity | ].
  destruct (biodiversity constraints); [reflexivity | ].
  destruct (foreshore_building_line constraints); [reflexivity | ].
  destruct heritage; reflexivity.
Qed.

Lemma da_supportable_cases (parcel_data : ParcelData)
    (geometry_data : GeometryData) (constraints : Constraints)
    (slope_data : SlopeData) (recommended_studies : list string) :
  let da_potential :=
    DaGuidance.evaluate_da_potential parcel_data geometry_data constraints
      slope_data recommended_studies in
  DaGuidance.is_likely_supportable da_potential
  = negb (heritage_item constraints
          || String.eqb (get (geotech_landslip_risk constraints) "Low")
                        "Very High")
  /\ DaGuidance.recommended_studies da_potential = recommended_studies.
Proof.
  split; [ | reflexivity].
  unfold DaGuidance.evaluate_da_potential. cbn zeta.
  cbn [DaGuidance.is_likely_supportable].
  destruct (heritage_item constraints), (String.eqb _ "Very High");
    reflexivity.
Qed.

(** X27. The feasibility notes written for the assessments of a parcel
    always have three sentences: the zoning sentence, a sentence about the
    fast-track pathway and one about the full application.  The fast-track
    sentence is never left out: it is "CDC pathway potentially available."
    when no check blocks and otherwise names the first blocking check in
    check order, in lower case and without its figures.  The last sentence
    is "DA challenging due to significant constraints." for a heritage item
    or very high landslip risk, otherwise it names the first recommended
    study in lower case without the words "Assessment" and "Report", and it
    is "DA pathway realistic with standard design controls." when no study
    is recommended. *)
Theorem X27_feasibility_notes_sentences (str_float : Q -> string)
    (settings : Settings) (zone_code : string) (fsr : Q)
    (parcel_data : ParcelData) (geometry_data : GeometryData)
    (constraints : Constraints) (slope_data : SlopeData)
    (yield_data : YieldEngine.YieldData) :
  let cdc_potential :=
    CdcLowRise.evaluate_cdc_potential settings parcel_data geometry_data
      constraints slope_data in
  let da_potential :=
    DaGuidance.evaluate_da_potential parcel_data geometry_data constraints
      slope_data (ConstraintsEngine.recommend_required_studies constraints) in
  Notes.generate_feasibility_notes str_float zone_code fsr cdc_potential
    da_potential yield_data constraints
  = ("Viable " ++ Text.lower (YieldEngine.primary_typology yield_data)
     ++ " site under " ++ zone_code ++ " zoning with " ++ str_float fsr
     ++ ":1 FSR."
     ++ " "
     ++ Notes.cdc_sentence
          (find (Spec.cdc_blocks settings parcel_data geometry_data
                   constraints slope_data)
                Spec.cdc_check_order)
     ++ " "
     ++ Notes.da_sentence constraints)%string.
Proof.
  intros cdc_potential da_potential.
  destruct (cdc_first_blocking settings parcel_data geometry_data constraints
              slope_data) as (Hfirst & Heligible).
  destruct (da_supportable_cases parcel_data geometry_data constraints
              slope_data
              (ConstraintsEngine.recommend_required_studies constraints))
    as (Hsupportable & Hstudies).
  pose proof (main_study_of_recommended constraints) as Hstudy.
  fold cdc_potential in Hfirst, Heligible.
  fold da_potential in Hsupportable, Hstudies.
  unfold Notes.generate_feasibility_notes. cbn zeta.
  rewrite Heligible, Hsupportable, Hstudies. unfold Notes.da_sentence.
  set (zoning := ("Viable " ++ _)%string).
  assert (Hjoin : forall a b : string,
            String.concat " " ([] ++ [zoning] ++ [a] ++ [b])
            = ("Viable " ++ Text.lower (YieldEngine.primary_typology yield_data)
               ++ " site under " ++ zone_code ++ " zoning with "
               ++ str_float fsr ++ ":1 FSR." ++ " " ++ a ++ " " ++ b)%string).
  { intros a b. subst zoning. cbn [app String.concat].
    rewrite <- !string_app_assoc. reflexivity. }
  set (blocked := heritage_item constraints || String.eqb _ "Very High").
  clearbody zoning blocked.
  destruct (CdcLowRise.blocking_constraints cdc_potential)
    as [ | first_blocking rest];
    destruct (find _ Spec.cdc_check_order) as [check | ];
    cbn [hd_error option_map] in Hfirst; try discriminate Hfirst.
  - destruct blocked; cbn [negb].
    + rewrite <- Hjoin. reflexivity.
    + destruct (ConstraintsEngine.recommend_required_studies constraints)
        as [ | first_study studies];
        cbn [hd_error option_map] in Hstudy; rewrite <- Hstudy, <- Hjoin;
        reflexivity.
  - injection Hfirst as ->. rewrite blocker_name_of_entry.
    destruct blocked; cbn [negb].
    + rewrite <- Hjoin. reflexivity.
    + destruct (ConstraintsEngine.recommend_required_studies constraints)
        as [ | first_study studies];
        cbn [hd_error option_map] in Hstudy; rewrite <- Hstudy, <- Hjoin;
        reflexivity.
Qed.

Lemma string_app_nil_r (s : string) : (s ++ "")%string = s.
Proof.
  induction s as [ | c s IH]; [reflexivity | ].
  cbn [String.append]. now rewrite IH.
Qed.

Ltac flatten_strings :=
  rewrite ?string_app_assoc, ?string_app_nil_r; cbn [String.append];
  reflexivity.

(** X28. The notes that the yield estimator attaches to its result.  The
    wording "Standard ... envelope" always announces dual occupancy, and the
    heritage sentence only ever follows "Single Dwelling under LEP
    controls": for a heritage item the notes are that sentence pair whatever
    the other inputs, and for a feasible dual occupancy they are the
    standard-envelope sentence, followed by the bushfire sentence exactly on
    bushfire-prone land.  The notes come with every result and only with a
    result. *)
Theorem X28_yield_notes (str_float : Q -> string) (settings : Settings)
    (parcel_data : ParcelData) (geometry_data : GeometryData)
    (envelope_data : Envelope) (typologies : Typologies)
    (constraints : Constraints) :
  let fsr := str_float (get (fsr_control envelope_data) 0.6%Q) in
  let height := str_float (get (max_height_m envelope_data) 8.5%Q) in
  let notes :=
    Notes.compute_yield_notes str_float settings parcel_data geometry_data
      envelope_data typologies constraints in
  (heritage_item constraints = true ->
   notes
   = Ok ("Single Dwelling under LEP controls (" ++ fsr ++ ":1 FSR, " ++ height
         ++ " m height)."
         ++ " Heritage restrictions significantly limit development potential.")%string)
  /\ (forall yield_data,
        YieldEngine.compute_yield settings parcel_data geometry_data
          envelope_data typologies constraints
        = Ok yield_data ->
        YieldEngine.dual_occ_feasible yield_data = true ->
        notes
        = Ok ("Standard Dual Occupancy envelope with " ++ fsr ++ ":1 FSR and "
              ++ height ++ " m height."
              ++ (if bushfire_prone constraints
                  then " Bushfire controls may affect building envelope."
                  else ""))%string)
  /\ (forall yield_data,
        YieldEngine.compute_yield settings parcel_data geometry_data
          envelope_data typologies constraints
        = Ok yield_data ->
        YieldEngine.dual_occ_feasible yield_data = false ->
        heritage_item constraints = false ->
        notes
        = Ok (YieldEngine.primary_typology yield_data
              ++ " under LEP controls (" ++ fsr ++ ":1 FSR, " ++ height
              ++ " m height)."
              ++ (if bushfire_prone constraints
                  then " Bushfire controls may affect building envelope."
                  else ""))%string)
  /\ (forall e,
        notes = Raise e
        <-> YieldEngine.compute_yield settings parcel_data geometry_data
              envelope_data typologies constraints
            = Raise e).
Proof.
  intros fsr height notes.
  assert (Hnotes :
    notes
    = (yield_data <-
         YieldEngine.compute_yield settings parcel_data geometry_data
           envelope_data typologies constraints ;;
       Ok (Notes.generate_yield_notes str_float
             (YieldEngine.primary_typology yield_data)
             (get (fsr_control envelope_data) 0.6%Q)
             (get (max_height_m envelope_data) 8.5%Q)
             (YieldEngine.dual_occ_feasible yield_data) constraints)))
    by reflexivity.
  clearbody notes. subst notes.
  split; [ | split; [ | split ] ].
  - intros Hitem. rewrite compute_yield_cases. cbv zeta.
    rewrite Hitem. cbn [negb]. rewrite !andb_false_r. cbn [andb].
    cbn [Py.bind Ok]. unfold Notes.generate_yield_notes.
    cbn [YieldEngine.primary_typology YieldEngine.dual_occ_feasible].
    rewrite Hitem. fold fsr height. flatten_strings.
  - intros yield_data Hret Hdual. rewrite Hret. cbn [Py.bind Ok].
    rewrite compute_yield_cases in Hret. cbv zeta in Hret.
    remember (dual_occupancy typologies && negb (heritage_item constraints)
              && Qgeb (get (area_sqm parcel_data) 600%Q)
                      (MIN_LOT_AREA_DUAL_OCC_SQM settings)
              && Qgeb (get (frontage_m geometry_data) 15%Q)
                      (MIN_FRONTAGE_DUAL_OCC_M settings)) as dual eqn:Edual.
    destruct dual.
    2:{ exfalso.
        destruct (Spec.estimated_units (get (max_gfa_sqm envelope_data) 0%Q)
                    (AVERAGE_UNIT_SIZE_TOWNHOUSE_SQM settings))
          as [e | estimated_units];
          cbn [Py.bind] in Hret;
          repeat match type of Hret with
                 | context [if ?b then _ else _] => destruct b
                 end;
          cbv [Raise Ok] in Hret;
          try discriminate Hret; injection Hret as <-;
          cbn in Hdual; discriminate Hdual. }
    assert (Hclear : heritage_item constraints = false).
    { symmetry in Edual. rewrite !andb_true_iff, negb_true_iff in Edual.
      tauto. }
    injection Hret as <-.
    unfold Notes.generate_yield_notes.
    cbn [YieldEngine.primary_typology YieldEngine.dual_occ_feasible].
    rewrite Hclear. fold fsr height.
    destruct (bushfire_prone constraints); flatten_strings.
  - intros yield_data Hret Hdual Hclear. rewrite Hret. cbn [Py.bind Ok].
    unfold Notes.generate_yield_notes. rewrite Hdual, Hclear.
    fold fsr height.
    destruct (bushfire_prone constraints); flatten_strings.
  - intros e.
    destruct (YieldEngine.compute_yield settings parcel_data geometry_data
                envelope_data typologies constraints) as [e' | yield_data];
      cbn [Py.bind]; split; intros H; cbv [Raise Ok] in *;
      first [discriminate H | injection H as ->; reflexivity].
Qed.

(** The heritage-listed 607 sqm lot, with numbers printed to one decimal
    place. *)
Lemma X28_yield_notes_witness :
  Notes.compute_yield_notes (format_fixed 1) default_settings
    (Examples.lot 607) (Examples.regular_geometry 15)
    (Examples.envelope_of 0.6 607)
    (LepRules.determine_allowed_typologies default_settings "R1" 607
       (Examples.regular_geometry 15))
    Examples.heritage_listed
  = Ok ("Single Dwelling under LEP controls (0.6:1 FSR, 8.5 m height)."
        ++ " Heritage restrictions significantly limit development potential.")%string.
Proof.
  exact (proj1 (X28_yield_notes (format_fixed 1) default_settings
                  (Examples.lot 607) (Examples.regular_geometry 15)
                  (Examples.envelope_of 0.6 607)
                  (LepRules.determine_allowed_typologies default_settings
                     "R1" 607 (Examples.regular_geometry 15))
                  Examples.heritage_listed)
           eq_refl).
Defined.

(** * Further properties: the front boundary (boundaries.py) *)

Section FrontBoundary.

Import PolygonOps.
Import Boundaries.

Local Open Scope R_scope.

Lemma southernmost_lowest (rest : list Segment) (first : Segment) :
  In (southernmost first rest) (first :: rest)
  /\ forall seg,
       In seg (first :: rest) ->
       snd (seg_midpoint (southernmost first rest)) <= snd (seg_midpoint seg).
Proof.
  unfold southernmost. revert first.
  induction rest as [ | next rest IH]; intros first; cbn [fold_left].
  - split; [left; reflexivity | ].
    intros seg [<- | []]. lra.
  - destruct (Rlt_dec (snd (seg_midpoint next)) (snd (seg_midpoint first)))
      as [Hlower | Hnot].
    + destruct (IH next) as [Hin Hmin]. split.
      * right. exact Hin.
      * intros seg [<- | Hseg].
        -- pose proof (Hmin next (or_introl eq_refl)). lra.
        -- apply Hmin. exact Hseg.
    + destruct (IH first) as [Hin Hmin]. split.
      * destruct Hin as [Hin | Hin]; [left; exact Hin | right; right; exact Hin].
      * intros seg [<- | [<- | Hseg]].
        -- apply Hmin. left. reflexivity.
        -- pose proof (Hmin first (or_introl eq_refl)). lra.
        -- apply Hmin. right. exact Hseg.
Qed.

(** Ties go to the segment that comes first. *)
Lemma southernmost_first (rest : list Segment) (first : Segment) :
  (forall seg, In seg rest ->
               snd (seg_midpoint first) <= snd (seg_midpoint seg)) ->
  southernmost first rest = first.
Proof.
  unfold southernmost.
  induction rest as [ | next rest IH]; intros Hlow; cbn [fold_left];
    [reflexivity | ].
  destruct (Rlt_dec (snd (seg_midpoint next)) (snd (seg_midpoint first)))
    as [Hlower | _].
  - pose proof (Hlow next (or_introl eq_refl)). lra.
  - apply IH. intros seg Hseg. apply Hlow. right. exact Hseg.
Qed.

(** Where the front lies among the segments: those before it lie strictly
    further north, those after it at least as far north. *)
Lemma southernmost_among (rest : list Segment) :
  forall (best : Segment) (prefix middle : list Segment),
    (forall seg, In seg prefix ->
                 snd (seg_midpoint best) < snd (seg_midpoint seg)) ->
    (forall seg, In seg middle ->
                 snd (seg_midpoint best) <= snd (seg_midpoint seg)) ->
    exists before after,
      prefix ++ best :: middle ++ rest
      = before ++ southernmost best rest :: after
      /\ (forall seg, In seg before ->
             snd (seg_midpoint (southernmost best rest))
             < snd (seg_midpoint seg))
      /\ (forall seg, In seg after ->
             snd (seg_midpoint (southernmost best rest))
             <= snd (seg_midpoint seg)).
Proof.
  unfold southernmost.
  induction rest as [ | next rest IH]; intros best prefix middle Hprefix Hmiddle;
    cbn [fold_left].
  - exists prefix, middle. rewrite app_nil_r.
    split; [reflexivity | ]. split; assumption.
  - destruct (Rlt_dec (snd (seg_midpoint next)) (snd (seg_midpoint best)))
      as [Hlower | Hnot].
    + destruct (IH next (prefix ++ best :: middle) []) as
        (before & after & Heq & Hbefore & Hafter).
      * intros seg Hseg. apply in_app_or in Hseg.
        destruct Hseg as [Hseg | [<- | Hseg]].
        -- pose proof (Hprefix seg Hseg). lra.
        -- exact Hlower.
        -- pose proof (Hmiddle seg Hseg). lra.
      * intros seg [].
      * exists before, after. split; [ | split; assumption].
        rewrite <- Heq. cbn [app]. rewrite <- app_assoc. reflexivity.
    + destruct (IH best prefix (middle ++ [next])) as
        (before & after & Heq & Hbefore & Hafter).
      * exact Hprefix.
      * intros seg Hseg. apply in_app_or in Hseg.
        destruct Hseg as [Hseg | [<- | []]]; [now apply Hmiddle | lra].
      * exists before, after. split; [ | split; assumption].
        rewrite <- Heq. rewrite <- app_assoc. reflexivity.
Qed.

Lemma fold_left_Rplus (lengths : list R) (total : R) :
  fold_left Rplus lengths total = total + fold_left Rplus lengths 0.
Proof.
  revert total.
  induction lengths as [ | x lengths IH]; intros total; cbn [fold_left].
  - lra.
  - rewrite IH, (IH (0 + x)). lra.
Qed.

Lemma boundary_length_cons (p1 p2 : Point) (rest : list Point) :
  boundary_length (p1 :: p2 :: rest)
  = sqrt ((fst p2 - fst p1) * (fst p2 - fst p1)
          + (snd p2 - snd p1) * (snd p2 - snd p1))
    + boundary_length (p2 :: rest).
Proof. reflexivity. Qed.

(** The segment lengths add up to the boundary length of the ring. *)
Lemma total_length_boundary (coords : list Point) :
  total_length (segments coords) = boundary_length coords.
Proof.
  unfold total_length.
  induction coords as [ | p1 [ | p2 rest] IH]; try reflexivity.
  change (segments (p1 :: p2 :: rest))
    with ({| seg_start := p1;
             seg_end := p2;
             seg_length :=
               sqrt ((fst p2 - fst p1) * (fst p2 - fst p1)
                     + (snd p2 - snd p1) * (snd p2 - snd p1));
             seg_midpoint :=
               ((fst p1 + fst p2) / 2, (snd p1 + snd p2) / 2) |}
          :: segments (p2 :: rest)).
  cbn [map fold_left seg_length]. rewrite fold_left_Rplus, IH.
  rewrite boundary_length_cons. lra.
Qed.

Lemma segment_length_nonneg (coords : list Point) (seg : Segment) :
  In seg (segments coords) -> 0 <= seg_length seg.
Proof.
  induction coords as [ | p1 [ | p2 rest] IH]; try contradiction.
  intros [<- | Hseg]; [apply sqrt_pos | exact (IH Hseg)].
Qed.

Lemma segment_length_le_boundary (coords : list Point) (seg : Segment) :
  In seg (segments coords) -> seg_length seg <= boundary_length coords.
Proof.
  induction coords as [ | p1 [ | p2 rest] IH]; try contradiction.
  rewrite boundary_length_cons.
  pose proof (boundary_length_nonneg (p2 :: rest)) as Hrest.
  pose proof (sqrt_pos ((fst p2 - fst p1) * (fst p2 - fst p1)
                        + (snd p2 - snd p1) * (snd p2 - snd p1))) as Hroot.
  intros [<- | Hseg].
  - cbn [seg_length]. lra.
  - pose proof (IH Hseg). lra.
Qed.

Lemma round_half_even_monotone (x y : R) :
  x <= y -> (round_half_even x <= round_half_even y)%Z.
Proof.
  intros Hxy.
  destruct (Zfloor_bound x) as [Hxl Hxu].
  destruct (Zfloor_bound y) as [Hyl Hyu].
  assert (Hfloor : (Zfloor x <= Zfloor y)%Z).
  { apply Zfloor_lub. lra. }
  destruct (Z.eq_dec (Zfloor x) (Zfloor y)) as [Heq | Hne].
  - unfold round_half_even. rewrite <- Heq in *.
    destruct (Rlt_dec (x - IZR (Zfloor x)) (1 / 2));
      destruct (Rlt_dec (y - IZR (Zfloor x)) (1 / 2));
      destruct (Rlt_dec (1 / 2) (x - IZR (Zfloor x)));
      destruct (Rlt_dec (1 / 2) (y - IZR (Zfloor x)));
      destruct (Z.even (Zfloor x)); try lia; lra.
  - assert (Hx : (round_half_even x <= Zfloor x + 1)%Z).
    { unfold round_half_even.
      destruct (Rlt_dec _ _); [lia | ].
      destruct (Rlt_dec _ _); [lia | ].
      destruct (Z.even _); lia. }
    assert (Hy : (Zfloor y <= round_half_even y)%Z).
    { unfold round_half_even.
      destruct (Rlt_dec _ _); [lia | ].
      destruct (Rlt_dec _ _); [lia | ].
      destruct (Z.even _); lia. }
    lia.
Qed.

Lemma round_monotone (x y : R) (n : nat) :
  x <= y -> round x n <= round y n.
Proof.
  intros Hxy. unfold round. pose proof (pow_10_pos n) as Hs.
  apply Rmult_le_compat_r; [left; now apply Rinv_0_lt_compat | ].
  apply IZR_le, round_half_even_monotone.
  apply Rmult_le_compat_r; lra.
Qed.

End FrontBoundary.

(** X29. The front boundary that [identify_boundaries] picks.  The search
    raises a [ValueError] exactly for a ring of fewer than two coordinates.
    Otherwise the front is a segment of the ring whose midpoint lies at
    least as far south as every other midpoint, and the first such segment
    on a tie: the midpoint of every segment before it in the ring lies
    strictly further north.  The reported frontage is its length rounded to
    one place, it is never negative and never exceeds the reported
    perimeter, which lies within 0.05 of the boundary length of the ring.
    For a rectangle drawn from its lower left corner the frontage is the
    rounded width, whatever the height. *)
Theorem X29_front_boundary (polygon : PolygonOps.Polygon) :
  (Boundaries.front_segment polygon = Raise ValueError
   <-> (List.length (PolygonOps.exterior polygon) < 2)%nat)
  /\ (forall front,
        Boundaries.front_segment polygon = Ok front ->
        In front (Boundaries.segments (PolygonOps.exterior polygon))
        /\ (forall seg,
              In seg (Boundaries.segments (PolygonOps.exterior polygon)) ->
              (snd (Boundaries.seg_midpoint front)
               <= snd (Boundaries.seg_midpoint seg))%R)
        /\ (exists before after,
              Boundaries.segments (PolygonOps.exterior polygon)
              = before ++ front :: after
              /\ (forall seg,
                    In seg before ->
                    (snd (Boundaries.seg_midpoint front)
                     < snd (Boundaries.seg_midpoint seg))%R)
              /\ (forall seg,
                    In seg after ->
                    (snd (Boundaries.seg_midpoint front)
                     <= snd (Boundaries.seg_midpoint seg))%R))
        /\ exists frontage perimeter,
             Boundaries.frontage_m polygon = Ok frontage
             /\ Boundaries.perimeter_m polygon = Ok perimeter
             /\ frontage
                = PolygonOps.round (Boundaries.seg_length front) 1
             /\ (0 <= frontage <= perimeter)%R
             /\ (Rabs (perimeter - PolygonOps.length polygon) <= 5 / 100)%R)
  /\ (forall w h : R,
        (0 < w)%R -> (0 < h)%R ->
        Boundaries.frontage_m (Examples.rectangle w h)
        = Ok (PolygonOps.round w 1)).
Proof.
  split; [ | split ].
  - unfold Boundaries.front_segment. rewrite <- segments_nil.
    destruct (Boundaries.segments (PolygonOps.exterior polygon));
      split; intros H; first [reflexivity | discriminate H].
  - intros front Hfront.
    unfold Boundaries.frontage_m, Boundaries.perimeter_m.
    rewrite Hfront. cbn [Py.bind].
    unfold Boundaries.front_segment in Hfront.
    destruct (Boundaries.segments (PolygonOps.exterior polygon))
      as [ | first rest] eqn:Hsegs; [discriminate Hfront | ].
    injection Hfront as <-.
    destruct (southernmost_lowest rest first) as [Hin Hmin].
    split; [exact Hin | ]. split; [exact Hmin | ].
    split.
    { destruct (southernmost_among rest first [] [])
        as (before & after & Heq & Hbefore & Hafter);
        [intros seg [] | intros seg [] | ].
      exists before, after. split; [exact Heq | split; assumption]. }
    eexists. eexists. split; [reflexivity | ]. split; [reflexivity | ].
    split; [reflexivity | ].
    rewrite <- Hsegs in Hin |- *. rewrite total_length_boundary.
    pose proof (segment_length_nonneg _ _ Hin) as Hpos.
    pose proof (segment_length_le_boundary _ _ Hin) as Hle.
    destruct (round_error (Boundaries.seg_length
                             (Boundaries.southernmost first rest)) 1)
      as (_ & Hnonneg & _).
    destruct (round_error (PolygonOps.boundary_length
                             (PolygonOps.exterior polygon)) 1)
      as (Herr & _).
    split; [split; [now apply Hnonneg | now apply round_monotone] | ].
    unfold PolygonOps.length.
    replace (10 ^ 1)%R with 10%R in Herr by (simpl; lra). lra.
  - intros w h Hw Hh.
    unfold Boundaries.frontage_m, Boundaries.front_segment,
      Examples.rectangle.
    cbn [PolygonOps.exterior Boundaries.segments fst snd].
    rewrite southernmost_first.
    + cbn [Py.bind Ok Boundaries.seg_length].
      rewrite (sqrt_of_square _ w); [reflexivity | lra | ring].
    + intros seg Hseg. cbn [Boundaries.seg_midpoint snd].
      cbn [In] in Hseg.
      destruct Hseg as [<- | [<- | [<- | []]]];
        cbn [Boundaries.seg_midpoint snd]; lra.
Qed.

(** The built-in parcel polygon has a front boundary. *)
Lemma X29_front_boundary_witness :
  exists front frontage,
    Boundaries.front_segment Examples.builtin_polygon = Ok front
    /\ Boundaries.frontage_m Examples.builtin_polygon = Ok frontage
    /\ (0 <= frontage)%R.
Proof.
  destruct (X29_front_boundary Examples.builtin_polygon)
    as (Hraise & Hfront & _).
  destruct (Boundaries.front_segment Examples.builtin_polygon)
    as [e | front] eqn:Hreturns.
  - exfalso. unfold Boundaries.front_segment in Hreturns.
    cbn [PolygonOps.exterior Examples.builtin_polygon Boundaries.segments]
      in Hreturns.
    discriminate Hreturns.
  - destruct (Hfront front eq_refl)
      as (_ & _ & _ & frontage & perimeter & Hf & _ & _ & [Hpos _] & _).
    exists front, frontage. split; [reflexivity | ].
    split; [exact Hf | exact Hpos].
Defined.
